(** * Logistix market analysis: a shallow embedding of
      [scripts/python/market_analyzer.py] and [scripts/python/data_persistence.py]

    The development follows the Python sources function by function.

    - [PyFloat]: the values of Python's [float].  A finite value is carried
      as an exact rational, next to the three special values [inf], [-inf]
      and [nan].  Conversions and arithmetic overflow to an infinity where
      a binary64 does; below that, finite results are exact: the rounding
      error and the underflow of binary64 arithmetic are abstracted away.
    - [Py]: exceptions, JSON values as [json.loads] returns them, and the
      builtins the analyzer uses ([float], [dict] subscripting, [dict.get],
      [str.split], [str.lower], [str.join]).
    - [Pandas]: the [Series] reductions the analyzer calls, with their
      default arguments ([skipna=True], [dropna=True], [ddof=1]).  Two
      routines of the libraries are parameters: the square root of numpy,
      and the sort [value_counts] runs on its counts, whose order among
      equal counts the analyzer does not fix.
    - [Persistence]: the [market_analyses] table and the clock.
    - [MarketAnalyzer]: the analyzer itself.
    - [Spec], [Samples]: the notions the properties are stated with, and
      the concrete data they are tried on.

    Text is ASCII text.  The rows of the table are those [save_analysis]
    wrote, so the [analysis_data] column is carried as the result object it
    was dumped from.  That object is what [json.loads] reads back from the
    column, up to the keys of the two distributions, which [json.dumps]
    writes as text; the analyzer itself reads nothing but the price block
    of a snapshot. *)

From Stdlib Require Import ZArith QArith Qround Qabs List String Ascii Bool Arith Lia Lqa.
From Stdlib Require Import Sorting.Sorted Sorting.Permutation.
Import ListNotations.

Local Open Scope Z_scope.

(* ------------------------------------------------------------------ *)
(** ** Python floats *)

Module PyFloat.

Inductive t : Type :=
| Fin (q : Q)
| PInf
| NInf
| NaN.

(** Finite results are kept in lowest terms, so that equal concrete results
    are syntactically equal. *)
Definition fin (q : Q) : t := Fin (Qred q).

Definition of_Z (z : Z) : t := Fin (inject_Z z).
Definition of_nat (n : nat) : t := of_Z (Z.of_nat n).

Definition zero : t := of_Z 0.
Definition one : t := of_Z 1.

Definition is_nan (x : t) : bool :=
  match x with NaN => true | _ => false end.

Definition is_finite (x : t) : bool :=
  match x with Fin _ => true | _ => false end.

(** [Qlt_bool] is not in the library under this name. *)
Definition Qlt_bool (a b : Q) : bool := negb (Qle_bool b a).

(** The least magnitude that no longer rounds to a finite binary64:
    halfway between the largest double and [2^1024]. *)
Definition overflow_threshold : Z := 2 ^ 1024 - 2 ^ 970.

(** An exact value as a double: beyond the range of the doubles it is an
    infinity. *)
Definition of_exact (q : Q) : t :=
  if Qle_bool (inject_Z overflow_threshold) (Qabs q)
  then (if Qlt_bool q 0 then NInf else PInf)
  else fin q.

Definition neg (x : t) : t :=
  match x with
  | Fin q => fin (- q)
  | PInf => NInf
  | NInf => PInf
  | NaN => NaN
  end.

Definition add (x y : t) : t :=
  match x, y with
  | NaN, _ | _, NaN => NaN
  | Fin a, Fin b => of_exact (a + b)
  | PInf, NInf | NInf, PInf => NaN
  | PInf, _ | _, PInf => PInf
  | NInf, _ | _, NInf => NInf
  end.

Definition sub (x y : t) : t := add x (neg y).

(** Sign of a finite value: [1], [0] or [-1]. *)
Definition Qsgn (q : Q) : Z := Z.sgn (Qnum q).

Definition signed_inf (s : Z) : t :=
  if s =? 0 then NaN else if 0 <? s then PInf else NInf.

Definition sgn (x : t) : Z :=
  match x with
  | Fin q => Qsgn q
  | PInf => 1
  | NInf => -1
  | NaN => 0
  end.

Definition mul (x y : t) : t :=
  match x, y with
  | NaN, _ | _, NaN => NaN
  | Fin a, Fin b => of_exact (a * b)
  | _, _ => signed_inf (sgn x * sgn y)
  end.

(** Division as numpy's [float64] performs it: a zero divisor gives an
    infinity or [nan], not [ZeroDivisionError].  Every division of the
    analyzer is guarded by a test on its divisor. *)
Definition div (x y : t) : t :=
  match x, y with
  | NaN, _ | _, NaN => NaN
  | Fin a, Fin b =>
      if Qeq_bool b 0 then signed_inf (Qsgn a) else of_exact (a / b)
  | Fin _, _ => zero
  | _, Fin b => signed_inf (sgn x * (if Qeq_bool b 0 then 1 else Qsgn b))
  | _, _ => NaN
  end.

(** Comparisons: every comparison with [nan] is false. *)
Definition leb (x y : t) : bool :=
  match x, y with
  | NaN, _ | _, NaN => false
  | NInf, _ => true
  | _, PInf => true
  | Fin a, Fin b => Qle_bool a b
  | _, _ => false
  end.

Definition ltb (x y : t) : bool :=
  match x, y with
  | NaN, _ | _, NaN => false
  | Fin a, Fin b => Qlt_bool a b
  | PInf, _ => false
  | _, NInf => false
  | _, _ => true
  end.

Definition gtb (x y : t) : bool := ltb y x.

Definition eqb (x y : t) : bool :=
  match x, y with
  | Fin a, Fin b => Qeq_bool a b
  | PInf, PInf | NInf, NInf => true
  | _, _ => false
  end.

(** Nearest integer, ties to the even one. *)
Definition round_half_even (q : Q) : Z :=
  let n := Qnum q in
  let d := Zpos (Qden q) in
  let fl := n / d in
  let r2 := 2 * (n mod d) in
  if r2 <? d then fl
  else if d <? r2 then fl + 1
  else if Z.even fl then fl else fl + 1.

(** [round(x, 2)]. *)
Definition round2 (x : t) : t :=
  match x with
  | Fin q => of_exact (inject_Z (round_half_even (q * 100)) / 100)
  | _ => x
  end.

End PyFloat.

#[warnings="-notation-for-abbreviation"]
Notation pyfloat := PyFloat.t.

(* ------------------------------------------------------------------ *)
(** ** Python values and builtins *)

Module Py.

(** The exception classes that occur in the analyzer. *)
Inductive exn : Type :=
| KeyError
| TypeError
| ValueError
| OverflowError
| ConnectionError.

(** The outcome of evaluating an expression: a value, or a raised exception. *)
Inductive res (A : Type) : Type :=
| Ok (a : A)
| Raise (e : exn).

Arguments Ok {A} a.
Arguments Raise {A} e.

Definition bind {A B : Type} (c : res A) (k : A -> res B) : res B :=
  match c with
  | Ok a => k a
  | Raise e => Raise e
  end.

(** A decoded JSON document, as [json.loads] builds it.  The decoder accepts
    the literals [NaN], [Infinity] and [-Infinity], so a JSON float is any
    Python float; a JSON integer is an unbounded Python [int]. *)
#[warnings="-register-all"]
Inductive json : Type :=
| JNull
| JBool (b : bool)
| JInt (z : Z)
| JFloat (f : pyfloat)
| JStr (s : string)
| JList (l : list json)
| JDict (d : list (string * json)).

(** A [dict] with string keys, in insertion order. *)
Fixpoint dict_lookup {V : Type} (k : string) (d : list (string * V)) : option V :=
  match d with
  | [] => None
  | (k', v) :: d' => if String.eqb k k' then Some v else dict_lookup k d'
  end.

(** [d[k] = v] for a key that may or may not be present. *)
Fixpoint dict_set {V : Type} (k : string) (v : V) (d : list (string * V))
  : list (string * V) :=
  match d with
  | [] => [(k, v)]
  | (k', v') :: d' =>
      if String.eqb k k' then (k', v) :: d' else (k', v') :: dict_set k v d'
  end.

(** [obj[key]] with a string key: only a [dict] can be subscripted by a
    string; a list or a string raises [TypeError] (indices must be
    integers), the other values are not subscriptable. *)
Definition getitem (obj : json) (key : string) : res json :=
  match obj with
  | JDict d =>
      match dict_lookup key d with
      | Some v => Ok v
      | None => Raise KeyError
      end
  | _ => Raise TypeError
  end.

(** [obj.get(key, default)], used on an [obj] that was already subscripted
    with a string key, hence on a [dict]. *)
Definition get (obj : json) (key : string) (default : json) : res json :=
  match obj with
  | JDict d =>
      match dict_lookup key d with
      | Some v => Ok v
      | None => Ok default
      end
  | _ => Raise TypeError
  end.

(** *** Text *)

Definition chars (s : string) : list ascii := list_ascii_of_string s.
Definition text (l : list ascii) : string := string_of_list_ascii l.

Definition code (c : ascii) : nat := nat_of_ascii c.

(** [str.lower] on ASCII text. *)
Definition lower_char (c : ascii) : ascii :=
  if ((65 <=? code c) && (code c <=? 90))%nat
  then ascii_of_nat (code c + 32) else c.

Definition lower (s : string) : string := text (map lower_char (chars s)).

(** The ASCII characters [str.split()] treats as separators:
    TAB, LF, VT, FF, CR, FS, GS, RS, US and the space. *)
Definition is_whitespace (c : ascii) : bool :=
  (((9 <=? code c) && (code c <=? 13))
   || ((28 <=? code c) && (code c <=? 32)))%nat.

(** [s.split()]: the maximal runs of non-separators, in order.  [cur] is the
    word being read, in reverse. *)
Fixpoint split_aux (cur : list ascii) (s : list ascii) : list string :=
  match s with
  | [] => match cur with [] => [] | _ => [text (rev cur)] end
  | c :: s' =>
      if is_whitespace c
      then match cur with
           | [] => split_aux [] s'
           | _ => text (rev cur) :: split_aux [] s'
           end
      else split_aux (c :: cur) s'
  end.

Definition split (s : string) : list string := split_aux [] (chars s).

(** [sep.join(words)]. *)
Fixpoint join (sep : string) (words : list string) : string :=
  match words with
  | [] => EmptyString
  | [w] => w
  | w :: ws => (w ++ sep ++ join sep ws)%string
  end.

(** *** [float(x)] *)

Definition is_digit (c : ascii) : bool :=
  ((48 <=? code c) && (code c <=? 57))%nat.

(** The characters [float()] strips from both ends of its argument. *)
Definition is_float_space (c : ascii) : bool :=
  (((9 <=? code c) && (code c <=? 13)) || (code c =? 32))%nat.

Fixpoint lstrip (s : list ascii) : list ascii :=
  match s with
  | c :: s' => if is_float_space c then lstrip s' else s
  | [] => []
  end.

Definition strip (s : list ascii) : list ascii :=
  rev (lstrip (rev (lstrip s))).

Definition is_underscore (c : ascii) : bool := (code c =? 95)%nat.

(** An underscore is accepted only between two digits; [prev] tells whether
    the previous character was a digit, [after_us] whether it was an
    underscore.  Returns the text without its underscores. *)
Fixpoint drop_underscores (prev_digit after_us : bool) (s : list ascii)
  : option (list ascii) :=
  match s with
  | [] => if after_us then None else Some []
  | c :: s' =>
      if is_underscore c
      then (if prev_digit then drop_underscores false true s' else None)
      else if after_us && negb (is_digit c) then None
      else option_map (cons c) (drop_underscores (is_digit c) false s')
  end.

Fixpoint span_digits (s : list ascii) : list ascii * list ascii :=
  match s with
  | c :: s' =>
      if is_digit c
      then let '(ds, rest) := span_digits s' in (c :: ds, rest)
      else ([], s)
  | [] => ([], [])
  end.

Definition digit_value (c : ascii) : Z := Z.of_nat (code c) - 48.

Definition digits_value (ds : list ascii) : Z :=
  fold_left (fun acc c => 10 * acc + digit_value c) ds 0.

(** An optional sign: [(negative, rest)]. *)
Definition take_sign (s : list ascii) : bool * list ascii :=
  match s with
  | c :: s' =>
      if (code c =? 45)%nat then (true, s')
      else if (code c =? 43)%nat then (false, s')
      else (false, s)
  | [] => (false, [])
  end.

(** The exponent part [e[+-]digits]; when it is malformed the mantissa
    alone is the number and the rest is left unread. *)
Definition take_exponent (s : list ascii) : Z * list ascii :=
  match s with
  | c :: s' =>
      if ((code c =? 101) || (code c =? 69))%nat
      then let '(negative, s'') := take_sign s' in
           match span_digits s'' with
           | ([], _) => (0, s)
           | (ds, rest) =>
               ((if negative then - digits_value ds else digits_value ds), rest)
           end
      else (0, s)
  | [] => (0, [])
  end.

Definition pow10 (e : Z) : Q :=
  if 0 <=? e then inject_Z (10 ^ e) else (/ inject_Z (10 ^ (- e)))%Q.

(** A decimal literal [digits[.digits][exponent]] with at least one digit
    in the mantissa, read to the end of the text. *)
Definition parse_decimal (s : list ascii) : option Q :=
  let '(int_part, s1) := span_digits s in
  let '(frac_part, s2) :=
    match s1 with
    | c :: s1' => if (code c =? 46)%nat then span_digits s1' else ([], s1)
    | [] => ([], [])
    end in
  match (int_part ++ frac_part)%list with
  | [] => None
  | mantissa =>
      let '(e, s3) := take_exponent s2 in
      match s3 with
      | [] => Some (inject_Z (digits_value mantissa)
                    * pow10 (e - Z.of_nat (List.length frac_part)))%Q
      | _ => None
      end
  end.

Definition lower_text (s : list ascii) : string := text (map lower_char s).

(** [float(s)] for a string: surrounding whitespace is stripped, then the
    text is a signed decimal literal, or a signed [inf], [infinity] or [nan]
    in any letter case.  Anything else raises [ValueError]. *)
Definition float_of_string (s : string) : res pyfloat :=
  let body := strip (chars s) in
  match drop_underscores false false body with
  | None => Raise ValueError
  | Some body' =>
      let '(negative, rest) := take_sign body' in
      match parse_decimal rest with
      | Some q => Ok (PyFloat.of_exact (if negative then (- q)%Q else q))
      | None =>
          let word := lower_text rest in
          if (String.eqb word "inf" || String.eqb word "infinity")%bool
          then Ok (if negative then PyFloat.NInf else PyFloat.PInf)
          else if String.eqb word "nan" then Ok PyFloat.NaN
          else Raise ValueError
      end
  end.

(** [float(n)] for an [int]: a magnitude beyond the doubles raises
    [OverflowError] ("int too large to convert to float"). *)
Definition float_of_int (z : Z) : res pyfloat :=
  if PyFloat.overflow_threshold <=? Z.abs z
  then Raise OverflowError
  else Ok (PyFloat.of_Z z).

(** [float(x)] on a decoded JSON value. *)
Definition float (x : json) : res pyfloat :=
  match x with
  | JFloat f => Ok f
  | JInt z => float_of_int z
  | JBool b => Ok (if b then PyFloat.one else PyFloat.zero)
  | JStr s => float_of_string s
  | JNull | JList _ | JDict _ => Raise TypeError
  end.

(** *** Truth value and iteration *)

(** The truth value of a decoded JSON value, as [if not data] takes it:
    [None], [False], a zero, and the empty text, list and dict are false. *)
Definition truth (v : json) : bool :=
  match v with
  | JNull => false
  | JBool b => b
  | JInt z => negb (z =? 0)
  | JFloat f => negb (PyFloat.eqb f PyFloat.zero)
  | JStr s => negb (String.eqb s EmptyString)
  | JList l => match l with [] => false | _ :: _ => true end
  | JDict d => match d with [] => false | _ :: _ => true end
  end.

(** What [for item in v] goes through: the elements of a list, the keys of
    a dict, the characters of a text.  A number, a boolean and [None] are
    not iterable: the [for] statement raises [TypeError]. *)
Definition iter (v : json) : res (list json) :=
  match v with
  | JList l => Ok l
  | JDict d => Ok (map (fun e => JStr (fst e)) d)
  | JStr s => Ok (map (fun c => JStr (String c EmptyString)) (chars s))
  | JNull | JBool _ | JInt _ | JFloat _ => Raise TypeError
  end.

End Py.

Import Py.

Declare Scope py_scope.
Notation "x <- c ;; k" := (Py.bind c (fun x => k))
  (at level 61, c at next level, right associativity) : py_scope.
Open Scope py_scope.
Open Scope string_scope.

(* ------------------------------------------------------------------ *)
(** ** The pandas reductions used by the analyzer *)

Module Pandas.

(** *** A float64 column *)

(** [skipna=True]: missing values ([nan]) are left out of every reduction. *)
Definition dropna (xs : list pyfloat) : list pyfloat :=
  filter (fun x => negb (PyFloat.is_nan x)) xs.

Definition fmin (a b : pyfloat) : pyfloat := if PyFloat.ltb b a then b else a.
Definition fmax (a b : pyfloat) : pyfloat := if PyFloat.ltb a b then b else a.

(** [Series.min()] and [Series.max()]: [nan] when nothing is left. *)
Definition Series_min (xs : list pyfloat) : pyfloat :=
  match dropna xs with
  | [] => PyFloat.NaN
  | x :: rest => fold_left fmin rest x
  end.

Definition Series_max (xs : list pyfloat) : pyfloat :=
  match dropna xs with
  | [] => PyFloat.NaN
  | x :: rest => fold_left fmax rest x
  end.

Definition sum (xs : list pyfloat) : pyfloat :=
  fold_left PyFloat.add xs PyFloat.zero.

(** [Series.mean()]: the sum of the values present over their number. *)
Definition Series_mean (xs : list pyfloat) : pyfloat :=
  match dropna xs with
  | [] => PyFloat.NaN
  | v => PyFloat.div (sum v) (PyFloat.of_nat (List.length v))
  end.

(** Ascending order of the values present. *)
Fixpoint insert_sorted (x : pyfloat) (l : list pyfloat) : list pyfloat :=
  match l with
  | [] => [x]
  | y :: l' => if PyFloat.leb x y then x :: l else y :: insert_sorted x l'
  end.

Definition sort_values (xs : list pyfloat) : list pyfloat :=
  fold_right insert_sorted [] xs.

(** [Series.median()]: the middle value, or the mean of the two middle
    values when their number is even. *)
Definition Series_median (xs : list pyfloat) : pyfloat :=
  match dropna xs with
  | [] => PyFloat.NaN
  | v =>
      let s := sort_values v in
      let n := List.length s in
      if Nat.even n
      then PyFloat.div
             (PyFloat.add (nth (n / 2 - 1) s PyFloat.NaN) (nth (n / 2) s PyFloat.NaN))
             (PyFloat.of_Z 2)
      else nth (n / 2) s PyFloat.NaN
  end.

Section Std.

(** The square root of numpy, which the rationals cannot express, is a
    parameter of the development. *)
Variable np_sqrt : pyfloat -> pyfloat.

(** [Series.std()], the sample standard deviation ([ddof=1]); [nan] with
    fewer than two values. *)
Definition Series_std (xs : list pyfloat) : pyfloat :=
  let v := dropna xs in
  let count := List.length v in
  if (count <=? 1)%nat then PyFloat.NaN
  else
    let avg := PyFloat.div (sum v) (PyFloat.of_nat count) in
    let sqr := map (fun x => let d := PyFloat.sub avg x in PyFloat.mul d d) v in
    np_sqrt (PyFloat.div (sum sqr) (PyFloat.of_nat (count - 1))).

End Std.

(** *** An object column of labels

    The labels of a column are the decoded JSON values themselves, compared
    as Python objects.  (The conversion of a column made of integers and
    floats only to [float64] is not modelled.) *)

(** Missing labels: [None] and [nan]. *)
Definition isna (v : json) : bool :=
  match v with
  | JNull => true
  | JFloat f => PyFloat.is_nan f
  | _ => false
  end.

(** Lists and dicts cannot be hashed. *)
Definition hashable (v : json) : bool :=
  match v with
  | JList _ | JDict _ => false
  | _ => true
  end.

Definition as_number (v : json) : option pyfloat :=
  match v with
  | JBool b => Some (if b then PyFloat.one else PyFloat.zero)
  | JInt z => Some (PyFloat.of_Z z)
  | JFloat f => Some f
  | _ => None
  end.

(** Equality of two hashable labels, as the hash table of pandas decides
    it: Python's [==], under which [1], [1.0] and [True] are one key. *)
Definition label_eqb (a b : json) : bool :=
  match a, b with
  | JStr s, JStr s' => String.eqb s s'
  | JNull, JNull => true
  | _, _ =>
      match as_number a, as_number b with
      | Some x, Some y => PyFloat.eqb x y
      | _, _ => false
      end
  end.

(** One more occurrence of [l] in a table of counts kept in first-seen
    order. *)
Fixpoint bump (l : json) (counts : list (json * nat)) : list (json * nat) :=
  match counts with
  | [] => [(l, 1%nat)]
  | (k, c) :: counts' =>
      if label_eqb k l then (k, S c) :: counts' else (k, c) :: bump l counts'
  end.

Definition count_first_seen (labels : list json) : list (json * nat) :=
  fold_left (fun counts l => bump l counts) labels [].

Definition present (labels : list json) : list json :=
  filter (fun v => negb (isna v)) labels.

Section Counts.

(** [sort_values(ascending=False)] on the table of counts, as
    [value_counts] calls it.  It lists the entries by descending count.
    The order it leaves the entries of one count in is that of the sorting
    routine of the installed numpy (the default kind, [quicksort], is not
    a stable sort).  The analyzer does not fix it, and the repository
    installs pandas without a version ([api/setup_api_env.py]), so the
    sort is a parameter of the development.  What is known of it is stated
    where it is used ([Spec.sorts_by_count]). *)
Variable sort_counts : list (json * nat) -> list (json * nat).

(** [Series.value_counts()]: the labels present with their number of
    occurrences, most frequent first.  Hashing an unhashable label raises
    [TypeError]. *)
Definition value_counts (labels : list json) : res (list (json * nat)) :=
  if forallb hashable labels
  then Ok (sort_counts (count_first_seen (present labels)))
  else Raise TypeError.

End Counts.

(** [Series.nunique()]: the number of distinct labels present. *)
Definition nunique (labels : list json) : res nat :=
  if forallb hashable labels
  then Ok (List.length (count_first_seen (present labels)))
  else Raise TypeError.

End Pandas.

(* ------------------------------------------------------------------ *)
(** ** [data_persistence.py]: the history table *)

Module Persistence.

(** An instant of the clock.  The table stores its ISO-8601 UTC text; for
    these texts the order of the text is the order of the instants. *)
Definition timestamp : Type := Z.

Section Table.

(** The decoded content of the [analysis_data] column. *)
Variable data : Type.

(** A row of [market_analyses]; the list of rows is in [id] order. *)
Record row : Type := {
  search_text : string;
  analysis_timestamp : timestamp;
  analysis_data : data
}.

(** What the functions of the module act on: the table, and the clock with
    the number of times it was read. *)
Record world : Type := {
  clock : nat -> timestamp;
  ticks : nat;
  db : list row
}.

(** [datetime.now(timezone.utc).isoformat()]. *)
Definition datetime_now (w : world) : timestamp * world :=
  (clock w (ticks w), {| clock := clock w; ticks := S (ticks w); db := db w |}).

(** [save_analysis]: one [INSERT]. *)
Definition save_analysis (key : string) (analysis : data) (w : world) : world :=
  let '(now, w1) := datetime_now w in
  {| clock := clock w1; ticks := ticks w1;
     db := db w1 ++ [ {| search_text := key;
                         analysis_timestamp := now;
                         analysis_data := analysis |} ] |}.

(** [ORDER BY analysis_timestamp DESC]; rows of one instant are left in
    [id] order (SQL leaves their order open). *)
Fixpoint insert_desc (r : row) (l : list row) : list row :=
  match l with
  | [] => [r]
  | r' :: l' =>
      if Z.leb (analysis_timestamp r') (analysis_timestamp r)
      then r :: l else r' :: insert_desc r l'
  end.

Definition order_by_timestamp_desc (l : list row) : list row :=
  fold_right insert_desc [] l.

(** An element of the list [get_historical_analyses] returns. *)
Record snapshot : Type := {
  analysisTimestamp : timestamp;
  analysisData : data
}.

(** [get_historical_analyses]:
    [SELECT ... WHERE search_text = ? ORDER BY analysis_timestamp DESC LIMIT ?]. *)
Definition get_historical_analyses (key : string) (limit : nat) (w : world)
  : list snapshot :=
  let rows :=
    firstn limit
      (order_by_timestamp_desc
         (filter (fun r => String.eqb (search_text r) key) (db w))) in
  map (fun r => {| analysisTimestamp := analysis_timestamp r;
                   analysisData := analysis_data r |}) rows.

End Table.

Arguments search_text {data} _.
Arguments analysis_timestamp {data} _.
Arguments analysis_data {data} _.
Arguments clock {data} _.
Arguments ticks {data} _.
Arguments db {data} _.
Arguments datetime_now {data} _.
Arguments save_analysis {data} _ _ _.
Arguments get_historical_analyses {data} _ _ _.
Arguments analysisTimestamp {data} _.
Arguments analysisData {data} _.

End Persistence.

(* ------------------------------------------------------------------ *)
(** ** [market_analyzer.py] *)

Module MarketAnalyzer.

(** A number of a result object: the literals [0] of the source are
    [int]s, the computed statistics are floats. *)
Inductive number : Type :=
| Int (z : Z)
| Float (f : pyfloat).

Definition to_float (n : number) : pyfloat :=
  match n with
  | Int z => PyFloat.of_Z z
  | Float f => f
  end.

(** [a > b] on numbers. *)
Definition gt (a b : number) : bool := PyFloat.gtb (to_float a) (to_float b).

(** A value of the [kpis] dict: a number or the text ["N/A"]. *)
Inductive kpi_value : Type :=
| Num (n : number)
| Str (s : string).

Definition kpi_block : Type := list (string * kpi_value).

Record price_metrics : Type := {
  price_min : number;
  price_max : number;
  average : number;
  median : number
}.

Record analysis_summary : Type := {
  itemsFound : nat;
  sellersCount : nat
}.

(** A distribution: the dict [value_counts().to_dict()] builds, in
    insertion order. *)
Definition distribution : Type := list (json * nat).

(** The result object of an analysis. *)
Record analysis : Type := {
  analysisTimestamp : Persistence.timestamp;
  priceAnalysis : price_metrics;
  summary : analysis_summary;
  brandDistribution : distribution;
  conditionDistribution : distribution;
  kpis : kpi_block
}.

Definition world : Type := Persistence.world analysis.

(** An element of [records]. *)
Record record : Type := {
  price : pyfloat;
  brand : json;
  condition : json;
  seller_login : json
}.

(** The DataFrame built from [records]: its rows. *)
Definition DataFrame : Type := list record.

(** The catalog endpoint, seen from the analyzer: from the [search_text]
    parameter and the bearer token to what [response.json().get("items", [])]
    returns -- any decoded value, a list of raw items when the endpoint
    keeps to its format -- or to any failure inside the [try] block
    ([raise_for_status], the transport, the decoding of the body, a body
    that is not a dict). *)
Inductive response : Type :=
| Items (data : json)
| Failed.

Definition upstream : Type := string -> string -> response.

Definition corrections : list (string * string) :=
  [ ("nik", "nike");
    ("addidas", "adidas");
    ("pumaa", "puma");
    ("zaraa", "zara");
    ("h&m", "h&m") ].

Definition normalize_brand_name (brand_name : string) : string :=
  match Py.dict_lookup (Py.lower brand_name) corrections with
  | Some corrected => corrected
  | None => brand_name
  end.

(** [' '.join([normalize_brand_name(word) for word in search_text.split()])]. *)
Definition normalized_search_text (search_text : string) : string :=
  Py.join " " (map normalize_brand_name (Py.split search_text)).

(** The column accessors [df["price"]], [df["brand"]], ... *)
Definition prices (df : DataFrame) : list pyfloat := map price df.
Definition brands (df : DataFrame) : list json := map brand df.
Definition conditions (df : DataFrame) : list json := map condition df.
Definition seller_logins (df : DataFrame) : list json := map seller_login df.

Definition is_empty {A : Type} (l : list A) : bool :=
  match l with [] => true | _ => false end.

(** The averages read back from the history: the comprehension of
    [calculate_kpis].  Its three [in] tests hold of every row, since the
    rows of the table are those [save_analysis] wrote from a result
    object. *)
Definition historical_prices
  (historical_analyses : list (Persistence.snapshot analysis)) : list number :=
  map (fun a => average (priceAnalysis (Persistence.analysisData a)))
      historical_analyses.

Definition na : kpi_value := Str "N/A".

Definition float_0_95 : pyfloat := PyFloat.Fin (19 # 20).
Definition float_100 : pyfloat := PyFloat.of_Z 100.

Section Analysis.

(** The two library routines the development leaves open: the square root
    of numpy and the sort of the counts ([Pandas.value_counts]). *)
Variable np_sqrt : pyfloat -> pyfloat.
Variable sort_counts : list (json * nat) -> list (json * nat).

(** The mean of the prices as [calculate_kpis] takes it. *)
Definition average_price (df : DataFrame) : number :=
  if is_empty df then Int 0 else Float (Pandas.Series_mean (prices df)).

(** The price trend of [calculate_kpis], from the list
    [get_historical_analyses] returned. *)
Definition price_trend
  (current_avg : number)
  (historical_analyses : list (Persistence.snapshot analysis)) : number :=
  if (1 <? List.length historical_analyses)%nat then
    let hp := historical_prices historical_analyses in
    if (1 <? List.length hp)%nat then
      let oldest_avg := last hp (Int 0) in
      if gt oldest_avg (Int 0)
      then Float (PyFloat.round2
                    (PyFloat.mul
                       (PyFloat.div
                          (PyFloat.sub (to_float current_avg) (to_float oldest_avg))
                          (to_float oldest_avg))
                       float_100))
      else Float PyFloat.zero
    else Float PyFloat.zero
  else Float PyFloat.zero.

Definition calculate_kpis (df : DataFrame) (search_text : string) (w : world)
  : res kpi_block :=
  let kpis := [] in
  let average_price := average_price df in
  let kpis :=
    Py.dict_set "prixOptimalRecommande"
      (if gt average_price (Int 0)
       then Num (Float (PyFloat.round2
                          (PyFloat.mul (to_float average_price) float_0_95)))
       else Num (Int 0))
      kpis in
  let total_listed_items_estimate := (List.length df * 2)%nat in
  let kpis :=
    Py.dict_set "tauxDeRotation"
      (if (0 <? total_listed_items_estimate)%nat
       then Num (Float (PyFloat.round2
                          (PyFloat.mul
                             (PyFloat.div (PyFloat.of_nat (List.length df))
                                          (PyFloat.of_nat total_listed_items_estimate))
                             float_100)))
       else Num (Float PyFloat.zero))
      kpis in
  let kpis := Py.dict_set "partDeMarcheRelative" na kpis in
  let price_std :=
    if (1 <? List.length df)%nat
    then Float (Pandas.Series_std np_sqrt (prices df)) else Int 0 in
  num_sellers <-
    (if is_empty df then Ok 0%nat else Pandas.nunique (seller_logins df));;
  let kpis :=
    Py.dict_set "scoreCompetitivite"
      (if (0 <? num_sellers)%nat
       then Num (Float (PyFloat.round2
                          (PyFloat.mul
                             (PyFloat.div PyFloat.one
                                          (PyFloat.add (to_float price_std) PyFloat.one))
                             (PyFloat.of_nat num_sellers))))
       else Num (Float PyFloat.zero))
      kpis in
  let historical_analyses :=
    Persistence.get_historical_analyses search_text 30 w in
  let kpis :=
    Py.dict_set "tendancePrix30Jours"
      (Num (price_trend average_price historical_analyses)) kpis in
  let kpis := Py.dict_set "elasticitePrix" na kpis in
  Ok kpis.

(** The dict literal of the loop body; its entries are evaluated in
    order. *)
Definition record_of_item (item : json) : res record :=
  price_obj <- Py.getitem item "price";;
  amount <- Py.getitem price_obj "amount";;
  price <- Py.float amount;;
  brand <- Py.get item "brand_title" (JStr "Non spécifié");;
  condition <- Py.get item "status" (JStr "Non spécifié");;
  user <- Py.getitem item "user";;
  login <- Py.getitem user "login";;
  Ok {| price := price; brand := brand; condition := condition;
        seller_login := login |}.

(** [except (KeyError, TypeError, ValueError)]. *)
Definition caught (e : exn) : bool :=
  match e with
  | KeyError | TypeError | ValueError => true
  | _ => false
  end.

(** The body of the loop, [try: records.append(...) except ...: continue],
    on every item the iteration of [data] yields. *)
Fixpoint collect_records (data : list json) (records : list record)
  : res (list record) :=
  match data with
  | [] => Ok records
  | item :: data' =>
      match record_of_item item with
      | Ok r => collect_records data' (records ++ [r])
      | Raise e => if caught e then collect_records data' records else Raise e
      end
  end.

(** The statements [records = []] and [for item in data: ...]: the [for]
    statement iterates [data], outside the [try], and runs the loop body on
    every item. *)
Definition records_of (data : json) : res (list record) :=
  items <- Py.iter data;;
  collect_records items [].

Definition analyze_market_by_product_name
  (vinted : upstream) (search_text access_token : string) (w : world)
  : res (analysis * world) :=
  let normalized_search_text := normalized_search_text search_text in
  data <- match vinted normalized_search_text access_token with
          | Items data => Ok data
          | Failed => Raise ConnectionError
          end;;
  if negb (Py.truth data) then
    let '(now, w) := Persistence.datetime_now w in
    let empty_analysis :=
      {| analysisTimestamp := now;
         priceAnalysis := {| price_min := Int 0; price_max := Int 0;
                             average := Int 0; median := Int 0 |};
         summary := {| itemsFound := 0; sellersCount := 0 |};
         brandDistribution := [];
         conditionDistribution := [];
         kpis := [] |} in
    let w := Persistence.save_analysis search_text empty_analysis w in
    Ok (empty_analysis, w)
  else
    records <- records_of data;;
    if is_empty records then
      let '(now, w) := Persistence.datetime_now w in
      let empty_analysis_no_records :=
        {| analysisTimestamp := now;
           priceAnalysis := {| price_min := Int 0; price_max := Int 0;
                               average := Int 0; median := Int 0 |};
           summary := {| itemsFound := 0; sellersCount := 0 |};
           brandDistribution := [];
           conditionDistribution := [];
           kpis := [] |} in
      let w := Persistence.save_analysis search_text empty_analysis_no_records w in
      Ok (empty_analysis_no_records, w)
    else
      let df : DataFrame := records in
      let price_metrics :=
        {| price_min := Float (Pandas.Series_min (prices df));
           price_max := Float (Pandas.Series_max (prices df));
           average := Float (PyFloat.round2 (Pandas.Series_mean (prices df)));
           median := Float (Pandas.Series_median (prices df)) |} in
      sellers <- Pandas.nunique (seller_logins df);;
      let analysis_summary :=
        {| itemsFound := List.length df; sellersCount := sellers |} in
      calculated_kpis <- calculate_kpis df search_text w;;
      let '(now, w) := Persistence.datetime_now w in
      brand_counts <- Pandas.value_counts sort_counts (brands df);;
      condition_counts <- Pandas.value_counts sort_counts (conditions df);;
      let final_result :=
        {| analysisTimestamp := now;
           priceAnalysis := price_metrics;
           summary := analysis_summary;
           brandDistribution := brand_counts;
           conditionDistribution := condition_counts;
           kpis := calculated_kpis |} in
      let w := Persistence.save_analysis search_text final_result w in
      Ok (final_result, w).

End Analysis.

End MarketAnalyzer.

(* ------------------------------------------------------------------ *)
(** ** Notions used to state the properties *)

Module Spec.

Import MarketAnalyzer.

(** The canonical empty result of the specification, stamped [now]. *)
Definition canonical_empty_result (now : Persistence.timestamp) : analysis :=
  {| analysisTimestamp := now;
     priceAnalysis := {| price_min := Int 0; price_max := Int 0;
                         average := Int 0; median := Int 0 |};
     summary := {| itemsFound := 0; sellersCount := 0 |};
     brandDistribution := [];
     conditionDistribution := [];
     kpis := [] |}.

(** The world after one result was stored under [key]: the clock was read
    twice, once for the result and once for the row. *)
Definition stored (key : string) (r : analysis) (w : world) : world :=
  {| Persistence.clock := Persistence.clock w;
     Persistence.ticks := S (S (Persistence.ticks w));
     Persistence.db :=
       Persistence.db w
       ++ [ {| Persistence.search_text := key;
               Persistence.analysis_timestamp :=
                 Persistence.clock w (S (Persistence.ticks w));
               Persistence.analysis_data := r |} ] |}.

(** The instant the result of a run from [w] is stamped with. *)
Definition stamp (w : world) : Persistence.timestamp :=
  Persistence.clock w (Persistence.ticks w).

(** [item['price']['amount']]. *)
Definition amount_of (item : json) : res json :=
  price_obj <- Py.getitem item "price";;
  Py.getitem price_obj "amount".

(** [float(item['price']['amount'])]. *)
Definition price_of (item : json) : res pyfloat :=
  amount <- amount_of item;;
  Py.float amount.

(** What one item contributes to [records]. *)
Definition retained (item : json) : list record :=
  match record_of_item item with
  | Ok r => [r]
  | Raise _ => []
  end.

(** The raw items of a run: those the loop goes through, and none when
    [data] is false, where the loop is not reached. *)
Definition raw_items (data : json) : res (list json) :=
  if Py.truth data then Py.iter data else Ok [].

(** Rows by descending instant. *)
Definition newer_first {data : Type} (a b : Persistence.row data) : Prop :=
  Persistence.analysis_timestamp b <= Persistence.analysis_timestamp a.

(** [x <= y] on the numbers of a result. *)
Definition le (x y : number) : Prop :=
  PyFloat.leb (to_float x) (to_float y) = true.

(** A magnitude no price of the batches considered exceeds: twice as much
    is still a double. *)
Definition price_bound : Q := inject_Z (10 ^ 307).

(** [x] is finite, of magnitude at most [price_bound]. *)
Definition moderate (x : pyfloat) : Prop :=
  match x with
  | PyFloat.Fin q => (Qabs q <= price_bound)%Q
  | _ => False
  end.

Definition moderate_prices (df : DataFrame) : Prop :=
  Forall (fun r => moderate (price r)) df.

(** The number of labels equal to [k]. *)
Definition occurrences (k : json) (labels : list json) : nat :=
  List.length (filter (Pandas.label_eqb k) labels).

(** The distinct labels, each at the place of its first occurrence. *)
Fixpoint first_seen (labels : list json) : list json :=
  match labels with
  | [] => []
  | l :: rest =>
      l :: filter (fun x => negb (Pandas.label_eqb l x)) (first_seen rest)
  end.

(** A label that enters the counts: hashable and not missing. *)
Definition countable (l : json) : Prop :=
  Pandas.hashable l = true /\ Pandas.isna l = false.

(** [x] is one of [keys], up to the equality of labels. *)
Definition among (x : json) (keys : list json) : bool :=
  existsb (fun k => Pandas.label_eqb k x) keys.

(** The total count [table] holds for the label [k]. *)
Fixpoint count_in (k : json) (table : list (json * nat)) : nat :=
  match table with
  | [] => 0
  | e :: table' =>
      ((if Pandas.label_eqb (fst e) k then snd e else 0) + count_in k table')%nat
  end.

(** No two of the [keys] are equal labels. *)
Fixpoint distinct (keys : list json) : Prop :=
  match keys with
  | [] => True
  | k :: keys' =>
      (forall x, In x keys' -> Pandas.label_eqb k x = false) /\ distinct keys'
  end.

(** A distribution lists its entries by descending count. *)
Definition descending (d : distribution) : Prop :=
  StronglySorted (fun a b => (snd b <= snd a)%nat) d.

(** The keys of the entries of [d] whose count is [c], in the order of [d]. *)
Definition keys_with_count (c : nat) (d : distribution) : list json :=
  map fst (filter (fun e => (snd e =? c)%nat) d).

(** [d] is the value-counts presentation of [labels] with ties broken by
    first occurrence: descending counts, and for every count the labels
    that occur so many times, in the order of their first occurrence. *)
Definition value_counts_of (labels : list json) (d : distribution) : Prop :=
  descending d
  /\ forall c, keys_with_count c d
               = filter (fun k => (occurrences k labels =? c)%nat)
                        (first_seen labels).

(** [d] holds the group-by counts of [labels] by descending count: for
    every count, the keys of that count are the distinct labels that occur
    so many times, each once, in some order. *)
Definition counts_of (labels : list json) (d : distribution) : Prop :=
  descending d
  /\ forall c, Permutation (keys_with_count c d)
                           (filter (fun k => (occurrences k labels =? c)%nat)
                                   (first_seen labels)).

(** What is known of the sort of the counts: it rearranges the entries of
    the table, and lists them by descending count. *)
Definition sorts_by_count
  (sort : list (json * nat) -> list (json * nat)) : Prop :=
  forall table, Permutation (sort table) table /\ descending (sort table).

(** The history comes most recent first. *)
Definition most_recent_first
  (h : list (Persistence.snapshot analysis)) : Prop :=
  StronglySorted
    (fun a b => Persistence.analysisTimestamp b <= Persistence.analysisTimestamp a)
    h.

End Spec.

(* ------------------------------------------------------------------ *)
(** ** Sample data *)

Module Samples.

Import MarketAnalyzer.

(** A raw item with every field the analyzer reads. *)
Definition item (amount : json) (brand status login : string) : json :=
  JDict [ ("price", JDict [("amount", amount)]);
          ("brand_title", JStr brand);
          ("status", JStr status);
          ("user", JDict [("login", JStr login)]) ].

(** A raw item without seller login. *)
Definition item_without_login (amount : json) : json :=
  JDict [ ("price", JDict [("amount", amount)]); ("user", JDict []) ].

(** An upstream that answers every request with [data]. *)
Definition serving (data : list json) : upstream :=
  fun _ _ => Items (JList data).

(** A clock that advances by one at every reading, and a table with the
    given rows. *)
Definition world_with (rows : list (Persistence.row analysis)) : world :=
  {| Persistence.clock := fun n => 1000 + Z.of_nat n;
     Persistence.ticks := 0;
     Persistence.db := rows |}.

Definition empty_world : world := world_with [].

(** A stored row whose result has the given average. *)
Definition past (key : string) (at_ : Z) (avg : Z) : Persistence.row analysis :=
  {| Persistence.search_text := key;
     Persistence.analysis_timestamp := at_;
     Persistence.analysis_data :=
       {| analysisTimestamp := at_;
          priceAnalysis := {| price_min := Float (PyFloat.of_Z avg);
                              price_max := Float (PyFloat.of_Z avg);
                              average := Float (PyFloat.of_Z avg);
                              median := Float (PyFloat.of_Z avg) |};
          summary := {| itemsFound := 1; sellersCount := 1 |};
          brandDistribution := [];
          conditionDistribution := [];
          kpis := [] |} |}.

(** A stand-in for the square root where its value does not matter. *)
Definition some_sqrt : pyfloat -> pyfloat := fun x => x.

(** Two sorts of the counts.  The first inserts every entry in front of
    the entries it does not fall below: the entries of one count stay in
    the order of the table, first seen first.  The second does so from the
    other end of the table: the entries of one count come last seen
    first. *)
Fixpoint insert_by_count (e : json * nat) (l : list (json * nat))
  : list (json * nat) :=
  match l with
  | [] => [e]
  | e' :: l' =>
      if (snd e' <=? snd e)%nat then e :: l else e' :: insert_by_count e l'
  end.

Definition stable_sort (l : list (json * nat)) : list (json * nat) :=
  fold_right insert_by_count [] l.

Definition reversing_sort (l : list (json * nat)) : list (json * nat) :=
  stable_sort (rev l).

Definition one_record (p : pyfloat) : DataFrame :=
  [ {| price := p; brand := JStr "Nike"; condition := JStr "Bon";
       seller_login := JStr "anna" |} ].

End Samples.

(* ------------------------------------------------------------------ *)
(** ** Notions used to state the further properties *)

Module Extra.

Import MarketAnalyzer.

(** A word: a non-empty text without separator. *)
Definition word (w : string) : Prop :=
  w <> EmptyString
  /\ forallb (fun c => negb (Py.is_whitespace c)) (Py.chars w) = true.

(** The sum of the counts of a distribution. *)
Definition total (d : distribution) : nat :=
  fold_right (fun e acc => (snd e + acc)%nat) 0%nat d.

(** The number of raw items the loop makes a record of. *)
Definition well_formed_count (data : list json) : nat :=
  List.length (filter (fun item => match record_of_item item with
                                   | Ok _ => true
                                   | Raise _ => false
                                   end) data).

(** A raw item whose brand is [null]. *)
Definition item_with_null_brand (amount : json) (login : string) : json :=
  JDict [ ("price", JDict [("amount", amount)]);
          ("brand_title", JNull);
          ("user", JDict [("login", JStr login)]) ].

(** A batch of three items, the second with the brand [null]. *)
Definition batch_with_null_brand : list json :=
  [ Samples.item (JStr "40") "Nike" "Bon" "anna";
    item_with_null_brand (JStr "10") "bob";
    Samples.item (JStr "30") "Nike" "Neuf" "anna" ].

(** A batch whose only item has a list as brand. *)
Definition batch_with_list_brand : list json :=
  [ JDict [ ("price", JDict [("amount", JStr "10")]);
            ("brand_title", JList [JStr "Nike"; JStr "Zara"]);
            ("user", JDict [("login", JStr "anna")]) ] ].

(** The raw item is a dict without the key, so that [item.get(key, default)]
    returns the default. *)
Definition lacks (key : string) (item : json) : Prop :=
  forall d, item = JDict d -> Py.dict_lookup key d = None.

(** The label a record gets for a missing brand or condition. *)
Definition not_specified : json := JStr "Non spécifié".

(** Two raw items without brand title. *)
Definition batch_without_brand_titles : list json :=
  [ JDict [ ("price", JDict [("amount", JStr "10")]);
            ("status", JStr "Bon");
            ("user", JDict [("login", JStr "anna")]) ];
    JDict [ ("price", JDict [("amount", JStr "12")]);
            ("user", JDict [("login", JStr "bob")]) ] ].

(** A value the [for] statement cannot iterate: [None], a boolean or a
    number. *)
Definition not_iterable (v : json) : Prop :=
  match v with
  | JNull | JBool _ | JInt _ | JFloat _ => True
  | JStr _ | JList _ | JDict _ => False
  end.


(** [0 <= x] and [x <= 0] on floats. *)
Definition nonneg (x : pyfloat) : Prop := PyFloat.leb PyFloat.zero x = true.
Definition nonpos (x : pyfloat) : Prop := PyFloat.leb x PyFloat.zero = true.

(** The keys of the [kpis] dict of a non-empty batch, in order. *)
Definition kpi_keys : list string :=
  [ "prixOptimalRecommande"; "tauxDeRotation"; "partDeMarcheRelative";
    "scoreCompetitivite"; "tendancePrix30Jours"; "elasticitePrix" ].

End Extra.

(* ------------------------------------------------------------------ *)
(** * Lemmas *)

Import MarketAnalyzer.

(** ** The builtins and the reductions on examples *)

Example float_examples :
  Py.float (JStr " 12.50 ") = Ok (PyFloat.Fin (25 # 2))
  /\ Py.float (JStr "-5") = Ok (PyFloat.Fin (-5 # 1))
  /\ Py.float (JStr "1_000e-1") = Ok (PyFloat.Fin 100)
  /\ Py.float (JStr "NaN") = Ok PyFloat.NaN
  /\ Py.float (JStr "-Infinity") = Ok PyFloat.NInf
  /\ Py.float (JStr "1e999") = Ok PyFloat.PInf
  /\ Py.float (JStr "12,50") = Raise ValueError
  /\ Py.float (JStr "1e") = Raise ValueError
  /\ Py.float (JStr "") = Raise ValueError
  /\ Py.float (JStr ".") = Raise ValueError
  /\ Py.float JNull = Raise TypeError
  /\ Py.float (JInt (10 ^ 400)) = Raise OverflowError.
Proof. vm_compute. repeat split; reflexivity. Qed.

Example split_examples :
  Py.split "  nik  Air   max " = ["nik"; "Air"; "max"]
  /\ Py.join " " ["a"; "b"; "c"] = "a b c"
  /\ Py.lower "NiK" = "nik".
Proof. vm_compute. repeat split; reflexivity. Qed.

Example value_counts_example :
  Pandas.value_counts Samples.stable_sort
    [JStr "Nike"; JStr "Zara"; JNull; JStr "Puma"; JStr "Zara"; JStr "Puma"]
  = Ok [(JStr "Zara", 2%nat); (JStr "Puma", 2%nat); (JStr "Nike", 1%nat)]
  /\ Pandas.value_counts Samples.reversing_sort
       [JStr "Nike"; JStr "Zara"; JNull; JStr "Puma"; JStr "Zara"; JStr "Puma"]
     = Ok [(JStr "Puma", 2%nat); (JStr "Zara", 2%nat); (JStr "Nike", 1%nat)].
Proof. split; reflexivity. Qed.

Example iteration_examples :
  Py.iter (JDict [("price", JInt 3); ("user", JNull)])
  = Ok [JStr "price"; JStr "user"]
  /\ Py.iter (JStr "ab") = Ok [JStr "a"; JStr "b"]
  /\ Py.iter (JInt 5) = Raise TypeError
  /\ Py.truth (JInt 5) = true
  /\ Py.truth (JFloat PyFloat.NaN) = true
  /\ Py.truth (JFloat (PyFloat.Fin 0)) = false
  /\ Py.truth (JDict []) = false.
Proof. repeat split; reflexivity. Qed.

Example median_examples :
  Pandas.Series_median (map PyFloat.of_Z [40; 10; 30; 20]) = PyFloat.Fin 25
  /\ Pandas.Series_median (map PyFloat.of_Z [30; 10; 20]) = PyFloat.Fin 20
  /\ Pandas.Series_mean (map PyFloat.of_Z [10; 20; 30; 40]) = PyFloat.Fin 25
  /\ Pandas.Series_min [PyFloat.NaN; PyFloat.of_Z 3; PyFloat.of_Z 2] = PyFloat.Fin 2
  /\ Pandas.Series_median [PyFloat.NInf; PyFloat.PInf] = PyFloat.NaN.
Proof. vm_compute. repeat split; reflexivity. Qed.

(** ** The shape of a run *)

(** The next bound computation of the goal returned [x]; were it to raise,
    the goal would not be a result. *)
Ltac bind_ok x H :=
  match goal with
  | |- context [Py.bind ?c _] =>
      destruct c as [x|] eqn:H; cbn [Py.bind]; [|discriminate]
  end.

(** The raw items of a list are its elements.  A record is retained from
    a list only: the keys of a dict and the characters of a text are
    texts, which the loop skips. *)
Lemma raw_items_list (data : list json) : Spec.raw_items (JList data) = Ok data.
Proof. destruct data; reflexivity. Qed.

Lemma collect_records_texts (items : list json) (acc : list record) :
  Forall (fun item => exists s, item = JStr s) items ->
  collect_records items acc = Ok acc.
Proof.
  intros H. revert acc. induction H as [|item items [s ->] _ IH]; intros acc.
  - reflexivity.
  - simpl. apply IH.
Qed.

Lemma raw_items_retained (data : json) (items : list json) (recs : list record) :
  Spec.raw_items data = Ok items ->
  collect_records items [] = Ok recs ->
  recs <> [] ->
  data = JList items.
Proof.
  unfold Spec.raw_items. intros Hitems Hrecs Hne.
  assert (Htexts : forall l : list json,
             Forall (fun item => exists s, item = JStr s) l ->
             items = l -> False).
  { intros l Hl ->. rewrite (collect_records_texts l [] Hl) in Hrecs.
    inversion Hrecs. congruence. }
  destruct (Py.truth data).
  - destruct data as [| b | z | f | s | l | d]; simpl in Hitems;
      try discriminate; inversion Hitems; subst items.
    + exfalso. eapply Htexts; [|reflexivity].
      apply Forall_forall. intros item Hin. apply in_map_iff in Hin.
      destruct Hin as (c & <- & _). eexists. reflexivity.
    + reflexivity.
    + exfalso. eapply Htexts; [|reflexivity].
      apply Forall_forall. intros item Hin. apply in_map_iff in Hin.
      destruct Hin as (e & <- & _). eexists. reflexivity.
  - inversion Hitems; subst items. simpl in Hrecs. inversion Hrecs. congruence.
Qed.

(** What a run that returns went through. *)
Lemma analyze_inv np_sqrt sort_counts vinted s tok w r w' :
  analyze_market_by_product_name np_sqrt sort_counts vinted s tok w = Ok (r, w') ->
  exists data items recs,
    vinted (normalized_search_text s) tok = Items data
    /\ Spec.raw_items data = Ok items
    /\ collect_records items [] = Ok recs
    /\ w' = Spec.stored s r w
    /\ analysisTimestamp r = Spec.stamp w
    /\ ((recs = [] /\ r = Spec.canonical_empty_result (Spec.stamp w))
        \/ (recs <> []
            /\ priceAnalysis r
               = {| price_min := Float (Pandas.Series_min (prices recs));
                    price_max := Float (Pandas.Series_max (prices recs));
                    average := Float (PyFloat.round2 (Pandas.Series_mean (prices recs)));
                    median := Float (Pandas.Series_median (prices recs)) |}
            /\ itemsFound (summary r) = List.length recs
            /\ Pandas.nunique (seller_logins recs) = Ok (sellersCount (summary r))
            /\ calculate_kpis np_sqrt recs s w = Ok (kpis r)
            /\ Pandas.value_counts sort_counts (brands recs)
               = Ok (brandDistribution r)
            /\ Pandas.value_counts sort_counts (conditions recs)
               = Ok (conditionDistribution r))).
Proof.
  unfold analyze_market_by_product_name, Spec.raw_items.
  destruct (vinted (normalized_search_text s) tok) as [data|] eqn:Hfetch;
    simpl; [|discriminate].
  destruct (Py.truth data) eqn:Htruth; cbn [negb].
  - bind_ok recs Hrecs. unfold records_of in Hrecs.
    destruct (Py.iter data) as [items|] eqn:Hitems; cbn [Py.bind] in Hrecs;
      [|discriminate].
    destruct recs as [|rec recs].
    + simpl. intros H. inversion H; subst; clear H.
      exists data, items, []. rewrite Htruth. repeat split; auto.
    + cbn [is_empty]. bind_ok n Hn. bind_ok kp Hk.
      cbn [Persistence.datetime_now]. bind_ok bc Hb. bind_ok cc Hc.
      intros H. inversion H; subst; clear H.
      exists data, items, (rec :: recs). rewrite Htruth.
      repeat split; auto. right. repeat split; auto. discriminate.
  - simpl. intros H. inversion H; subst; clear H.
    exists data, [], []. rewrite Htruth. repeat split; auto.
Qed.

(** The same, for a run whose batch is known. *)
Lemma analyze_of_batch np_sqrt sort_counts vinted s tok w r w' data recs :
  vinted (normalized_search_text s) tok = Items (JList data) ->
  collect_records data [] = Ok recs ->
  analyze_market_by_product_name np_sqrt sort_counts vinted s tok w = Ok (r, w') ->
  (recs = [] /\ r = Spec.canonical_empty_result (Spec.stamp w))
  \/ (recs <> []
      /\ priceAnalysis r
         = {| price_min := Float (Pandas.Series_min (prices recs));
              price_max := Float (Pandas.Series_max (prices recs));
              average := Float (PyFloat.round2 (Pandas.Series_mean (prices recs)));
              median := Float (Pandas.Series_median (prices recs)) |}
      /\ itemsFound (summary r) = List.length recs
      /\ Pandas.nunique (seller_logins recs) = Ok (sellersCount (summary r))
      /\ calculate_kpis np_sqrt recs s w = Ok (kpis r)
      /\ Pandas.value_counts sort_counts (brands recs) = Ok (brandDistribution r)
      /\ Pandas.value_counts sort_counts (conditions recs)
         = Ok (conditionDistribution r)).
Proof.
  intros Hfetch Hrecs Hrun.
  destruct (analyze_inv _ _ _ _ _ _ _ _ Hrun)
    as (data' & items & recs' & Hfetch' & Hitems & Hrecs' & _ & _ & Hcase).
  rewrite Hfetch in Hfetch'. inversion Hfetch'; subst data'.
  rewrite raw_items_list in Hitems. inversion Hitems; subst items.
  rewrite Hrecs in Hrecs'. inversion Hrecs'; subst recs'.
  exact Hcase.
Qed.

(** A batch whose labels can all be hashed is analysed to the end. *)
Lemma analyze_returns np_sqrt sort_counts vinted s tok w data recs :
  vinted (normalized_search_text s) tok = Items (JList data) ->
  collect_records data [] = Ok recs ->
  forallb Pandas.hashable (brands recs) = true ->
  forallb Pandas.hashable (conditions recs) = true ->
  forallb Pandas.hashable (seller_logins recs) = true ->
  exists r, analyze_market_by_product_name np_sqrt sort_counts vinted s tok w
            = Ok (r, Spec.stored s r w).
Proof.
  intros Hfetch Hrecs Hb Hc Hs.
  unfold analyze_market_by_product_name. rewrite Hfetch. cbn [Py.bind].
  destruct data as [|item data].
  - simpl. eexists. reflexivity.
  - cbn [Py.truth negb records_of Py.iter Py.bind]. rewrite Hrecs. cbn [Py.bind].
    destruct recs as [|rec recs].
    + simpl. eexists. reflexivity.
    + cbn [is_empty]. unfold calculate_kpis, Pandas.nunique, Pandas.value_counts.
      rewrite Hb, Hc, Hs. cbn [Py.bind is_empty Persistence.datetime_now].
      eexists. reflexivity.
Qed.

(** A run that retains no record, whatever the value of ["items"] -- a
    false value, a dict or a text, or items the loop skips -- returns the
    canonical empty result and stores it. *)
Lemma analyze_of_no_record np_sqrt sort_counts vinted s tok w data items :
  vinted (normalized_search_text s) tok = Items data ->
  Spec.raw_items data = Ok items ->
  collect_records items [] = Ok [] ->
  analyze_market_by_product_name np_sqrt sort_counts vinted s tok w
  = Ok (Spec.canonical_empty_result (Spec.stamp w),
        Spec.stored s (Spec.canonical_empty_result (Spec.stamp w)) w).
Proof.
  intros Hfetch Hitems Hrecs.
  unfold analyze_market_by_product_name, Spec.raw_items in *.
  rewrite Hfetch. cbn [Py.bind].
  destruct (Py.truth data); cbn [negb].
  - unfold records_of. rewrite Hitems. cbn [Py.bind]. rewrite Hrecs.
    reflexivity.
  - reflexivity.
Qed.

(** ** Arithmetic of the indicators *)

(** Below the threshold an exact value is itself. *)
Lemma of_exact_in_range (q : Q) :
  (Qabs q < inject_Z PyFloat.overflow_threshold)%Q ->
  PyFloat.of_exact q = PyFloat.Fin (Qred q).
Proof.
  intros H. unfold PyFloat.of_exact.
  destruct (Qle_bool (inject_Z PyFloat.overflow_threshold) (Qabs q)) eqn:E;
    [|reflexivity].
  apply Qle_bool_iff in E. exfalso. eapply Qlt_not_le; eassumption.
Qed.

Lemma half_of_twice (n : nat) :
  (0 < n)%nat ->
  PyFloat.div (PyFloat.of_nat n) (PyFloat.of_nat (n * 2)) = PyFloat.Fin (1 # 2).
Proof.
  intros Hn. unfold PyFloat.of_nat, PyFloat.of_Z, PyFloat.div.
  destruct (Qeq_bool (inject_Z (Z.of_nat (n * 2))) 0) eqn:E.
  - apply Qeq_bool_iff in E. unfold Qeq in E. simpl in E. lia.
  - assert (Hhalf : (inject_Z (Z.of_nat n) / inject_Z (Z.of_nat (n * 2)) == 1 # 2)%Q).
    { rewrite Nat2Z.inj_mul. change (Z.of_nat 2) with 2%Z.
      rewrite inject_Z_mult. field.
      intros H. unfold Qeq in H. simpl in H. lia. }
    rewrite of_exact_in_range.
    + f_equal. change (1 # 2)%Q with (Qred (1 # 2)).
      apply Qred_complete. exact Hhalf.
    + rewrite Hhalf. vm_compute. reflexivity.
Qed.

Lemma turnover_of_nonempty (n : nat) :
  (0 < n)%nat ->
  PyFloat.round2
    (PyFloat.mul (PyFloat.div (PyFloat.of_nat n) (PyFloat.of_nat (n * 2)))
                 float_100)
  = PyFloat.Fin 50.
Proof. intros Hn. rewrite half_of_twice by assumption. reflexivity. Qed.

(** The entries of the [kpis] dict of a call that returns. *)
Lemma calculate_kpis_inv np_sqrt df s w kp :
  calculate_kpis np_sqrt df s w = Ok kp ->
  exists score,
    kp = [ ("prixOptimalRecommande",
            if gt (average_price df) (Int 0)
            then Num (Float (PyFloat.round2
                               (PyFloat.mul (to_float (average_price df)) float_0_95)))
            else Num (Int 0));
           ("tauxDeRotation",
            if (0 <? List.length df * 2)%nat
            then Num (Float (PyFloat.round2
                               (PyFloat.mul
                                  (PyFloat.div (PyFloat.of_nat (List.length df))
                                               (PyFloat.of_nat (List.length df * 2)))
                                  float_100)))
            else Num (Float PyFloat.zero));
           ("partDeMarcheRelative", Str "N/A");
           ("scoreCompetitivite", score);
           ("tendancePrix30Jours",
            Num (price_trend (average_price df)
                   (Persistence.get_historical_analyses s 30 w)));
           ("elasticitePrix", Str "N/A") ].
Proof.
  unfold calculate_kpis.
  destruct (if is_empty df then Ok 0%nat else Pandas.nunique (seller_logins df))
    as [n|]; cbn [Py.bind]; [|discriminate].
  intros H. inversion H; subst; clear H.
  eexists. reflexivity.
Qed.

(** [calculate_kpis] reads the table through the history of its key. *)
Lemma calculate_kpis_history np_sqrt df s (w w2 : world) :
  Persistence.get_historical_analyses s 30 w2
  = Persistence.get_historical_analyses s 30 w ->
  calculate_kpis np_sqrt df s w2 = calculate_kpis np_sqrt df s w.
Proof. intros H. unfold calculate_kpis. rewrite H. reflexivity. Qed.

(** ** The history table *)

Section History.

Variable data : Type.

Lemma insert_desc_In (r x : Persistence.row data)
      (l : list (Persistence.row data)) :
  In x (Persistence.insert_desc data r l) <-> x = r \/ In x l.
Proof.
  induction l as [|y l IH]; simpl.
  - intuition.
  - destruct (Z.leb _ _); simpl; [intuition|].
    rewrite IH. intuition.
Qed.

Lemma insert_desc_sorted (r : Persistence.row data)
      (l : list (Persistence.row data)) :
  StronglySorted Spec.newer_first l ->
  StronglySorted Spec.newer_first (Persistence.insert_desc data r l).
Proof.
  induction 1 as [|y l Hs IH Hy]; simpl.
  - repeat constructor.
  - destruct (Z.leb _ _) eqn:E.
    + apply Z.leb_le in E. constructor; [constructor; assumption|].
      constructor; [exact E|].
      rewrite Forall_forall in *. intros z Hz. specialize (Hy z Hz).
      unfold Spec.newer_first in *. lia.
    + apply Z.leb_gt in E. constructor; [assumption|].
      rewrite Forall_forall in *. intros z Hz.
      apply insert_desc_In in Hz. destruct Hz as [->|Hz].
      * unfold Spec.newer_first. lia.
      * auto.
Qed.

Lemma order_by_timestamp_desc_sorted (l : list (Persistence.row data)) :
  StronglySorted Spec.newer_first (Persistence.order_by_timestamp_desc data l).
Proof.
  induction l; simpl; [constructor|]. apply insert_desc_sorted. assumption.
Qed.

Lemma firstn_incl {A : Type} (n : nat) (l : list A) (x : A) :
  In x (firstn n l) -> In x l.
Proof.
  revert n. induction l as [|y l IH]; intros [|n]; simpl; try tauto.
  intros [->|H]; [left; reflexivity|right; eauto].
Qed.

Lemma firstn_sorted (R : Persistence.row data -> Persistence.row data -> Prop)
      (n : nat) (l : list (Persistence.row data)) :
  StronglySorted R l -> StronglySorted R (firstn n l).
Proof.
  intros H. revert n. induction H as [|x l Hs IH Hx]; intros [|n]; simpl;
    try constructor; auto.
  rewrite Forall_forall in *. intros y Hy. apply Hx.
  eapply firstn_incl; eassumption.
Qed.

Lemma map_sorted {B : Type} (f : Persistence.row data -> B)
      (R : Persistence.row data -> Persistence.row data -> Prop)
      (R' : B -> B -> Prop) (l : list (Persistence.row data)) :
  (forall a b, R a b -> R' (f a) (f b)) ->
  StronglySorted R l -> StronglySorted R' (map f l).
Proof.
  intros Hf. induction 1 as [|x l Hs IH Hx]; simpl; constructor; auto.
  rewrite Forall_forall in *. intros y Hy.
  apply in_map_iff in Hy. destruct Hy as (z & <- & Hz). auto.
Qed.

(** The history has at most [limit] snapshots. *)
Lemma get_historical_analyses_length key limit (w : Persistence.world data) :
  (List.length (Persistence.get_historical_analyses key limit w) <= limit)%nat.
Proof.
  unfold Persistence.get_historical_analyses.
  rewrite length_map. apply firstn_le_length.
Qed.

(** A row stored under another key does not show in the history of [key]. *)
Lemma get_historical_analyses_other_key key key' limit clock ticks clock' ticks'
      (rows : list (Persistence.row data)) (r : Persistence.row data) :
  Persistence.search_text r = key' ->
  key' <> key ->
  Persistence.get_historical_analyses key limit
    {| Persistence.clock := clock'; Persistence.ticks := ticks';
       Persistence.db := rows ++ [r] |}
  = Persistence.get_historical_analyses key limit
      {| Persistence.clock := clock; Persistence.ticks := ticks;
         Persistence.db := rows |}.
Proof.
  intros Hr Hneq. unfold Persistence.get_historical_analyses. simpl.
  rewrite filter_app. simpl. rewrite Hr.
  destruct (String.eqb key' key) eqn:E.
  - apply String.eqb_eq in E. contradiction.
  - rewrite app_nil_r. reflexivity.
Qed.

End History.

Lemma history_most_recent_first key limit (w : world) :
  Spec.most_recent_first (Persistence.get_historical_analyses key limit w).
Proof.
  unfold Spec.most_recent_first, Persistence.get_historical_analyses.
  eapply map_sorted; [|apply firstn_sorted, order_by_timestamp_desc_sorted].
  intros a b H. exact H.
Qed.

(** ** The loop over the raw items *)

Lemma collect_records_acc (data : list json) (acc recs : list record) :
  collect_records data acc = Ok recs ->
  recs = (acc ++ flat_map Spec.retained data)%list.
Proof.
  revert acc. induction data as [|item data IH]; intros acc; simpl.
  - intros H. inversion H. rewrite app_nil_r. reflexivity.
  - unfold Spec.retained at 1.
    destruct (record_of_item item) as [r|e].
    + intros H. apply IH in H. rewrite H, <- app_assoc. reflexivity.
    + destruct (caught e); [|discriminate].
      intros H. apply IH in H. exact H.
Qed.

Lemma retained_length (data : list json) :
  (List.length (flat_map Spec.retained data) <= List.length data)%nat.
Proof.
  induction data as [|item data IH]; simpl; [lia|].
  rewrite length_app. unfold Spec.retained at 1.
  destruct (record_of_item item); simpl; lia.
Qed.

(** The loop never lengthens the batch. *)
Lemma collect_records_length (data : list json) (recs : list record) :
  collect_records data [] = Ok recs ->
  (List.length recs <= List.length data)%nat.
Proof.
  intros H. apply collect_records_acc in H. subst recs. simpl.
  apply retained_length.
Qed.

(** The exceptions the loop does skip: with none but [KeyError],
    [TypeError] and [ValueError] raised by the items, the loop ends and
    its result is no longer than the batch. *)
Lemma collect_records_total (data : list json) :
  Forall (fun item => forall e, record_of_item item = Raise e -> caught e = true) data ->
  exists recs, collect_records data [] = Ok recs
               /\ (List.length recs <= List.length data)%nat.
Proof.
  intros H.
  assert (G : forall acc, exists recs, collect_records data acc = Ok recs).
  { induction H as [|item data Hitem _ IH]; intros acc; simpl.
    - eexists. reflexivity.
    - destruct (record_of_item item) as [r|e] eqn:E.
      + apply IH.
      + rewrite (Hitem e eq_refl). apply IH. }
  destruct (G []) as [recs Hrecs]. exists recs. split; [assumption|].
  apply collect_records_length. assumption.
Qed.

(** The price of a record is the float of the amount of its item. *)
Lemma record_of_item_price (item : json) (r : record) :
  record_of_item item = Ok r ->
  exists amount, Spec.amount_of item = Ok amount /\ Py.float amount = Ok (price r).
Proof.
  unfold record_of_item, Spec.amount_of.
  bind_ok po Hpo. bind_ok a Ha. bind_ok p Hp. bind_ok b Hb. bind_ok c Hc.
  bind_ok u Hu. bind_ok l Hl.
  intros H. inversion H; subst; clear H. simpl.
  exists a. split; [reflexivity|assumption].
Qed.

(** An item whose price cannot be read yields no record. *)
Lemma unparsed_price_not_retained (item : json) (e : exn) :
  Spec.price_of item = Raise e -> Spec.retained item = [].
Proof.
  unfold Spec.price_of, Spec.amount_of, Spec.retained, record_of_item.
  destruct (Py.getitem item "price") as [po|]; cbn [Py.bind]; [|reflexivity].
  destruct (Py.getitem po "amount") as [a|]; cbn [Py.bind]; [|reflexivity].
  destruct (Py.float a) as [p|]; cbn [Py.bind]; [discriminate|reflexivity].
Qed.

(** ** Reductions of a column of moderate prices *)

Lemma moderate_as_rationals (xs : list pyfloat) :
  Forall Spec.moderate xs ->
  exists qs, xs = map PyFloat.Fin qs
             /\ forall q, In q qs -> (Qabs q <= Spec.price_bound)%Q.
Proof.
  induction 1 as [|x xs Hx _ (qs & -> & Hqs)].
  - exists []. split; [reflexivity|]. intros q [].
  - destruct x as [q| | |]; try contradiction. exists (q :: qs).
    split; [reflexivity|]. intros q' [<-|Hq']; auto.
Qed.

Lemma dropna_finite (qs : list Q) :
  Pandas.dropna (map PyFloat.Fin qs) = map PyFloat.Fin qs.
Proof.
  unfold Pandas.dropna. induction qs as [|q qs IH]; simpl; [|rewrite IH];
    reflexivity.
Qed.

Lemma leb_finite (a b : Q) :
  PyFloat.leb (PyFloat.Fin a) (PyFloat.Fin b) = true <-> (a <= b)%Q.
Proof. simpl. apply Qle_bool_iff. Qed.

Lemma ltb_finite (a b : Q) :
  PyFloat.ltb (PyFloat.Fin a) (PyFloat.Fin b) = true <-> (a < b)%Q.
Proof.
  simpl. unfold PyFloat.Qlt_bool. rewrite negb_true_iff.
  split.
  - intros H. apply Qnot_le_lt. intros Hle.
    apply Qle_bool_iff in Hle. congruence.
  - intros H. destruct (Qle_bool b a) eqn:E; [|reflexivity].
    apply Qle_bool_iff in E. exfalso. eapply Qlt_not_le; eassumption.
Qed.

Lemma fold_fmin_finite (qs : list Q) (a : Q) :
  exists m, fold_left Pandas.fmin (map PyFloat.Fin qs) (PyFloat.Fin a) = PyFloat.Fin m
            /\ (m <= a)%Q /\ forall q, In q qs -> (m <= q)%Q.
Proof.
  revert a. induction qs as [|q qs IH]; intros a; simpl.
  - exists a. split; [reflexivity|]. split; [apply Qle_refl|tauto].
  - unfold Pandas.fmin at 2.
    destruct (PyFloat.ltb (PyFloat.Fin q) (PyFloat.Fin a)) eqn:E.
    + apply ltb_finite in E.
      destruct (IH q) as (m & Hm & Hq & Hall). exists m.
      split; [exact Hm|]. split; [|intros x [<-|Hx]; auto].
      apply Qlt_le_weak in E. eapply Qle_trans; eassumption.
    + assert (Hle : (a <= q)%Q).
      { apply Qnot_lt_le. intros Hlt. apply ltb_finite in Hlt. congruence. }
      destruct (IH a) as (m & Hm & Ha & Hall). exists m.
      split; [exact Hm|]. split; [exact Ha|].
      intros x [<-|Hx]; [eapply Qle_trans; eassumption|auto].
Qed.

Lemma fold_fmax_finite (qs : list Q) (a : Q) :
  exists m, fold_left Pandas.fmax (map PyFloat.Fin qs) (PyFloat.Fin a) = PyFloat.Fin m
            /\ (a <= m)%Q /\ forall q, In q qs -> (q <= m)%Q.
Proof.
  revert a. induction qs as [|q qs IH]; intros a; simpl.
  - exists a. split; [reflexivity|]. split; [apply Qle_refl|tauto].
  - unfold Pandas.fmax at 2.
    destruct (PyFloat.ltb (PyFloat.Fin a) (PyFloat.Fin q)) eqn:E.
    + apply ltb_finite in E.
      destruct (IH q) as (m & Hm & Hq & Hall). exists m.
      split; [exact Hm|]. split; [|intros x [<-|Hx]; auto].
      apply Qlt_le_weak in E. eapply Qle_trans; eassumption.
    + assert (Hle : (q <= a)%Q).
      { apply Qnot_lt_le. intros Hlt. apply ltb_finite in Hlt. congruence. }
      destruct (IH a) as (m & Hm & Ha & Hall). exists m.
      split; [exact Hm|]. split; [exact Ha|].
      intros x [<-|Hx]; [eapply Qle_trans; eassumption|auto].
Qed.

Lemma insert_sorted_finite (q : Q) (qs : list Q) :
  exists qs', Pandas.insert_sorted (PyFloat.Fin q) (map PyFloat.Fin qs)
              = map PyFloat.Fin qs'
              /\ List.length qs' = S (List.length qs)
              /\ forall x, In x qs' -> x = q \/ In x qs.
Proof.
  induction qs as [|y qs (qs' & Heq & Hlen & Hin)]; simpl.
  - exists [q]. simpl. intuition.
  - destruct (Qle_bool q y).
    + exists (q :: y :: qs). simpl. intuition.
    + exists (y :: qs'). simpl. rewrite Heq, Hlen.
      split; [reflexivity|]. split; [reflexivity|].
      intros x [<-|Hx]; [tauto|]. destruct (Hin x Hx); tauto.
Qed.

Lemma sort_values_finite (qs : list Q) :
  exists qs', Pandas.sort_values (map PyFloat.Fin qs) = map PyFloat.Fin qs'
              /\ List.length qs' = List.length qs
              /\ forall x, In x qs' -> In x qs.
Proof.
  unfold Pandas.sort_values.
  induction qs as [|q qs (qs' & Heq & Hlen & Hin)]; cbn [map fold_right].
  - exists []. simpl. intuition.
  - rewrite Heq.
    destruct (insert_sorted_finite q qs') as (qs'' & Heq' & Hlen' & Hin').
    exists qs''. split; [exact Heq'|]. split; [simpl; lia|].
    intros x Hx. destruct (Hin' x Hx) as [->|Hx']; [left; reflexivity|right; auto].
Qed.

Lemma nth_finite (qs : list Q) (i : nat) :
  (i < List.length qs)%nat ->
  exists q, nth i (map PyFloat.Fin qs) PyFloat.NaN = PyFloat.Fin q /\ In q qs.
Proof.
  intros Hi. exists (nth i qs 0%Q). split.
  - rewrite (nth_indep _ PyFloat.NaN (PyFloat.Fin 0)) by (rewrite length_map; exact Hi).
    apply map_nth.
  - apply nth_In. exact Hi.
Qed.

Lemma twice_the_bound_is_a_double :
  (Spec.price_bound + Spec.price_bound < inject_Z PyFloat.overflow_threshold)%Q.
Proof. vm_compute. reflexivity. Qed.

Lemma half_sum_finite (a b : Q) :
  (Qabs a <= Spec.price_bound)%Q ->
  (Qabs b <= Spec.price_bound)%Q ->
  PyFloat.div (PyFloat.add (PyFloat.Fin a) (PyFloat.Fin b)) (PyFloat.of_Z 2)
  = PyFloat.Fin (Qred (Qred (a + b) / 2)).
Proof.
  intros Ha Hb.
  pose proof twice_the_bound_is_a_double as Hthr.
  apply Qabs_Qle_condition in Ha, Hb.
  cbn [PyFloat.add]. rewrite of_exact_in_range.
  - unfold PyFloat.div, PyFloat.of_Z.
    change (Qeq_bool (inject_Z 2) 0) with false. cbv iota.
    apply of_exact_in_range. rewrite Qred_correct.
    apply Qabs_Qlt_condition. split.
    + apply Qlt_shift_div_l; [reflexivity|]. lra.
    + apply Qlt_shift_div_r; [reflexivity|]. lra.
  - apply Qabs_Qlt_condition. lra.
Qed.

(** The median of moderate values lies between any bounds of the values. *)
Lemma median_between (q : Q) (qs : list Q) (lo hi : Q) :
  (forall x, In x (q :: qs) -> (Qabs x <= Spec.price_bound)%Q) ->
  (forall x, In x (q :: qs) -> (lo <= x)%Q /\ (x <= hi)%Q) ->
  exists m, Pandas.Series_median (map PyFloat.Fin (q :: qs)) = PyFloat.Fin m
            /\ (lo <= m)%Q /\ (m <= hi)%Q.
Proof.
  intros Hmod Hb. unfold Pandas.Series_median.
  rewrite dropna_finite. cbn [map].
  change (PyFloat.Fin q :: map PyFloat.Fin qs) with (map PyFloat.Fin (q :: qs)).
  destruct (sort_values_finite (q :: qs)) as (s & Hs & Hlen & Hin).
  rewrite Hs. rewrite length_map.
  assert (Hpos : (0 < List.length s)%nat) by (rewrite Hlen; simpl; lia).
  assert (Hhalf : (List.length s / 2 < List.length s)%nat)
    by (apply Nat.div_lt; lia).
  destruct (Nat.even (List.length s)) eqn:E.
  - destruct (nth_finite s (List.length s / 2 - 1)) as (a & -> & Ha); [lia|].
    destruct (nth_finite s (List.length s / 2)) as (b & -> & Hbn); [lia|].
    rewrite half_sum_finite by (apply Hmod, Hin; assumption).
    eexists. split; [reflexivity|].
    destruct (Hb a (Hin a Ha)), (Hb b (Hin b Hbn)).
    rewrite !Qred_correct.
    split.
    + apply Qle_shift_div_l; [reflexivity|]. lra.
    + apply Qle_shift_div_r; [reflexivity|]. lra.
  - destruct (nth_finite s (List.length s / 2)) as (a & -> & Ha); [lia|].
    exists a. split; [reflexivity|]. apply Hb, Hin, Ha.
Qed.

(** ** Equality of labels *)

Lemma Qeq_bool_sym (a b : Q) : Qeq_bool a b = Qeq_bool b a.
Proof.
  destruct (Qeq_bool a b) eqn:E1, (Qeq_bool b a) eqn:E2; try reflexivity.
  - apply Qeq_bool_iff in E1. symmetry in E1. apply Qeq_bool_iff in E1. congruence.
  - apply Qeq_bool_iff in E2. symmetry in E2. apply Qeq_bool_iff in E2. congruence.
Qed.

Lemma float_eqb_sym (x y : pyfloat) : PyFloat.eqb x y = PyFloat.eqb y x.
Proof. destruct x, y; simpl; try reflexivity. apply Qeq_bool_sym. Qed.

Lemma float_eqb_trans (x y z : pyfloat) :
  PyFloat.eqb x y = true -> PyFloat.eqb y z = true -> PyFloat.eqb x z = true.
Proof.
  destruct x, y, z; simpl; try discriminate; try reflexivity.
  intros H1 H2. apply Qeq_bool_iff in H1, H2. apply Qeq_bool_iff.
  rewrite H1. exact H2.
Qed.

Lemma label_eqb_number (a b : json) (x y : pyfloat) :
  Pandas.as_number a = Some x -> Pandas.as_number b = Some y ->
  Pandas.label_eqb a b = PyFloat.eqb x y.
Proof.
  destruct a, b; simpl; try discriminate; intros H1 H2;
    inversion H1; inversion H2; reflexivity.
Qed.

Lemma label_eqb_not_number_l (a b : json) :
  Pandas.label_eqb a b = true -> Pandas.as_number a = None ->
  Pandas.as_number b = None.
Proof. destruct a, b; simpl; try discriminate; reflexivity. Qed.

Lemma label_eqb_sym (a b : json) : Pandas.label_eqb a b = Pandas.label_eqb b a.
Proof.
  destruct a, b; unfold Pandas.label_eqb; cbn [Pandas.as_number];
    try reflexivity; try apply float_eqb_sym; apply String.eqb_sym.
Qed.

Lemma label_eqb_trans (a b c : json) :
  Pandas.label_eqb a b = true -> Pandas.label_eqb b c = true ->
  Pandas.label_eqb a c = true.
Proof.
  destruct (Pandas.as_number a) as [x|] eqn:Ea.
  - destruct (Pandas.as_number b) as [y|] eqn:Eb.
    + destruct (Pandas.as_number c) as [z|] eqn:Ec.
      * rewrite (label_eqb_number a b x y), (label_eqb_number b c y z),
          (label_eqb_number a c x z) by assumption.
        apply float_eqb_trans.
      * intros _ H. rewrite label_eqb_sym in H.
        apply label_eqb_not_number_l in H; congruence.
    + intros H. rewrite label_eqb_sym in H.
      apply label_eqb_not_number_l in H; congruence.
  - destruct a; try discriminate; destruct b; simpl; try discriminate;
      destruct c; simpl; try discriminate; try reflexivity.
    intros H1 H2. apply String.eqb_eq in H1, H2. apply String.eqb_eq. congruence.
Qed.

Lemma label_eqb_refl (l : json) : Spec.countable l -> Pandas.label_eqb l l = true.
Proof.
  intros [Hh Hn]. destruct l; simpl in *; try discriminate; try reflexivity.
  - destruct b; reflexivity.
  - apply Qeq_bool_iff. reflexivity.
  - destruct f; simpl in *; try discriminate; try reflexivity.
    apply Qeq_bool_iff. reflexivity.
  - apply String.eqb_refl.
Qed.

Lemma present_countable (labels : list json) :
  forallb Pandas.hashable labels = true ->
  Forall Spec.countable (Pandas.present labels).
Proof.
  intros H. rewrite forallb_forall in H. rewrite Forall_forall.
  intros l Hl. unfold Pandas.present in Hl. apply filter_In in Hl.
  destruct Hl as [Hin Hna]. split; [auto|].
  apply negb_true_iff. exact Hna.
Qed.

(** ** The table of counts *)

Lemma bump_keys (l : json) (table : list (json * nat)) :
  map fst (Pandas.bump l table)
  = if Spec.among l (map fst table) then map fst table
    else (map fst table ++ [l])%list.
Proof.
  induction table as [|[k c] table IH]; simpl; [reflexivity|].
  destruct (Pandas.label_eqb k l); simpl; [reflexivity|].
  rewrite IH. destruct (Spec.among l (map fst table)); reflexivity.
Qed.

Lemma among_app (x : json) (ks ks' : list json) :
  Spec.among x (ks ++ ks') = Spec.among x ks || Spec.among x ks'.
Proof. apply existsb_app. Qed.

(** A label equal to [l] is among the keys when [l] is. *)
Lemma among_equal (l x : json) (ks : list json) :
  Pandas.label_eqb l x = true -> Spec.among l ks = true -> Spec.among x ks = true.
Proof.
  intros Hlx H. unfold Spec.among in *. apply existsb_exists in H.
  destruct H as (k & Hk & Hkl). apply existsb_exists. exists k.
  split; [assumption|]. eapply label_eqb_trans; eassumption.
Qed.

Lemma filter_filter {A : Type} (f g : A -> bool) (l : list A) :
  filter f (filter g l) = filter (fun x => g x && f x) l.
Proof.
  induction l as [|x l IH]; simpl; [reflexivity|].
  destruct (g x); simpl; [destruct (f x)|]; rewrite IH; reflexivity.
Qed.

(** The keys of the table after counting [labels] on top of [table]. *)
Lemma count_keys (labels : list json) (table : list (json * nat)) :
  map fst (fold_left (fun counts l => Pandas.bump l counts) labels table)
  = (map fst table
     ++ filter (fun x => negb (Spec.among x (map fst table)))
               (Spec.first_seen labels))%list.
Proof.
  revert table. induction labels as [|l labels IH]; intros table; simpl.
  - rewrite app_nil_r. reflexivity.
  - rewrite IH, bump_keys.
    destruct (Spec.among l (map fst table)) eqn:E; simpl.
    + f_equal. rewrite filter_filter. apply filter_ext. intros x.
      destruct (Pandas.label_eqb l x) eqn:Elx; simpl; [|reflexivity].
      rewrite (among_equal l x _ Elx E). reflexivity.
    + rewrite <- app_assoc. simpl. f_equal. f_equal.
      rewrite filter_filter. apply filter_ext. intros x.
      rewrite among_app. simpl. rewrite orb_false_r, negb_orb.
      apply andb_comm.
Qed.

Lemma count_first_seen_keys (labels : list json) :
  map fst (Pandas.count_first_seen labels) = Spec.first_seen labels.
Proof.
  unfold Pandas.count_first_seen. rewrite count_keys. simpl.
  induction (Spec.first_seen labels) as [|x l IH]; simpl; congruence.
Qed.

Lemma count_in_bump (k l : json) (table : list (json * nat)) :
  Spec.count_in k (Pandas.bump l table)
  = (Spec.count_in k table + (if Pandas.label_eqb k l then 1 else 0))%nat.
Proof.
  induction table as [|[k0 c] table IH]; simpl.
  - rewrite (label_eqb_sym l k). lia.
  - destruct (Pandas.label_eqb k0 l) eqn:E; simpl.
    + destruct (Pandas.label_eqb k0 k) eqn:Ek.
      * assert (Pandas.label_eqb k l = true) as ->; [|lia].
        eapply label_eqb_trans; [|exact E]. rewrite label_eqb_sym. exact Ek.
      * assert (Pandas.label_eqb k l = false) as ->; [|lia].
        destruct (Pandas.label_eqb k l) eqn:Ekl; [|reflexivity].
        assert (Pandas.label_eqb k0 k = true); [|congruence].
        eapply label_eqb_trans; [exact E|].
        rewrite label_eqb_sym. exact Ekl.
    + rewrite IH. lia.
Qed.

Lemma count_in_fold (k : json) (labels : list json) (table : list (json * nat)) :
  Spec.count_in k (fold_left (fun counts l => Pandas.bump l counts) labels table)
  = (Spec.count_in k table + Spec.occurrences k labels)%nat.
Proof.
  revert table. induction labels as [|l labels IH]; intros table; simpl.
  - unfold Spec.occurrences. simpl. lia.
  - rewrite IH, count_in_bump. unfold Spec.occurrences. simpl.
    destruct (Pandas.label_eqb k l); simpl; lia.
Qed.

Lemma filter_distinct (f : json -> bool) (keys : list json) :
  Spec.distinct keys -> Spec.distinct (filter f keys).
Proof.
  induction keys as [|k keys IH]; simpl; [tauto|].
  intros [Hk Hd]. destruct (f k); simpl; [|auto].
  split; [|auto]. intros x Hx. apply filter_In in Hx. apply Hk, Hx.
Qed.

Lemma first_seen_distinct (labels : list json) :
  Spec.distinct (Spec.first_seen labels).
Proof.
  induction labels as [|l labels IH]; simpl; [exact I|].
  split; [|apply filter_distinct, IH].
  intros x Hx. apply filter_In in Hx. destruct Hx as [_ Hx].
  apply negb_true_iff. exact Hx.
Qed.

Lemma first_seen_incl (labels : list json) (x : json) :
  In x (Spec.first_seen labels) -> In x labels.
Proof.
  induction labels as [|l labels IH]; simpl; [tauto|].
  intros [->|Hx]; [left; reflexivity|right].
  apply filter_In in Hx. apply IH, Hx.
Qed.

Lemma count_in_none (k : json) (table : list (json * nat)) :
  (forall x, In x (map fst table) -> Pandas.label_eqb x k = false) ->
  Spec.count_in k table = 0%nat.
Proof.
  induction table as [|e table IH]; simpl; [reflexivity|].
  intros H. rewrite (H (fst e)) by (left; reflexivity).
  rewrite IH; [reflexivity|]. intros x Hx. apply H. right. exact Hx.
Qed.

(** With distinct keys the count held for a key is the count of its entry. *)
Lemma count_in_entry (k : json) (c : nat) (table : list (json * nat)) :
  Spec.distinct (map fst table) ->
  In (k, c) table ->
  Pandas.label_eqb k k = true ->
  Spec.count_in k table = c.
Proof.
  intros Hd Hin Hrefl. induction table as [|e table IH]; [contradiction|].
  simpl in Hd. destruct Hd as [Hk Hd]. destruct Hin as [->|Hin]; simpl.
  - rewrite Hrefl. rewrite count_in_none; [lia|].
    intros x Hx. rewrite label_eqb_sym. apply Hk, Hx.
  - rewrite (Hk k) by (apply in_map_iff; exists (k, c); auto).
    rewrite IH by assumption. reflexivity.
Qed.

(** Every entry of the table holds the number of occurrences of its key. *)
Lemma count_first_seen_counts (labels : list json) (k : json) (c : nat) :
  Forall Spec.countable labels ->
  In (k, c) (Pandas.count_first_seen labels) ->
  c = Spec.occurrences k labels.
Proof.
  intros Hv Hin.
  assert (Hk : In k (Spec.first_seen labels)).
  { rewrite <- count_first_seen_keys. apply in_map_iff. exists (k, c). auto. }
  assert (Hrefl : Pandas.label_eqb k k = true).
  { apply label_eqb_refl. rewrite Forall_forall in Hv.
    apply Hv, first_seen_incl, Hk. }
  rewrite <- (count_in_entry k c (Pandas.count_first_seen labels)); auto.
  - unfold Pandas.count_first_seen. rewrite count_in_fold. reflexivity.
  - rewrite count_first_seen_keys. apply first_seen_distinct.
Qed.

(** ** The sort of the counts *)

(** Keeping some of the entries of two tables that are rearrangements of
    one another gives rearrangements of one another. *)
Lemma permutation_filter (keep : json * nat -> bool) (d d' : distribution) :
  Permutation d d' -> Permutation (filter keep d) (filter keep d').
Proof.
  intros Hp.
  induction Hp as [|e d d' _ IH|e e' d|d d' d'' _ IH1 _ IH2]; simpl.
  - constructor.
  - destruct (keep e); [constructor|]; exact IH.
  - destruct (keep e), (keep e'); try reflexivity. constructor.
  - etransitivity; eassumption.
Qed.

Lemma keys_by_count (f : json -> nat) (c : nat) (table : list (json * nat)) :
  (forall k n, In (k, n) table -> n = f k) ->
  map fst (filter (fun e => (snd e =? c)%nat) table)
  = filter (fun k => (f k =? c)%nat) (map fst table).
Proof.
  induction table as [|[k n] table IH]; intros H; [reflexivity|].
  cbn [filter map fst snd].
  rewrite <- (H k n) by (left; reflexivity).
  destruct (n =? c)%nat; cbn [map fst];
    rewrite IH by (intros; apply H; right; assumption); reflexivity.
Qed.

(** The table of counts, grouped by count. *)
Lemma count_first_seen_by_count (labels : list json) (c : nat) :
  Forall Spec.countable labels ->
  Spec.keys_with_count c (Pandas.count_first_seen labels)
  = filter (fun k => (Spec.occurrences k labels =? c)%nat) (Spec.first_seen labels).
Proof.
  intros Hv. unfold Spec.keys_with_count.
  rewrite (keys_by_count (fun k => Spec.occurrences k labels)).
  - rewrite count_first_seen_keys. reflexivity.
  - intros k n. apply count_first_seen_counts, Hv.
Qed.

(** Whatever the order the sort leaves equal counts in, [value_counts]
    returns the group-by counts of the labels present, by descending
    count. *)
Lemma value_counts_correct sort_counts (labels : list json) (d : distribution) :
  Spec.sorts_by_count sort_counts ->
  Pandas.value_counts sort_counts labels = Ok d ->
  Spec.counts_of (Pandas.present labels) d.
Proof.
  intros Hsort. unfold Pandas.value_counts.
  destruct (forallb Pandas.hashable labels) eqn:Hh; [|discriminate].
  intros H. inversion H; subst d; clear H.
  destruct (Hsort (Pandas.count_first_seen (Pandas.present labels)))
    as [Hperm Hdesc].
  split; [exact Hdesc|].
  intros c.
  rewrite <- (count_first_seen_by_count _ c (present_countable _ Hh)).
  unfold Spec.keys_with_count.
  apply Permutation_map, permutation_filter, Hperm.
Qed.

(** The two sample sorts. *)
Lemma insert_by_count_In (e x : json * nat) (l : list (json * nat)) :
  In x (Samples.insert_by_count e l) -> x = e \/ In x l.
Proof.
  induction l as [|y l IH]; simpl.
  - intuition.
  - destruct (snd y <=? snd e)%nat; simpl; [intuition|].
    intros [->|H]; [tauto|]. destruct (IH H); tauto.
Qed.

Lemma insert_by_count_descending (e : json * nat) (l : list (json * nat)) :
  Spec.descending l -> Spec.descending (Samples.insert_by_count e l).
Proof.
  unfold Spec.descending.
  induction 1 as [|y l Hs IH Hy]; simpl.
  - repeat constructor.
  - destruct (snd y <=? snd e)%nat eqn:E.
    + apply Nat.leb_le in E. constructor; [constructor; assumption|].
      constructor; [exact E|].
      rewrite Forall_forall in *. intros z Hz. specialize (Hy z Hz). lia.
    + apply Nat.leb_gt in E. constructor; [assumption|].
      rewrite Forall_forall in *. intros z Hz.
      apply insert_by_count_In in Hz. destruct Hz as [->|Hz]; [lia|auto].
Qed.

Lemma insert_by_count_permutation (e : json * nat) (l : list (json * nat)) :
  Permutation (Samples.insert_by_count e l) (e :: l).
Proof.
  induction l as [|y l IH]; simpl; [reflexivity|].
  destruct (snd y <=? snd e)%nat; [reflexivity|].
  etransitivity; [apply perm_skip, IH|apply perm_swap].
Qed.

Lemma stable_sort_sorts_by_count : Spec.sorts_by_count Samples.stable_sort.
Proof.
  intros table. unfold Samples.stable_sort.
  induction table as [|e table [IHp IHd]]; simpl.
  - split; constructor.
  - split.
    + etransitivity; [apply insert_by_count_permutation|].
      apply perm_skip, IHp.
    + apply insert_by_count_descending, IHd.
Qed.

Lemma reversing_sort_sorts_by_count : Spec.sorts_by_count Samples.reversing_sort.
Proof.
  intros table. unfold Samples.reversing_sort.
  destruct (stable_sort_sorts_by_count (rev table)) as [Hp Hd].
  split; [|exact Hd].
  etransitivity; [exact Hp|]. symmetry. apply Permutation_rev.
Qed.

(** The first sample sort is stable: the entries of one count keep their
    order. *)
Lemma insert_by_count_stable (c : nat) (e : json * nat) (l : list (json * nat)) :
  filter (fun x => (snd x =? c)%nat) (Samples.insert_by_count e l)
  = filter (fun x => (snd x =? c)%nat) (e :: l).
Proof.
  induction l as [|y l IH]; [reflexivity|].
  cbn [Samples.insert_by_count].
  destruct (snd y <=? snd e)%nat eqn:E; [reflexivity|].
  apply Nat.leb_gt in E.
  cbn [filter] in *. rewrite IH.
  destruct (snd e =? c)%nat eqn:Ee; [|reflexivity].
  apply Nat.eqb_eq in Ee.
  assert ((snd y =? c)%nat = false) as -> by (apply Nat.eqb_neq; lia).
  reflexivity.
Qed.

Lemma stable_sort_stable (c : nat) (l : list (json * nat)) :
  filter (fun x => (snd x =? c)%nat) (Samples.stable_sort l)
  = filter (fun x => (snd x =? c)%nat) l.
Proof.
  induction l as [|e l IH]; [reflexivity|].
  unfold Samples.stable_sort in *. cbn [fold_right].
  rewrite insert_by_count_stable. cbn [filter]. rewrite IH. reflexivity.
Qed.

(** With a stable sort the entries of one count come first seen first. *)
Lemma value_counts_stable (labels : list json) (d : distribution) :
  Pandas.value_counts Samples.stable_sort labels = Ok d ->
  Spec.value_counts_of (Pandas.present labels) d.
Proof.
  unfold Pandas.value_counts.
  destruct (forallb Pandas.hashable labels) eqn:Hh; [|discriminate].
  intros H. inversion H; subst d; clear H.
  split; [apply stable_sort_sorts_by_count|].
  intros c.
  rewrite <- (count_first_seen_by_count _ c (present_countable _ Hh)).
  unfold Spec.keys_with_count. rewrite stable_sort_stable. reflexivity.
Qed.

(* ------------------------------------------------------------------ *)
(** * The claims *)

(** ** C1: the empty batch *)

(** C1. Whenever no record is retained -- the upstream returned no item,
    or every item was dropped by the loop -- the analysis returns the
    canonical empty result (all four price fields [0], no item, no seller,
    empty distributions, empty [kpis]), the same on both paths, and stores
    it under the search text. *)
Theorem C1_empty_batch_is_canonical_and_persisted :
  forall np_sqrt sort_counts vinted s tok w data,
    vinted (normalized_search_text s) tok = Items (JList data) ->
    collect_records data [] = Ok [] ->
    analyze_market_by_product_name np_sqrt sort_counts vinted s tok w
    = Ok (Spec.canonical_empty_result (Spec.stamp w),
          Spec.stored s (Spec.canonical_empty_result (Spec.stamp w)) w).
Proof.
  intros np_sqrt sort_counts vinted s tok w data Hfetch Hrecs.
  unfold analyze_market_by_product_name. rewrite Hfetch. cbn [Py.bind].
  destruct data as [|item data].
  - reflexivity.
  - cbn [Py.truth negb records_of Py.iter Py.bind]. rewrite Hrecs. reflexivity.
Qed.

(** Both ways to an empty batch, on the upstream that returns nothing and
    on the one whose two items lack the seller login. *)
Lemma C1_witness :
  analyze_market_by_product_name Samples.some_sqrt Samples.stable_sort (Samples.serving [])
    "nik air" "token" Samples.empty_world
  = Ok (Spec.canonical_empty_result 1000,
        Spec.stored "nik air" (Spec.canonical_empty_result 1000) Samples.empty_world)
  /\ analyze_market_by_product_name Samples.some_sqrt Samples.stable_sort
       (Samples.serving [Samples.item_without_login (JStr "10");
                         Samples.item_without_login (JStr "12.5")])
       "nik air" "token" Samples.empty_world
     = Ok (Spec.canonical_empty_result 1000,
           Spec.stored "nik air" (Spec.canonical_empty_result 1000) Samples.empty_world).
Proof.
  split.
  - apply (C1_empty_batch_is_canonical_and_persisted
             Samples.some_sqrt Samples.stable_sort (Samples.serving []) "nik air" "token"
             Samples.empty_world []); reflexivity.
  - apply (C1_empty_batch_is_canonical_and_persisted
             Samples.some_sqrt Samples.stable_sort _ "nik air" "token"
             Samples.empty_world
             [Samples.item_without_login (JStr "10");
              Samples.item_without_login (JStr "12.5")]); reflexivity.
Defined.

(** ** C2: the price trend *)

(** C2 (as the code has it). The history read for the trend holds at most
    30 snapshots, most recent first.  With fewer than two averages in it
    the trend is [0.0].  With two or more, the oldest average is the last
    of the list; when it is greater than [0] the trend is
    [round((current - oldest) / oldest * 100, 2)], where [current] is the
    mean of the batch being analysed (not an average of the history), and
    the trend is [0.0] when the oldest average is not greater than [0].  On
    the history [[20; 10]] a batch of mean [20] has the trend [100.0]. *)
Theorem C2_trend_against_oldest_average :
  forall np_sqrt df s w kp,
    calculate_kpis np_sqrt df s w = Ok kp ->
    let history := Persistence.get_historical_analyses s 30 w in
    let hp := historical_prices history in
    let current := to_float (average_price df) in
    let oldest := to_float (last hp (Int 0)) in
    (List.length history <= 30)%nat
    /\ Spec.most_recent_first history
    /\ exists trend,
         Py.dict_lookup "tendancePrix30Jours" kp = Some (Num (Float trend))
         /\ ((List.length hp < 2)%nat -> trend = PyFloat.zero)
         /\ ((2 <= List.length hp)%nat ->
             PyFloat.gtb oldest PyFloat.zero = true ->
             trend = PyFloat.round2
                       (PyFloat.mul
                          (PyFloat.div (PyFloat.sub current oldest) oldest)
                          float_100))
         /\ ((2 <= List.length hp)%nat ->
             PyFloat.gtb oldest PyFloat.zero = false ->
             trend = PyFloat.zero)
         /\ (hp = [Float (PyFloat.Fin 20); Float (PyFloat.Fin 10)] ->
             current = PyFloat.Fin 20 ->
             trend = PyFloat.Fin 100).
Proof.
  intros np_sqrt df s w kp H history hp current oldest.
  split; [apply get_historical_analyses_length|].
  split; [apply history_most_recent_first|].
  destruct (calculate_kpis_inv _ _ _ _ _ H) as [score ->].
  cbn [Py.dict_lookup String.eqb Ascii.eqb Bool.eqb].
  fold history.
  assert (Hlen : List.length hp = List.length history)
    by apply length_map.
  unfold price_trend. fold hp. rewrite <- Hlen.
  unfold gt. fold oldest. fold current.
  change (to_float (Int 0)) with PyFloat.zero.
  destruct (1 <? List.length hp)%nat eqn:E.
  - apply Nat.ltb_lt in E.
    destruct (PyFloat.gtb oldest PyFloat.zero) eqn:G.
    + eexists. split; [reflexivity|].
      repeat split; try (intros; (lia || congruence)).
      intros Hhp Hcur. subst oldest. rewrite Hhp in *. rewrite Hcur.
      reflexivity.
    + eexists. split; [reflexivity|].
      repeat split; try (intros; (lia || congruence)).
      intros Hhp _. subst oldest. rewrite Hhp in G. discriminate.
  - apply Nat.ltb_ge in E.
    eexists. split; [reflexivity|].
    repeat split; try (intros; (lia || congruence)).
    intros Hhp _. rewrite Hhp in E. simpl in E. lia.
Qed.

(** A batch of mean [20] analysed after the averages [10] and then [20]
    were stored. *)
Lemma C2_witness :
  exists kp,
    calculate_kpis Samples.some_sqrt (Samples.one_record (PyFloat.of_Z 20)) "nike"
      (Samples.world_with [Samples.past "nike" 1 10; Samples.past "nike" 2 20])
    = Ok kp
    /\ Py.dict_lookup "tendancePrix30Jours" kp
       = Some (Num (Float (PyFloat.Fin 100))).
Proof.
  destruct (C2_trend_against_oldest_average
              Samples.some_sqrt (Samples.one_record (PyFloat.of_Z 20)) "nike"
              (Samples.world_with [Samples.past "nike" 1 10; Samples.past "nike" 2 20])
              _ eq_refl)
    as (_ & _ & trend & Hlookup & _ & _ & _ & Hex).
  match type of Hlookup with Py.dict_lookup _ ?kp = _ => exists kp end.
  split; [reflexivity|].
  rewrite Hlookup, (Hex eq_refl eq_refl). reflexivity.
Defined.

(** On the history [[20; 10]] the trend is not [100.0] whatever the batch:
    a batch of mean [30] has the trend [200.0].  Nor is the trend given by
    the formula whenever the oldest average is not [0]: after an oldest
    average of [-10] a batch of mean [20] has the trend [0.0], where the
    formula gives [-300.0]. *)
Lemma C2_counterexample :
  ~ (forall np_sqrt df s w kp,
       calculate_kpis np_sqrt df s w = Ok kp ->
       historical_prices (Persistence.get_historical_analyses s 30 w)
       = [Float (PyFloat.Fin 20); Float (PyFloat.Fin 10)] ->
       Py.dict_lookup "tendancePrix30Jours" kp
       = Some (Num (Float (PyFloat.Fin 100))))
  /\ ~ (forall np_sqrt df s w kp,
         calculate_kpis np_sqrt df s w = Ok kp ->
         let hp := historical_prices (Persistence.get_historical_analyses s 30 w) in
         let current := to_float (average_price df) in
         let oldest := to_float (last hp (Int 0)) in
         (2 <= List.length hp)%nat ->
         PyFloat.eqb oldest PyFloat.zero = false ->
         Py.dict_lookup "tendancePrix30Jours" kp
         = Some (Num (Float (PyFloat.round2
                               (PyFloat.mul
                                  (PyFloat.div (PyFloat.sub current oldest) oldest)
                                  float_100))))).
Proof.
  split; intros H.
  - specialize (H Samples.some_sqrt (Samples.one_record (PyFloat.of_Z 30)) "nike"
                  (Samples.world_with
                     [Samples.past "nike" 1 10; Samples.past "nike" 2 20])
                  _ eq_refl eq_refl).
    vm_compute in H. discriminate.
  - specialize (H Samples.some_sqrt (Samples.one_record (PyFloat.of_Z 20)) "nike"
                  (Samples.world_with
                     [Samples.past "nike" 1 (-10); Samples.past "nike" 2 20])
                  _ eq_refl).
    vm_compute in H. specialize (H ltac:(lia) eq_refl). discriminate.
Qed.

(** ** C3: the price block *)

(** C3 (as the code has it). For an empty batch the four fields of the
    price block are [0].  For a non-empty batch whose prices are all finite
    and of magnitude at most [1e307] the price block satisfies
    [min <= median <= max]. *)
Theorem C3_min_median_max_of_moderate_prices :
  forall np_sqrt sort_counts vinted s tok w r w' data recs,
    vinted (normalized_search_text s) tok = Items (JList data) ->
    collect_records data [] = Ok recs ->
    analyze_market_by_product_name np_sqrt sort_counts vinted s tok w = Ok (r, w') ->
    (recs = [] ->
     priceAnalysis r = {| price_min := Int 0; price_max := Int 0;
                          average := Int 0; median := Int 0 |})
    /\ (recs <> [] ->
        Spec.moderate_prices recs ->
        Spec.le (price_min (priceAnalysis r)) (median (priceAnalysis r))
        /\ Spec.le (median (priceAnalysis r)) (price_max (priceAnalysis r))).
Proof.
  intros np_sqrt sort_counts vinted s tok w r w' data recs Hfetch Hrecs Hrun.
  destruct (analyze_of_batch _ _ _ _ _ _ _ _ _ _ Hfetch Hrecs Hrun)
    as [[Hnil ->]|(Hne & Hpa & _)].
  - split; [reflexivity|contradiction].
  - split; [contradiction|]. intros _ Hmod. rewrite Hpa.
    cbn [price_min price_max median].
    unfold Spec.le. cbn [to_float].
    assert (Hmod' : Forall Spec.moderate (prices recs)).
    { unfold Spec.moderate_prices in Hmod. unfold prices.
      rewrite Forall_forall in *. intros x Hx.
      apply in_map_iff in Hx. destruct Hx as (rec & <- & Hrec). auto. }
    destruct (moderate_as_rationals _ Hmod') as (qs & Hqs & Hbound).
    destruct qs as [|q qs].
    { destruct recs; [contradiction|discriminate]. }
    rewrite Hqs.
    unfold Pandas.Series_min, Pandas.Series_max. rewrite dropna_finite.
    cbn [map].
    destruct (fold_fmin_finite qs q) as (lo & -> & Hlo & Hlos).
    destruct (fold_fmax_finite qs q) as (hi & -> & Hhi & Hhis).
    destruct (median_between q qs lo hi Hbound) as (m & Hm & Hlm & Hmh).
    { intros x [<-|Hx]; auto. }
    cbn [map] in Hm. rewrite Hm.
    split; apply leb_finite; assumption.
Qed.

Lemma C3_witness :
  exists r w',
    analyze_market_by_product_name Samples.some_sqrt Samples.stable_sort
      (Samples.serving [Samples.item (JStr "40") "Nike" "Bon" "anna";
                        Samples.item (JStr "10") "Zara" "Neuf" "bob";
                        Samples.item (JStr "30") "Nike" "Neuf" "bob";
                        Samples.item (JStr "20") "Puma" "Bon" "carl"])
      "nike" "token" Samples.empty_world = Ok (r, w')
    /\ priceAnalysis r = {| price_min := Float (PyFloat.Fin 10);
                            price_max := Float (PyFloat.Fin 40);
                            average := Float (PyFloat.Fin 25);
                            median := Float (PyFloat.Fin 25) |}
    /\ Spec.le (price_min (priceAnalysis r)) (median (priceAnalysis r))
    /\ Spec.le (median (priceAnalysis r)) (price_max (priceAnalysis r)).
Proof.
  eexists. eexists. split; [vm_compute; reflexivity|].
  split; [reflexivity|].
  refine (proj2 (C3_min_median_max_of_moderate_prices
                   Samples.some_sqrt Samples.stable_sort
                   (Samples.serving [Samples.item (JStr "40") "Nike" "Bon" "anna";
                                     Samples.item (JStr "10") "Zara" "Neuf" "bob";
                                     Samples.item (JStr "30") "Nike" "Neuf" "bob";
                                     Samples.item (JStr "20") "Puma" "Bon" "carl"])
                   "nike" "token" Samples.empty_world _ _ _ _
                   eq_refl eq_refl eq_refl) _ _).
  - discriminate.
  - repeat constructor; vm_compute; discriminate.
Defined.

(** A batch whose only price is [nan] has [nan] as minimum, median and
    maximum, and no comparison with [nan] holds.  Finite prices do not
    suffice either: the sum of the two prices [1e308] is beyond the
    doubles, so that their median is [inf], above the maximum. *)
Lemma C3_counterexample :
  ~ (forall np_sqrt sort_counts vinted s tok w r w',
       analyze_market_by_product_name np_sqrt sort_counts vinted s tok w = Ok (r, w') ->
       itemsFound (summary r) <> 0%nat ->
       Spec.le (price_min (priceAnalysis r)) (median (priceAnalysis r))
       /\ Spec.le (median (priceAnalysis r)) (price_max (priceAnalysis r)))
  /\ ~ (forall np_sqrt sort_counts vinted s tok w r w' data recs,
         vinted (normalized_search_text s) tok = Items (JList data) ->
         collect_records data [] = Ok recs ->
         analyze_market_by_product_name np_sqrt sort_counts vinted s tok w = Ok (r, w') ->
         recs <> [] ->
         Forall (fun rec => PyFloat.is_finite (price rec) = true) recs ->
         Spec.le (price_min (priceAnalysis r)) (median (priceAnalysis r))
         /\ Spec.le (median (priceAnalysis r)) (price_max (priceAnalysis r))).
Proof.
  split; intros H.
  - specialize (H Samples.some_sqrt Samples.stable_sort
                  (Samples.serving [Samples.item (JStr "nan") "Nike" "Bon" "anna"])
                  "nike" "token" Samples.empty_world _ _ eq_refl).
    destruct H as [H _]; [vm_compute; discriminate|].
    vm_compute in H. discriminate.
  - specialize (H Samples.some_sqrt Samples.stable_sort
                  (Samples.serving [Samples.item (JStr "1e308") "Nike" "Bon" "anna";
                                    Samples.item (JStr "1e308") "Zara" "Bon" "bob"])
                  "nike" "token" Samples.empty_world _ _ _ _
                  eq_refl eq_refl eq_refl).
    destruct H as [_ H]; [discriminate|repeat constructor|].
    vm_compute in H. discriminate.
Qed.

(** ** C4: the recommended price *)

(** C4 (as the code has it). For every non-empty batch the recommended
    price is [round(m * 0.95, 2)] when [m > 0] and the integer [0]
    otherwise, where [m] is the mean of the retained prices as
    [calculate_kpis] computes it, not rounded; when that mean is [100.0]
    the recommended price is exactly [95.0]. *)
Theorem C4_recommended_price_from_unrounded_mean :
  forall np_sqrt sort_counts vinted s tok w r w' data recs,
    vinted (normalized_search_text s) tok = Items (JList data) ->
    collect_records data [] = Ok recs ->
    recs <> [] ->
    analyze_market_by_product_name np_sqrt sort_counts vinted s tok w = Ok (r, w') ->
    let m := Pandas.Series_mean (prices recs) in
    Py.dict_lookup "prixOptimalRecommande" (kpis r)
    = Some (Num (if PyFloat.gtb m PyFloat.zero
                 then Float (PyFloat.round2 (PyFloat.mul m float_0_95))
                 else Int 0))
    /\ (m = PyFloat.Fin 100 ->
        Py.dict_lookup "prixOptimalRecommande" (kpis r)
        = Some (Num (Float (PyFloat.Fin 95)))).
Proof.
  intros np_sqrt sort_counts vinted s tok w r w' data recs Hfetch Hrecs Hne Hrun m.
  destruct (analyze_of_batch _ _ _ _ _ _ _ _ _ _ Hfetch Hrecs Hrun)
    as [[Hnil _]|(_ & _ & _ & _ & Hk & _)]; [contradiction|].
  destruct (calculate_kpis_inv _ _ _ _ _ Hk) as [score Hkp].
  rewrite Hkp. cbn [Py.dict_lookup String.eqb Ascii.eqb Bool.eqb].
  assert (Havg : average_price recs = Float m).
  { unfold average_price. destruct recs; [contradiction|reflexivity]. }
  rewrite Havg. unfold gt. cbn [to_float].
  change (PyFloat.of_Z 0) with PyFloat.zero.
  split.
  - destruct (PyFloat.gtb m PyFloat.zero); reflexivity.
  - intros ->. reflexivity.
Qed.

Lemma C4_witness :
  exists r w',
    analyze_market_by_product_name Samples.some_sqrt Samples.stable_sort
      (Samples.serving [Samples.item (JStr "120") "Nike" "Bon" "anna";
                        Samples.item (JInt 80) "Zara" "Neuf" "bob"])
      "nike" "token" Samples.empty_world = Ok (r, w')
    /\ Py.dict_lookup "prixOptimalRecommande" (kpis r)
       = Some (Num (Float (PyFloat.Fin 95))).
Proof.
  eexists. eexists. split.
  - vm_compute. reflexivity.
  - refine (proj2 (C4_recommended_price_from_unrounded_mean
                     Samples.some_sqrt Samples.stable_sort
                     (Samples.serving [Samples.item (JStr "120") "Nike" "Bon" "anna";
                                       Samples.item (JInt 80) "Zara" "Neuf" "bob"])
                     "nike" "token" Samples.empty_world _ _ _ _
                     eq_refl eq_refl _ eq_refl) eq_refl).
    discriminate.
Defined.

(** The claim with the rounded average of the price block in place of the
    mean fails on the single price [3.334]: the price block has the average
    [3.33], from which the claim expects [3.16], and the code returns
    [3.17]. *)
Lemma C4_counterexample :
  ~ (forall np_sqrt sort_counts vinted s tok w r w',
       analyze_market_by_product_name np_sqrt sort_counts vinted s tok w = Ok (r, w') ->
       itemsFound (summary r) <> 0%nat ->
       Py.dict_lookup "prixOptimalRecommande" (kpis r)
       = Some (Num (if gt (average (priceAnalysis r)) (Int 0)
                    then Float (PyFloat.round2
                                  (PyFloat.mul (to_float (average (priceAnalysis r)))
                                               float_0_95))
                    else Int 0))).
Proof.
  intros H.
  specialize (H Samples.some_sqrt Samples.stable_sort
                (Samples.serving [Samples.item (JStr "3.334") "Nike" "Bon" "anna"])
                "nike" "token" Samples.empty_world _ _ eq_refl).
  vm_compute in H. specialize (H ltac:(discriminate)). discriminate.
Qed.

(** ** C5: the prices the loop retains *)

(** C5 (as the code has it). When the loop ends, the records are what the
    items contribute one by one, in order; the price of every retained
    record is the value [float()] returns for [item['price']['amount']]
    of one of the items -- any float, negative, infinite and [nan]
    included -- and an item whose price amount is missing or is rejected by
    [float()] contributes no record. *)
Theorem C5_retained_price_is_float_of_amount :
  forall data recs,
    collect_records data [] = Ok recs ->
    recs = flat_map Spec.retained data
    /\ Forall (fun r => exists item amount,
                   In item data
                   /\ Spec.amount_of item = Ok amount
                   /\ Py.float amount = Ok (price r)) recs
    /\ Forall (fun item => forall e, Spec.price_of item = Raise e ->
                                     Spec.retained item = []) data.
Proof.
  intros data recs H. apply collect_records_acc in H. simpl in H. subst recs.
  split; [reflexivity|]. split.
  - rewrite Forall_forall. intros r Hr.
    apply in_flat_map in Hr. destruct Hr as (item & Hitem & Hr).
    unfold Spec.retained in Hr.
    destruct (record_of_item item) as [r'|] eqn:E; [|contradiction].
    destruct Hr as [->|[]].
    destruct (record_of_item_price _ _ E) as (amount & Ha & Hf).
    exists item, amount. auto.
  - rewrite Forall_forall. intros item _ e. apply unparsed_price_not_retained.
Qed.

Lemma C5_witness :
  [ {| price := PyFloat.Fin (25 # 2); brand := JStr "Nike";
       condition := JStr "Bon"; seller_login := JStr "anna" |} ]
  = flat_map Spec.retained
      [Samples.item (JStr "12.50") "Nike" "Bon" "anna";
       Samples.item (JStr "12,50") "Zara" "Neuf" "bob";
       Samples.item JNull "Zara" "Neuf" "bob"].
Proof.
  exact (proj1 (C5_retained_price_is_float_of_amount
                  [Samples.item (JStr "12.50") "Nike" "Bon" "anna";
                   Samples.item (JStr "12,50") "Zara" "Neuf" "bob";
                   Samples.item JNull "Zara" "Neuf" "bob"]
                  _ eq_refl)).
Defined.

(** A negative amount and the text [nan] both pass [float()]: their
    records are retained, the one with a negative price, the other with a
    price that is not finite -- an item whose price is not a finite float
    is not dropped. *)
Lemma C5_counterexample :
  ~ (forall data recs,
       collect_records data [] = Ok recs ->
       Forall (fun r => PyFloat.leb PyFloat.zero (price r) = true) recs)
  /\ ~ (forall data recs,
         collect_records data [] = Ok recs ->
         Forall (fun r => PyFloat.is_finite (price r) = true) recs)
  /\ ~ (forall item p,
         Spec.price_of item = Ok p ->
         PyFloat.is_finite p = false ->
         Spec.retained item = []).
Proof.
  split; [|split]; intros H.
  - specialize (H [Samples.item (JStr "-5") "Nike" "Bon" "anna"] _ eq_refl).
    inversion H as [|r recs Hneg Hrest]; subst.
    vm_compute in Hneg. discriminate.
  - specialize (H [Samples.item (JStr "nan") "Zara" "Neuf" "bob"] _ eq_refl).
    inversion H as [|r recs Hfin Hrest]; subst.
    vm_compute in Hfin. discriminate.
  - specialize (H (Samples.item (JStr "nan") "Zara" "Neuf" "bob") _
                  eq_refl eq_refl).
    vm_compute in H. discriminate.
Qed.

Example C5_retained_prices :
  collect_records [Samples.item (JStr "-5") "Nike" "Bon" "anna";
                   Samples.item (JStr "nan") "Zara" "Neuf" "bob";
                   Samples.item (JStr "inf") "Puma" "Neuf" "carl"] []
  = Ok [ {| price := PyFloat.Fin (-5 # 1); brand := JStr "Nike";
            condition := JStr "Bon"; seller_login := JStr "anna" |};
         {| price := PyFloat.NaN; brand := JStr "Zara";
            condition := JStr "Neuf"; seller_login := JStr "bob" |};
         {| price := PyFloat.PInf; brand := JStr "Puma";
            condition := JStr "Neuf"; seller_login := JStr "carl" |} ].
Proof. vm_compute. reflexivity. Qed.

(** ** C6: a record the loop does not skip *)

(** C6 (the code at the failing input). An integer amount beyond the range
    of the doubles makes [float()] raise [OverflowError], which the
    [except] clause of the loop does not list: the loop stops at that item,
    the well-formed item after it is never read, and the analysis ends with
    the exception, nothing stored. *)
Theorem C6_overflowing_amount_aborts_the_batch :
  collect_records [Samples.item (JInt (10 ^ 400)) "Nike" "Bon" "anna";
                   Samples.item (JStr "10") "Zara" "Neuf" "bob"] []
  = Raise OverflowError
  /\ analyze_market_by_product_name Samples.some_sqrt Samples.stable_sort
       (Samples.serving [Samples.item (JInt (10 ^ 400)) "Nike" "Bon" "anna";
                         Samples.item (JStr "10") "Zara" "Neuf" "bob"])
       "nike" "token" Samples.empty_world
     = Raise OverflowError.
Proof. vm_compute. split; reflexivity. Qed.

(** ** C7: the distributions *)

(** C7 (as the code has it). For every non-empty batch the brand and the
    condition distribution are the group-by counts of the labels that are
    not missing ([None], [nan]), listed by descending count: for every
    count, the entries of that count are the distinct labels that occur so
    many times, each once.  The order among the entries of one count is
    the one the sort of pandas leaves them in, whichever it is. *)
Theorem C7_distributions_are_descending_counts :
  forall np_sqrt sort_counts vinted s tok w r w' data recs,
    Spec.sorts_by_count sort_counts ->
    vinted (normalized_search_text s) tok = Items (JList data) ->
    collect_records data [] = Ok recs ->
    recs <> [] ->
    analyze_market_by_product_name np_sqrt sort_counts vinted s tok w = Ok (r, w') ->
    Spec.counts_of (Pandas.present (brands recs)) (brandDistribution r)
    /\ Spec.counts_of (Pandas.present (conditions recs))
                      (conditionDistribution r).
Proof.
  intros np_sqrt sort_counts vinted s tok w r w' data recs
         Hsort Hfetch Hrecs Hne Hrun.
  destruct (analyze_of_batch _ _ _ _ _ _ _ _ _ _ Hfetch Hrecs Hrun)
    as [[Hnil _]|(_ & _ & _ & _ & _ & Hb & Hc)]; [contradiction|].
  split; eapply value_counts_correct; eassumption.
Qed.

(** Five records of three brands, under a sort that lists the entries of
    one count last seen first. *)
Lemma C7_witness :
  exists r w',
    analyze_market_by_product_name Samples.some_sqrt Samples.reversing_sort
      (Samples.serving [Samples.item (JStr "40") "Nike" "Bon" "anna";
                        Samples.item (JStr "10") "Zara" "Neuf" "bob";
                        Samples.item (JStr "30") "Puma" "Neuf" "bob";
                        Samples.item (JStr "20") "Zara" "Bon" "carl";
                        Samples.item (JStr "25") "Puma" "Bon" "carl"])
      "nike" "token" Samples.empty_world = Ok (r, w')
    /\ brandDistribution r
       = [(JStr "Puma", 2%nat); (JStr "Zara", 2%nat); (JStr "Nike", 1%nat)]
    /\ Spec.counts_of
         [JStr "Nike"; JStr "Zara"; JStr "Puma"; JStr "Zara"; JStr "Puma"]
         (brandDistribution r).
Proof.
  eexists. eexists. split; [vm_compute; reflexivity|].
  split; [reflexivity|].
  refine (proj1 (C7_distributions_are_descending_counts
                   Samples.some_sqrt Samples.reversing_sort
                   (Samples.serving [Samples.item (JStr "40") "Nike" "Bon" "anna";
                                     Samples.item (JStr "10") "Zara" "Neuf" "bob";
                                     Samples.item (JStr "30") "Puma" "Neuf" "bob";
                                     Samples.item (JStr "20") "Zara" "Bon" "carl";
                                     Samples.item (JStr "25") "Puma" "Bon" "carl"])
                   "nike" "token" Samples.empty_world _ _ _ _
                   reversing_sort_sorts_by_count eq_refl eq_refl _ eq_refl)).
  discriminate.
Defined.

(** The order of first occurrence among equal counts is not what the code
    ensures: the sort [value_counts] runs is the default one of pandas,
    which is not stable, and under a sort that lists equal counts last seen
    first the brands [Zara] and [Puma], two records each, come as [Puma],
    [Zara].  Nor is every record in a group: a record whose brand is
    [null] is counted under no label. *)
Lemma C7_counterexample :
  ~ (forall np_sqrt sort_counts vinted s tok w r w' data recs,
       Spec.sorts_by_count sort_counts ->
       vinted (normalized_search_text s) tok = Items (JList data) ->
       collect_records data [] = Ok recs ->
       recs <> [] ->
       analyze_market_by_product_name np_sqrt sort_counts vinted s tok w
       = Ok (r, w') ->
       Spec.value_counts_of (Pandas.present (brands recs)) (brandDistribution r))
  /\ ~ (forall np_sqrt sort_counts vinted s tok w r w' data recs,
         Spec.sorts_by_count sort_counts ->
         vinted (normalized_search_text s) tok = Items (JList data) ->
         collect_records data [] = Ok recs ->
         recs <> [] ->
         analyze_market_by_product_name np_sqrt sort_counts vinted s tok w
         = Ok (r, w') ->
         Spec.counts_of (brands recs) (brandDistribution r)).
Proof.
  split; intros H.
  - specialize (H Samples.some_sqrt Samples.reversing_sort
                  (Samples.serving [Samples.item (JStr "40") "Nike" "Bon" "anna";
                                    Samples.item (JStr "10") "Zara" "Neuf" "bob";
                                    Samples.item (JStr "30") "Puma" "Neuf" "bob";
                                    Samples.item (JStr "20") "Zara" "Bon" "carl";
                                    Samples.item (JStr "25") "Puma" "Bon" "carl"])
                  "nike" "token" Samples.empty_world _ _ _ _
                  reversing_sort_sorts_by_count eq_refl eq_refl
                  ltac:(discriminate) eq_refl).
    destruct H as [_ H]. specialize (H 2%nat). vm_compute in H. discriminate.
  - specialize (H Samples.some_sqrt Samples.stable_sort
                  (Samples.serving Extra.batch_with_null_brand)
                  "nike" "token" Samples.empty_world _ _ _ _
                  stable_sort_sorts_by_count eq_refl eq_refl
                  ltac:(discriminate) eq_refl).
    destruct H as [_ H]. specialize (H 1%nat). vm_compute in H.
    apply Permutation_nil in H. discriminate.
Qed.

(** With a stable sort the entries of one count do come first seen
    first. *)
Example C7_a_stable_sort :
  forall np_sqrt vinted s tok w r w' data recs,
    vinted (normalized_search_text s) tok = Items (JList data) ->
    collect_records data [] = Ok recs ->
    recs <> [] ->
    analyze_market_by_product_name np_sqrt Samples.stable_sort vinted s tok w
    = Ok (r, w') ->
    Spec.value_counts_of (Pandas.present (brands recs)) (brandDistribution r)
    /\ Spec.value_counts_of (Pandas.present (conditions recs))
                            (conditionDistribution r).
Proof.
  intros np_sqrt vinted s tok w r w' data recs Hfetch Hrecs Hne Hrun.
  destruct (analyze_of_batch _ _ _ _ _ _ _ _ _ _ Hfetch Hrecs Hrun)
    as [[Hnil _]|(_ & _ & _ & _ & _ & Hb & Hc)]; [contradiction|].
  split; apply value_counts_stable; assumption.
Qed.

(** ** C8: the aggregation is a function of the batch *)

(** C8. Two runs on the same batch of raw items -- from any two states of
    the history and of the clock, under any search texts -- return the same
    price block, the same summary and the same two distributions. *)
Theorem C8_aggregation_is_deterministic :
  forall np_sqrt sort_counts vinted1 vinted2 s1 s2 tok1 tok2 w1 w2 r1 r2 w1' w2' data,
    vinted1 (normalized_search_text s1) tok1 = Items (JList data) ->
    vinted2 (normalized_search_text s2) tok2 = Items (JList data) ->
    analyze_market_by_product_name np_sqrt sort_counts vinted1 s1 tok1 w1 = Ok (r1, w1') ->
    analyze_market_by_product_name np_sqrt sort_counts vinted2 s2 tok2 w2 = Ok (r2, w2') ->
    priceAnalysis r1 = priceAnalysis r2
    /\ summary r1 = summary r2
    /\ brandDistribution r1 = brandDistribution r2
    /\ conditionDistribution r1 = conditionDistribution r2.
Proof.
  intros np_sqrt sort_counts vinted1 vinted2 s1 s2 tok1 tok2 w1 w2 r1 r2 w1' w2' data
         Hf1 Hf2 Hrun1 Hrun2.
  destruct (analyze_inv _ _ _ _ _ _ _ _ Hrun1)
    as (d1 & items1 & recs1 & Hf1' & Hitems1 & Hrecs1 & _ & _ & Hcase1).
  destruct (analyze_inv _ _ _ _ _ _ _ _ Hrun2)
    as (d2 & items2 & recs2 & Hf2' & Hitems2 & Hrecs2 & _ & _ & Hcase2).
  rewrite Hf1 in Hf1'. inversion Hf1'; subst d1.
  rewrite Hf2 in Hf2'. inversion Hf2'; subst d2.
  rewrite raw_items_list in Hitems1, Hitems2.
  inversion Hitems1; subst items1. inversion Hitems2; subst items2.
  rewrite Hrecs1 in Hrecs2. inversion Hrecs2; subst recs2.
  destruct Hcase1 as [[Hnil1 ->]|(Hne1 & Hpa1 & Hn1 & Hs1 & _ & Hb1 & Hc1)];
    destruct Hcase2 as [[Hnil2 ->]|(Hne2 & Hpa2 & Hn2 & Hs2 & _ & Hb2 & Hc2)];
    try contradiction.
  - repeat split.
  - rewrite Hpa1, Hpa2. split; [reflexivity|].
    split; [|split; congruence].
    destruct (summary r1), (summary r2). simpl in *. congruence.
Qed.

(** The same batch analysed from two different histories: the four blocks
    agree. *)
Lemma C8_witness :
  exists r1 w1 r2 w2,
    analyze_market_by_product_name Samples.some_sqrt Samples.stable_sort
      (Samples.serving [Samples.item (JStr "20") "Nike" "Bon" "anna"])
      "nike" "token" (Samples.world_with [Samples.past "nike" 1 10]) = Ok (r1, w1)
    /\ analyze_market_by_product_name Samples.some_sqrt Samples.stable_sort
         (Samples.serving [Samples.item (JStr "20") "Nike" "Bon" "anna"])
         "nike" "token"
         (Samples.world_with [Samples.past "nike" 1 10; Samples.past "nike" 2 20])
       = Ok (r2, w2)
    /\ priceAnalysis r1 = priceAnalysis r2
    /\ summary r1 = summary r2
    /\ brandDistribution r1 = brandDistribution r2
    /\ conditionDistribution r1 = conditionDistribution r2.
Proof.
  eexists. eexists. eexists. eexists.
  split; [vm_compute; reflexivity|].
  split; [vm_compute; reflexivity|].
  exact (C8_aggregation_is_deterministic
           Samples.some_sqrt Samples.stable_sort
           (Samples.serving [Samples.item (JStr "20") "Nike" "Bon" "anna"])
           (Samples.serving [Samples.item (JStr "20") "Nike" "Bon" "anna"])
           "nike" "nike" "token" "token"
           (Samples.world_with [Samples.past "nike" 1 10])
           (Samples.world_with [Samples.past "nike" 1 10; Samples.past "nike" 2 20])
           _ _ _ _
           [Samples.item (JStr "20") "Nike" "Bon" "anna"]
           eq_refl eq_refl eq_refl eq_refl).
Defined.

(** Of two runs in a row on one batch the stamp and the trend do differ:
    the second run reads the snapshot the first one stored. *)
Example C8_stamp_and_trend_differ :
  exists r1 w1 r2 w2,
    analyze_market_by_product_name Samples.some_sqrt Samples.stable_sort
      (Samples.serving [Samples.item (JStr "20") "Nike" "Bon" "anna"])
      "nike" "token" (Samples.world_with [Samples.past "nike" 1 10]) = Ok (r1, w1)
    /\ analyze_market_by_product_name Samples.some_sqrt Samples.stable_sort
         (Samples.serving [Samples.item (JStr "20") "Nike" "Bon" "anna"])
         "nike" "token" w1 = Ok (r2, w2)
    /\ analysisTimestamp r1 = 1000 /\ analysisTimestamp r2 = 1002
    /\ Py.dict_lookup "tendancePrix30Jours" (kpis r1)
       = Some (Num (Float (PyFloat.Fin 0)))
    /\ Py.dict_lookup "tendancePrix30Jours" (kpis r2)
       = Some (Num (Float (PyFloat.Fin 100))).
Proof.
  eexists. eexists. eexists. eexists.
  split; [vm_compute; reflexivity|].
  split; [vm_compute; reflexivity|].
  vm_compute. repeat split; reflexivity.
Qed.

(** ** C9: the turnover rate *)

(** C9. The turnover rate [tauxDeRotation] computed by [calculate_kpis] is
    exactly [50.0] for every non-empty batch, whatever its records, and it
    is [0.0] only for the empty batch. *)
Theorem C9_turnover_rate_is_fifty :
  forall np_sqrt df s w kp,
    calculate_kpis np_sqrt df s w = Ok kp ->
    (df <> [] ->
     Py.dict_lookup "tauxDeRotation" kp = Some (Num (Float (PyFloat.Fin 50))))
    /\ (Py.dict_lookup "tauxDeRotation" kp = Some (Num (Float PyFloat.zero))
        <-> df = []).
Proof.
  intros np_sqrt df s w kp H.
  destruct (calculate_kpis_inv _ _ _ _ _ H) as [score ->].
  cbn [Py.dict_lookup String.eqb Ascii.eqb Bool.eqb].
  destruct df as [|r df].
  - split; [congruence|]. split; reflexivity.
  - assert (Hlen : (0 < List.length (r :: df))%nat) by (simpl; lia).
    assert (Hpos : (0 <? List.length (r :: df) * 2)%nat = true)
      by (apply Nat.ltb_lt; lia).
    rewrite Hpos, turnover_of_nonempty by assumption.
    split; [reflexivity|]. split; discriminate.
Qed.

(** A batch of one record, and the empty DataFrame. *)
Lemma C9_witness :
  exists kp kp0,
    calculate_kpis Samples.some_sqrt (Samples.one_record (PyFloat.of_Z 7)) "nike"
      Samples.empty_world = Ok kp
    /\ calculate_kpis Samples.some_sqrt [] "nike" Samples.empty_world = Ok kp0
    /\ Py.dict_lookup "tauxDeRotation" kp = Some (Num (Float (PyFloat.Fin 50)))
    /\ Py.dict_lookup "tauxDeRotation" kp0 = Some (Num (Float PyFloat.zero)).
Proof.
  eexists. eexists.
  split; [vm_compute; reflexivity|].
  split; [vm_compute; reflexivity|].
  split.
  - refine (proj1 (C9_turnover_rate_is_fifty
                     Samples.some_sqrt (Samples.one_record (PyFloat.of_Z 7))
                     "nike" Samples.empty_world _ eq_refl) _).
    discriminate.
  - exact (proj2 (proj2 (C9_turnover_rate_is_fifty
                           Samples.some_sqrt [] "nike" Samples.empty_world _ eq_refl))
                 eq_refl).
Defined.

(** ** C10: which text goes where *)

(** C10. The upstream is asked for the normalized search text (the typo
    [nik] becomes [nike]) and for nothing else.  The history is read under
    the text the caller gave: the trend of a non-empty result is the trend
    of the mean of the batch against the 30 latest snapshots stored under
    that very text, and the run depends on the table through these
    snapshots only.  The snapshot is stored under the text the caller
    gave, and the history of every other text -- that of the normalized
    text, when the two differ -- is left as it was. *)
Theorem C10_history_is_keyed_by_the_original_text :
  forall np_sqrt sort_counts vinted s tok w r w',
    analyze_market_by_product_name np_sqrt sort_counts vinted s tok w = Ok (r, w') ->
    (normalized_search_text "nik" = "nike"
     /\ normalized_search_text "nike" = "nike")
    /\ (exists data, vinted (normalized_search_text s) tok = Items data)
    /\ (forall vinted',
          vinted' (normalized_search_text s) tok
          = vinted (normalized_search_text s) tok ->
          analyze_market_by_product_name np_sqrt sort_counts vinted' s tok w
          = Ok (r, w'))
    /\ (itemsFound (summary r) <> 0%nat ->
        exists data recs,
          vinted (normalized_search_text s) tok = Items (JList data)
          /\ collect_records data [] = Ok recs
          /\ Py.dict_lookup "tendancePrix30Jours" (kpis r)
             = Some (Num (price_trend
                            (Float (Pandas.Series_mean (prices recs)))
                            (Persistence.get_historical_analyses s 30 w))))
    /\ Persistence.db w'
       = (Persistence.db w
          ++ [ {| Persistence.search_text := s;
                  Persistence.analysis_timestamp :=
                    Persistence.clock w (S (Persistence.ticks w));
                  Persistence.analysis_data := r |} ])%list
    /\ (forall w2,
          Persistence.clock w2 = Persistence.clock w ->
          Persistence.ticks w2 = Persistence.ticks w ->
          Persistence.get_historical_analyses s 30 w2
          = Persistence.get_historical_analyses s 30 w ->
          analyze_market_by_product_name np_sqrt sort_counts vinted s tok w2
          = Ok (r, Spec.stored s r w2))
    /\ (forall s' limit,
          s' <> s ->
          Persistence.get_historical_analyses s' limit w'
          = Persistence.get_historical_analyses s' limit w).
Proof.
  intros np_sqrt sort_counts vinted s tok w r w' Hrun.
  split; [split; reflexivity|].
  destruct (analyze_inv _ _ _ _ _ _ _ _ Hrun)
    as (data & items & recs & Hfetch & Hitems & Hrecs & Hw' & Hstamp & Hcase).
  split; [exists data; exact Hfetch|].
  split.
  { intros vinted' Hsame. rewrite <- Hrun.
    unfold analyze_market_by_product_name. rewrite Hsame. reflexivity. }
  split.
  { intros Hfound.
    destruct Hcase as [[_ ->]|(Hne & _ & _ & _ & Hk & _)];
      [contradiction Hfound; reflexivity|].
    pose proof (raw_items_retained _ _ _ Hitems Hrecs Hne) as ->.
    exists items, recs. split; [exact Hfetch|]. split; [exact Hrecs|].
    destruct (calculate_kpis_inv _ _ _ _ _ Hk) as [score ->].
    cbn [Py.dict_lookup String.eqb Ascii.eqb Bool.eqb].
    unfold average_price. destruct recs; [contradiction|reflexivity]. }
  split; [subst w'; reflexivity|].
  split.
  - intros w2 Hclock Hticks Hhist.
    assert (Hempty :
              Ok (Spec.canonical_empty_result (Spec.stamp w2),
                  Persistence.save_analysis s
                    (Spec.canonical_empty_result (Spec.stamp w2))
                    (snd (Persistence.datetime_now w2)))
              = Ok (Spec.canonical_empty_result (Spec.stamp w),
                    Spec.stored s (Spec.canonical_empty_result (Spec.stamp w)) w2)
              :> res (analysis * world)).
    { unfold Spec.stored, Persistence.save_analysis, Spec.canonical_empty_result,
        Spec.stamp.
      cbn [Persistence.datetime_now Persistence.clock Persistence.ticks
           Persistence.db snd].
      rewrite Hclock, Hticks. reflexivity. }
    unfold analyze_market_by_product_name. rewrite Hfetch. cbn [Py.bind].
    unfold Spec.raw_items in Hitems.
    destruct (Py.truth data); cbn [negb].
    + unfold records_of. rewrite Hitems. cbn [Py.bind].
      rewrite Hrecs. cbn [Py.bind].
      destruct Hcase as [[-> ->]|(Hne & Hpa & Hn & Hs & Hk & Hb & Hc)].
      * exact Hempty.
      * destruct recs as [|rec recs]; [contradiction|]. cbn [is_empty].
        rewrite Hs. cbn [Py.bind].
        rewrite (calculate_kpis_history _ _ _ w w2 Hhist), Hk. cbn [Py.bind].
        cbn [Persistence.datetime_now]. rewrite Hb, Hc. cbn [Py.bind].
        unfold Spec.stored, Persistence.save_analysis, Spec.stamp in *.
        cbn [Persistence.datetime_now Persistence.clock Persistence.ticks Persistence.db].
        rewrite Hclock, Hticks.
        destruct r as [ts pa [n sc] bd cd kp]. simpl in *.
        subst. reflexivity.
    + inversion Hitems; subst items. cbn [collect_records] in Hrecs.
      inversion Hrecs; subst recs.
      destruct Hcase as [[_ ->]|[Hne _]]; [|contradiction].
      exact Hempty.
  - intros s' limit Hneq. subst w'. unfold Spec.stored.
    destruct w as [clock ticks rows].
    cbn [Persistence.clock Persistence.ticks Persistence.db].
    apply get_historical_analyses_other_key with (key' := s);
      [reflexivity|congruence].
Qed.

(** A run under [nik], with snapshots stored under [nik] (averages 10,
    then 20) and under [nike] (average 5, twice): the listing is that of
    [nike], the trend is the one against the history of [nik] (100.0; the
    history of [nike] would give 300.0), the snapshot is filed under [nik],
    and the history of [nike] is untouched. *)
Lemma C10_witness :
  exists r w',
    analyze_market_by_product_name Samples.some_sqrt Samples.stable_sort
      (fun text _ => if String.eqb text "nike"
                     then Items (JList [Samples.item (JStr "20") "Nike" "Bon" "anna"])
                     else Failed)
      "nik" "token"
      (Samples.world_with [Samples.past "nik" 1 10; Samples.past "nike" 2 5;
                           Samples.past "nik" 3 20; Samples.past "nike" 4 5])
    = Ok (r, w')
    /\ map (@Persistence.search_text analysis) (Persistence.db w')
       = ["nik"; "nike"; "nik"; "nike"; "nik"]
    /\ Py.dict_lookup "tendancePrix30Jours" (kpis r)
       = Some (Num (Float (PyFloat.Fin 100)))
    /\ Persistence.get_historical_analyses "nike" 30 w'
       = Persistence.get_historical_analyses "nike" 30
           (Samples.world_with [Samples.past "nik" 1 10; Samples.past "nike" 2 5;
                                Samples.past "nik" 3 20; Samples.past "nike" 4 5]).
Proof.
  destruct (C10_history_is_keyed_by_the_original_text
              Samples.some_sqrt Samples.stable_sort
              (fun text _ => if String.eqb text "nike"
                             then Items (JList [Samples.item (JStr "20") "Nike" "Bon" "anna"])
                             else Failed)
              "nik" "token"
              (Samples.world_with [Samples.past "nik" 1 10; Samples.past "nike" 2 5;
                                   Samples.past "nik" 3 20; Samples.past "nike" 4 5])
              _ _ eq_refl)
    as (_ & _ & _ & Htrend & Hdb & _ & Hother).
  match type of Hdb with
  | Persistence.db ?w'
    = (_ ++ [ {| Persistence.search_text := _;
                 Persistence.analysis_timestamp := _;
                 Persistence.analysis_data := ?r |} ])%list =>
      exists r, w'
  end.
  split; [reflexivity|]. split; [reflexivity|]. split.
  - destruct (Htrend ltac:(discriminate)) as (data & recs & Hdata & Hrecs & Hlookup).
    vm_compute in Hdata. inversion Hdata; subst data; clear Hdata.
    vm_compute in Hrecs. inversion Hrecs; subst recs; clear Hrecs.
    rewrite Hlookup. vm_compute. reflexivity.
  - apply Hother. discriminate.
Defined.

(** The same listing analysed under [nik] and under [nike] from one table:
    each run has the trend of its own history. *)
Example C10_two_keys_two_trends :
  let vinted : upstream :=
    fun text _ => if String.eqb text "nike"
                  then Items (JList [Samples.item (JStr "20") "Nike" "Bon" "anna"])
                  else Failed in
  let w := Samples.world_with [Samples.past "nik" 1 10; Samples.past "nike" 2 5;
                               Samples.past "nik" 3 20; Samples.past "nike" 4 5] in
  exists r1 w1 r2 w2,
    analyze_market_by_product_name Samples.some_sqrt Samples.stable_sort
      vinted "nik" "token" w = Ok (r1, w1)
    /\ analyze_market_by_product_name Samples.some_sqrt Samples.stable_sort
         vinted "nike" "token" w = Ok (r2, w2)
    /\ priceAnalysis r1 = priceAnalysis r2
    /\ Py.dict_lookup "tendancePrix30Jours" (kpis r1)
       = Some (Num (Float (PyFloat.Fin 100)))
    /\ Py.dict_lookup "tendancePrix30Jours" (kpis r2)
       = Some (Num (Float (PyFloat.Fin 300))).
Proof.
  eexists. eexists. eexists. eexists.
  split; [vm_compute; reflexivity|].
  split; [vm_compute; reflexivity|].
  vm_compute. repeat split; reflexivity.
Qed.

(* ------------------------------------------------------------------ *)
(** * Further properties of the analyzer *)

(** ** The text sent upstream *)

Lemma chars_app (a b : string) :
  Py.chars (a ++ b) = (Py.chars a ++ Py.chars b)%list.
Proof.
  unfold Py.chars. induction a as [|c a IH]; simpl; [reflexivity|].
  rewrite IH. reflexivity.
Qed.

Lemma text_chars (s : string) : Py.text (Py.chars s) = s.
Proof. apply string_of_list_ascii_of_string. Qed.

Lemma chars_text (l : list ascii) : Py.chars (Py.text l) = l.
Proof. apply list_ascii_of_string_of_list_ascii. Qed.

(** Reading a run of characters that are not separators. *)
Lemma split_aux_word (cs cur rest : list ascii) :
  forallb (fun c => negb (Py.is_whitespace c)) cs = true ->
  Py.split_aux cur (cs ++ rest) = Py.split_aux (rev cs ++ cur) rest.
Proof.
  revert cur. induction cs as [|c cs IH]; intros cur H; [reflexivity|].
  simpl in H. apply andb_true_iff in H. destruct H as [Hc Hcs].
  apply negb_true_iff in Hc. simpl. rewrite Hc, IH by assumption.
  rewrite <- app_assoc. reflexivity.
Qed.

Lemma forallb_rev_true {A : Type} (f : A -> bool) (l : list A) :
  forallb f l = true -> forallb f (rev l) = true.
Proof.
  rewrite !forallb_forall. intros H x Hx. apply H, in_rev, Hx.
Qed.

Lemma split_aux_all_words (cur s : list ascii) :
  forallb (fun c => negb (Py.is_whitespace c)) cur = true ->
  Forall Extra.word (Py.split_aux cur s).
Proof.
  revert cur. induction s as [|c s IH]; intros cur Hcur; simpl.
  - destruct cur as [|c' cur]; constructor; [|constructor].
    split.
    + intros H. apply (f_equal Py.chars) in H. rewrite chars_text in H.
      simpl in H. destruct (rev cur); discriminate.
    + rewrite chars_text. apply forallb_rev_true, Hcur.
  - destruct (Py.is_whitespace c) eqn:E.
    + destruct cur as [|c' cur]; [apply IH; reflexivity|].
      constructor; [|apply IH; reflexivity].
      split.
      * intros H. apply (f_equal Py.chars) in H. rewrite chars_text in H.
        simpl in H. destruct (rev cur); discriminate.
      * rewrite chars_text. apply forallb_rev_true, Hcur.
    + apply IH. simpl. rewrite E. exact Hcur.
Qed.

(** [split] returns words: none is empty, none holds a separator. *)
Lemma split_words (s : string) : Forall Extra.word (Py.split s).
Proof. apply split_aux_all_words. reflexivity. Qed.

(** Joining words with a space and splitting again gives the words back. *)
Lemma split_join (ws : list string) :
  Forall Extra.word ws -> Py.split (Py.join " " ws) = ws.
Proof.
  unfold Py.split.
  induction 1 as [|w ws [Hne Hw] Hws IH]; [reflexivity|].
  assert (Hcs : Py.chars w <> []).
  { intros H. apply Hne. rewrite <- (text_chars w), H. reflexivity. }
  destruct ws as [|w' ws].
  - cbn [Py.join]. rewrite <- (app_nil_r (Py.chars w)).
    rewrite split_aux_word by assumption. simpl. rewrite app_nil_r.
    destruct (rev (Py.chars w)) eqn:E.
    + apply (f_equal (@rev ascii)) in E. rewrite rev_involutive in E.
      contradiction.
    + rewrite <- E, rev_involutive, text_chars. reflexivity.
  - change (Py.join " " (w :: w' :: ws))
      with (w ++ " " ++ Py.join " " (w' :: ws))%string.
    rewrite chars_app, split_aux_word by assumption.
    rewrite app_nil_r. rewrite chars_app.
    change (Py.chars " ") with [" "%char]. cbn [app Py.split_aux].
    change (Py.is_whitespace " ") with true. cbv iota.
    destruct (rev (Py.chars w)) eqn:E.
    + apply (f_equal (@rev ascii)) in E. rewrite rev_involutive in E.
      contradiction.
    + rewrite <- E, rev_involutive, text_chars, IH. reflexivity.
Qed.

Lemma corrections_values (k c : string) :
  Py.dict_lookup k corrections = Some c ->
  In c ["nike"; "adidas"; "puma"; "zara"; "h&m"].
Proof.
  unfold corrections. cbn [Py.dict_lookup].
  repeat match goal with
         | |- context [String.eqb ?a ?b] => destruct (String.eqb a b)
         end;
    intros H; inversion H; subst; simpl; tauto.
Qed.

(** A corrected word is left alone by a second correction. *)
Lemma normalize_brand_name_idempotent (w : string) :
  normalize_brand_name (normalize_brand_name w) = normalize_brand_name w.
Proof.
  unfold normalize_brand_name.
  destruct (Py.dict_lookup (Py.lower w) corrections) as [c|] eqn:E.
  - apply corrections_values in E. simpl in E.
    repeat (destruct E as [<-|E]; [reflexivity|]). contradiction.
  - rewrite E. reflexivity.
Qed.

Lemma normalize_brand_name_word (w : string) :
  Extra.word w -> Extra.word (normalize_brand_name w).
Proof.
  intros Hw. unfold normalize_brand_name.
  destruct (Py.dict_lookup (Py.lower w) corrections) as [c|] eqn:E;
    [|exact Hw].
  apply corrections_values in E. simpl in E.
  repeat (destruct E as [<-|E]; [split; [discriminate|reflexivity]|]).
  contradiction.
Qed.

Lemma split_normalized_text (s : string) :
  Py.split (normalized_search_text s)
  = map normalize_brand_name (Py.split s).
Proof.
  unfold normalized_search_text. apply split_join.
  pose proof (split_words s) as H.
  induction H as [|w ws Hw _ IH]; simpl; constructor; auto.
  apply normalize_brand_name_word, Hw.
Qed.

(** X1. The words of the text sent upstream are the corrected words of
    the search text: splitting what was joined loses nothing, whatever the
    text (empty, blank or with runs of separators). *)
Theorem X1_normalized_text_words :
  forall s,
    Py.split (normalized_search_text s)
    = map normalize_brand_name (Py.split s)
    /\ Forall Extra.word (Py.split (normalized_search_text s)).
Proof.
  intros s. split; [apply split_normalized_text|apply split_words].
Qed.

(** X2. Normalizing a search text twice is normalizing it once: the text
    sent upstream is a fixed point of the normalization. *)
Theorem X2_normalized_text_idempotent :
  forall s,
    normalized_search_text (normalized_search_text s)
    = normalized_search_text s.
Proof.
  intros s. unfold normalized_search_text at 1.
  rewrite split_normalized_text, map_map.
  unfold normalized_search_text. f_equal.
  apply map_ext. intros w. apply normalize_brand_name_idempotent.
Qed.

(** ** The sizes of a result *)

Lemma first_seen_length (labels : list json) :
  (List.length (Spec.first_seen labels) <= List.length labels)%nat.
Proof.
  induction labels as [|l labels IH]; simpl; [lia|].
  pose proof (filter_length_le
                (fun x => negb (Pandas.label_eqb l x)) (Spec.first_seen labels)).
  lia.
Qed.

(** No more distinct labels than labels. *)
Lemma nunique_le_length (labels : list json) (n : nat) :
  Pandas.nunique labels = Ok n -> (n <= List.length labels)%nat.
Proof.
  unfold Pandas.nunique.
  destruct (forallb Pandas.hashable labels); [|discriminate].
  intros H. inversion H; subst n; clear H.
  rewrite <- (length_map fst), count_first_seen_keys.
  pose proof (first_seen_length (Pandas.present labels)).
  pose proof (filter_length_le (fun v => negb (Pandas.isna v)) labels).
  unfold Pandas.present in *. lia.
Qed.

Lemma retained_count (data : list json) :
  List.length (flat_map Spec.retained data) = Extra.well_formed_count data.
Proof.
  unfold Extra.well_formed_count.
  induction data as [|item data IH]; simpl; [reflexivity|].
  rewrite length_app, IH. unfold Spec.retained.
  destruct (record_of_item item); reflexivity.
Qed.

(** X3. In every result the number of sellers is at most the number of
    items found, which is the number of raw items the loop could make a
    record of, at most the number of raw items fetched. *)
Theorem X3_sellers_items_fetched :
  forall np_sqrt sort_counts vinted s tok w r w' data,
    vinted (normalized_search_text s) tok = Items (JList data) ->
    analyze_market_by_product_name np_sqrt sort_counts vinted s tok w = Ok (r, w') ->
    (sellersCount (summary r) <= itemsFound (summary r))%nat
    /\ itemsFound (summary r) = Extra.well_formed_count data
    /\ (itemsFound (summary r) <= List.length data)%nat.
Proof.
  intros np_sqrt sort_counts vinted s tok w r w' data Hfetch Hrun.
  destruct (analyze_inv _ _ _ _ _ _ _ _ Hrun)
    as (data' & items & recs & Hfetch' & Hraw & Hrecs & _ & _ & Hcase).
  rewrite Hfetch in Hfetch'. inversion Hfetch'; subst data'.
  rewrite raw_items_list in Hraw. inversion Hraw; subst items.
  pose proof (collect_records_length _ _ Hrecs) as Hlen.
  apply collect_records_acc in Hrecs. simpl in Hrecs.
  pose proof (retained_count data) as Hcount. rewrite <- Hrecs in Hcount.
  destruct Hcase as [[-> ->]|(_ & _ & Hitems & Hsellers & _)].
  - simpl in *. repeat split; lia.
  - apply nunique_le_length in Hsellers.
    unfold seller_logins in Hsellers. rewrite length_map in Hsellers.
    repeat split; lia.
Qed.

Lemma X3_witness :
  exists r w',
    analyze_market_by_product_name Samples.some_sqrt Samples.stable_sort
      (Samples.serving [Samples.item (JStr "40") "Nike" "Bon" "anna";
                        Samples.item (JStr "ten") "Zara" "Neuf" "bob";
                        Samples.item (JStr "30") "Nike" "Neuf" "anna"])
      "nike" "token" Samples.empty_world = Ok (r, w')
    /\ summary r = {| itemsFound := 2; sellersCount := 1 |}
    /\ (sellersCount (summary r) <= itemsFound (summary r))%nat
    /\ (itemsFound (summary r) <= 3)%nat.
Proof.
  eexists. eexists. split; [vm_compute; reflexivity|].
  split; [reflexivity|].
  destruct (X3_sellers_items_fetched
              Samples.some_sqrt Samples.stable_sort
              (Samples.serving [Samples.item (JStr "40") "Nike" "Bon" "anna";
                                Samples.item (JStr "ten") "Zara" "Neuf" "bob";
                                Samples.item (JStr "30") "Nike" "Neuf" "anna"])
              "nike" "token" Samples.empty_world _ _ _ eq_refl eq_refl)
    as (H1 & _ & H3).
  split; [exact H1|exact H3].
Defined.

(** ** The totals of the distributions *)

Lemma total_bump (l : json) (table : list (json * nat)) :
  Extra.total (Pandas.bump l table) = S (Extra.total table).
Proof.
  induction table as [|[k c] table IH]; simpl; [reflexivity|].
  destruct (Pandas.label_eqb k l); simpl; [reflexivity|].
  rewrite IH. lia.
Qed.

Lemma total_count (labels : list json) (table : list (json * nat)) :
  Extra.total (fold_left (fun counts l => Pandas.bump l counts) labels table)
  = (Extra.total table + List.length labels)%nat.
Proof.
  revert table. induction labels as [|l labels IH]; intros table; simpl.
  - lia.
  - rewrite IH, total_bump. lia.
Qed.

(** Rearranging the entries does not change their total. *)
Lemma total_permutation (d d' : distribution) :
  Permutation d d' -> Extra.total d = Extra.total d'.
Proof.
  induction 1 as [|x l l' _ IH|x y l|l l' l'' _ IH1 _ IH2]; simpl; lia.
Qed.

(** The counts of [value_counts] add up to the number of labels present. *)
Lemma value_counts_total sort_counts (labels : list json) (d : distribution) :
  Spec.sorts_by_count sort_counts ->
  Pandas.value_counts sort_counts labels = Ok d ->
  Extra.total d = List.length (Pandas.present labels).
Proof.
  intros Hsort. unfold Pandas.value_counts.
  destruct (forallb Pandas.hashable labels); [|discriminate].
  intros H. inversion H; subst d; clear H.
  rewrite (total_permutation _ _ (proj1 (Hsort _))).
  unfold Pandas.count_first_seen.
  rewrite total_count. reflexivity.
Qed.

Lemma present_all (labels : list json) :
  Forall (fun l => Pandas.isna l = false) labels ->
  Pandas.present labels = labels.
Proof.
  unfold Pandas.present. induction 1 as [|l labels Hl _ IH]; simpl;
    [reflexivity|].
  rewrite Hl, IH. reflexivity.
Qed.

Lemma counts_add_up {A : Type} sort_counts (label : A -> json) (recs : list A)
      (d : distribution) :
  Spec.sorts_by_count sort_counts ->
  Pandas.value_counts sort_counts (map label recs) = Ok d ->
  Extra.total d = List.length (Pandas.present (map label recs))
  /\ (Extra.total d <= List.length recs)%nat
  /\ (Forall (fun rec => Pandas.isna (label rec) = false) recs ->
      Extra.total d = List.length recs).
Proof.
  intros Hsort H. apply (value_counts_total _ _ _ Hsort) in H. rewrite H.
  split; [reflexivity|]. split.
  - unfold Pandas.present.
    pose proof (filter_length_le (fun v => negb (Pandas.isna v)) (map label recs))
      as Hle.
    rewrite length_map in Hle. exact Hle.
  - intros Hall. rewrite present_all; [apply length_map|].
    rewrite Forall_forall in *. intros l Hl.
    apply in_map_iff in Hl. destruct Hl as (rec & <- & Hrec). auto.
Qed.

(** X4. The counts of the brand distribution add up to the number of
    records whose brand is not missing ([None] or [nan]): never more than
    the number of items found, and exactly that number when no retained
    record lacks its brand.  The same holds of the condition
    distribution. *)
Theorem X4_distribution_counts_add_up :
  forall np_sqrt sort_counts vinted s tok w r w' data recs,
    Spec.sorts_by_count sort_counts ->
    vinted (normalized_search_text s) tok = Items (JList data) ->
    collect_records data [] = Ok recs ->
    analyze_market_by_product_name np_sqrt sort_counts vinted s tok w = Ok (r, w') ->
    (Extra.total (brandDistribution r) = List.length (Pandas.present (brands recs))
     /\ (Extra.total (brandDistribution r) <= itemsFound (summary r))%nat
     /\ (Forall (fun rec => Pandas.isna (brand rec) = false) recs ->
         Extra.total (brandDistribution r) = itemsFound (summary r)))
    /\ (Extra.total (conditionDistribution r)
        = List.length (Pandas.present (conditions recs))
        /\ (Extra.total (conditionDistribution r) <= itemsFound (summary r))%nat
        /\ (Forall (fun rec => Pandas.isna (condition rec) = false) recs ->
            Extra.total (conditionDistribution r) = itemsFound (summary r))).
Proof.
  intros np_sqrt sort_counts vinted s tok w r w' data recs
         Hsort Hfetch Hrecs Hrun.
  destruct (analyze_of_batch _ _ _ _ _ _ _ _ _ _ Hfetch Hrecs Hrun)
    as [[-> ->]|(_ & _ & Hitems & _ & _ & Hb & Hc)].
  - simpl. repeat split; auto.
  - rewrite Hitems. split.
    + exact (counts_add_up _ brand recs _ Hsort Hb).
    + exact (counts_add_up _ condition recs _ Hsort Hc).
Qed.

(** Three records, one of them with the brand [null]. *)
Lemma X4_witness :
  exists r w',
    analyze_market_by_product_name Samples.some_sqrt Samples.stable_sort
      (Samples.serving Extra.batch_with_null_brand)
      "nike" "token" Samples.empty_world = Ok (r, w')
    /\ itemsFound (summary r) = 3%nat
    /\ brandDistribution r = [(JStr "Nike", 2%nat)]
    /\ (Extra.total (brandDistribution r) <= itemsFound (summary r))%nat.
Proof.
  eexists. eexists. split; [vm_compute; reflexivity|].
  split; [reflexivity|]. split; [reflexivity|].
  exact (proj1 (proj2 (proj1 (X4_distribution_counts_add_up
                         Samples.some_sqrt Samples.stable_sort
                         (Samples.serving Extra.batch_with_null_brand)
                         "nike" "token" Samples.empty_world
                         _ _ Extra.batch_with_null_brand _
                         stable_sort_sorts_by_count
                         eq_refl eq_refl eq_refl)))).
Defined.

(** ** Storing and reading back *)

Section HistoryOrder.

Variable data : Type.

Lemma insert_desc_length (r : Persistence.row data)
      (l : list (Persistence.row data)) :
  List.length (Persistence.insert_desc data r l) = S (List.length l).
Proof.
  induction l as [|y l IH]; simpl; [reflexivity|].
  destruct (Z.leb _ _); simpl; [reflexivity|]. rewrite IH. reflexivity.
Qed.

Lemma order_by_timestamp_desc_length (l : list (Persistence.row data)) :
  List.length (Persistence.order_by_timestamp_desc data l) = List.length l.
Proof.
  unfold Persistence.order_by_timestamp_desc.
  induction l as [|r l IH]; cbn [fold_right]; [reflexivity|].
  rewrite insert_desc_length, IH. reflexivity.
Qed.

Lemma order_by_timestamp_desc_In (x : Persistence.row data)
      (l : list (Persistence.row data)) :
  In x (Persistence.order_by_timestamp_desc data l) <-> In x l.
Proof.
  unfold Persistence.order_by_timestamp_desc.
  induction l as [|r l IH]; cbn [fold_right]; [reflexivity|].
  rewrite insert_desc_In, IH. simpl. intuition.
Qed.


End HistoryOrder.



(** X6. The history of a search text has as many snapshots as the table
    has rows under that text, up to the limit; and when the limit allows
    for all of them, every result stored under the text is in it. *)
Theorem X6_history_holds_the_rows_of_the_key :
  forall key limit (w : world),
    let rows := filter (fun r => String.eqb (Persistence.search_text r) key)
                       (Persistence.db w) in
    List.length (Persistence.get_historical_analyses key limit w)
    = Nat.min limit (List.length rows)
    /\ ((List.length rows <= limit)%nat ->
        forall row, In row (Persistence.db w) ->
                    Persistence.search_text row = key ->
                    In {| Persistence.analysisTimestamp :=
                            Persistence.analysis_timestamp row;
                          Persistence.analysisData :=
                            Persistence.analysis_data row |}
                       (Persistence.get_historical_analyses key limit w)).
Proof.
  intros key limit w rows. unfold Persistence.get_historical_analyses.
  fold rows. split.
  - rewrite length_map, length_firstn, order_by_timestamp_desc_length.
    reflexivity.
  - intros Hlimit row Hin Hkey.
    rewrite firstn_all2 by (rewrite order_by_timestamp_desc_length; exact Hlimit).
    apply in_map_iff. exists row. split; [reflexivity|].
    apply order_by_timestamp_desc_In. apply filter_In.
    split; [exact Hin|]. apply String.eqb_eq. exact Hkey.
Qed.

(** ** What the loop and the analysis can raise *)

Lemma getitem_raises (obj : json) (key : string) (e : exn) :
  Py.getitem obj key = Raise e -> e = KeyError \/ e = TypeError.
Proof.
  destruct obj; simpl; try (intros H; inversion H; tauto).
  destruct (Py.dict_lookup key d); intros H; inversion H; tauto.
Qed.

Lemma get_raises (obj : json) (key : string) (default : json) (e : exn) :
  Py.get obj key default = Raise e -> e = TypeError.
Proof.
  destruct obj; simpl; try (intros H; inversion H; reflexivity).
  destruct (Py.dict_lookup key d); discriminate.
Qed.

Lemma float_of_string_raises (s : string) (e : exn) :
  Py.float_of_string s = Raise e -> e = ValueError.
Proof.
  unfold Py.float_of_string.
  destruct (Py.drop_underscores _ _ _) as [body|]; [|intros H; inversion H; reflexivity].
  destruct (Py.take_sign body) as [negative rest].
  destruct (Py.parse_decimal rest); [discriminate|].
  destruct (_ || _)%bool; [discriminate|].
  destruct (String.eqb _ _); [discriminate|].
  intros H; inversion H; reflexivity.
Qed.

(** [float()] raises [OverflowError] on an integer only. *)
Lemma float_raises (x : json) (e : exn) :
  Py.float x = Raise e ->
  e = TypeError \/ e = ValueError
  \/ (e = OverflowError
      /\ exists z, x = JInt z /\ (PyFloat.overflow_threshold <= Z.abs z)%Z).
Proof.
  destruct x; simpl; try (intros H; inversion H; tauto).
  - unfold Py.float_of_int.
    destruct (PyFloat.overflow_threshold <=? Z.abs z)%Z eqn:E; [|discriminate].
    intros H; inversion H. right. right. split; [reflexivity|].
    exists z. split; [reflexivity|]. apply Z.leb_le. exact E.
  - intros H. apply float_of_string_raises in H. tauto.
Qed.

(** What the dict literal of the loop can raise: the three exceptions
    the loop skips, or the [OverflowError] of the price. *)
Lemma record_of_item_raises (item : json) (e : exn) :
  record_of_item item = Raise e ->
  caught e = true
  \/ (e = OverflowError /\ Spec.price_of item = Raise OverflowError).
Proof.
  unfold record_of_item, Spec.price_of, Spec.amount_of.
  destruct (Py.getitem item "price") as [po|e1] eqn:E1; cbn [Py.bind].
  2:{ intros H; inversion H; subst. left.
      destruct (getitem_raises _ _ _ E1) as [->| ->]; reflexivity. }
  destruct (Py.getitem po "amount") as [a|e2] eqn:E2; cbn [Py.bind].
  2:{ intros H; inversion H; subst. left.
      destruct (getitem_raises _ _ _ E2) as [->| ->]; reflexivity. }
  destruct (Py.float a) as [p|e3] eqn:E3; cbn [Py.bind].
  2:{ intros H; inversion H; subst.
      destruct (float_raises _ _ E3) as [->|[->|[-> _]]];
        [left; reflexivity|left; reflexivity|right; split; reflexivity]. }
  destruct (Py.get item "brand_title" _) as [b|e4] eqn:E4; cbn [Py.bind].
  2:{ intros H; inversion H; subst. left.
      rewrite (get_raises _ _ _ _ E4). reflexivity. }
  destruct (Py.get item "status" _) as [c|e5] eqn:E5; cbn [Py.bind].
  2:{ intros H; inversion H; subst. left.
      rewrite (get_raises _ _ _ _ E5). reflexivity. }
  destruct (Py.getitem item "user") as [u|e6] eqn:E6; cbn [Py.bind].
  2:{ intros H; inversion H; subst. left.
      destruct (getitem_raises _ _ _ E6) as [->| ->]; reflexivity. }
  destruct (Py.getitem u "login") as [l|e7] eqn:E7; cbn [Py.bind].
  2:{ intros H; inversion H; subst. left.
      destruct (getitem_raises _ _ _ E7) as [->| ->]; reflexivity. }
  discriminate.
Qed.

Lemma price_overflow_aborts (item : json) :
  Spec.price_of item = Raise OverflowError ->
  record_of_item item = Raise OverflowError.
Proof.
  unfold record_of_item, Spec.price_of, Spec.amount_of.
  destruct (Py.getitem item "price") as [po|]; cbn [Py.bind];
    [|intros H; inversion H; reflexivity].
  destruct (Py.getitem po "amount") as [a|]; cbn [Py.bind];
    [|intros H; inversion H; reflexivity].
  destruct (Py.float a) as [p|]; cbn [Py.bind];
    [discriminate|intros H; inversion H; reflexivity].
Qed.

Lemma collect_records_raises (data : list json) (acc : list record) (e : exn) :
  collect_records data acc = Raise e ->
  e = OverflowError
  /\ exists item, In item data /\ Spec.price_of item = Raise OverflowError.
Proof.
  revert acc. induction data as [|item data IH]; intros acc; simpl;
    [discriminate|].
  destruct (record_of_item item) as [r|e'] eqn:E.
  - intros H. destruct (IH _ H) as (-> & item' & Hin & Hp).
    split; [reflexivity|]. exists item'. auto.
  - destruct (caught e') eqn:Ec.
    + intros H. destruct (IH _ H) as (-> & item' & Hin & Hp).
      split; [reflexivity|]. exists item'. auto.
    + intros H. inversion H; subst e'.
      destruct (record_of_item_raises _ _ E) as [Hc|[-> Hp]]; [congruence|].
      split; [reflexivity|]. exists item. auto.
Qed.

Lemma collect_records_overflow (data : list json) (acc : list record) :
  (exists item, In item data /\ Spec.price_of item = Raise OverflowError) ->
  collect_records data acc = Raise OverflowError.
Proof.
  intros (item & Hin & Hp). revert acc.
  induction data as [|item' data IH]; intros acc; [contradiction|].
  simpl. destruct Hin as [->|Hin].
  - rewrite (price_overflow_aborts _ Hp). reflexivity.
  - destruct (record_of_item item') as [r|e] eqn:E; [apply IH, Hin|].
    destruct (record_of_item_raises _ _ E) as [->|[-> _]];
      [apply IH, Hin|reflexivity].
Qed.

(** The [for] statement over a text or a dict retains nothing. *)
Lemma records_of_text (s : string) : records_of (JStr s) = Ok [].
Proof.
  unfold records_of. cbn [Py.iter Py.bind]. apply collect_records_texts.
  apply Forall_forall. intros item Hin. apply in_map_iff in Hin.
  destruct Hin as (c & <- & _). eexists. reflexivity.
Qed.

Lemma records_of_dict (d : list (string * json)) : records_of (JDict d) = Ok [].
Proof.
  unfold records_of. cbn [Py.iter Py.bind]. apply collect_records_texts.
  apply Forall_forall. intros item Hin. apply in_map_iff in Hin.
  destruct Hin as (e & <- & _). eexists. reflexivity.
Qed.

Lemma records_of_retained (data : json) (recs : list record) :
  records_of data = Ok recs ->
  recs <> [] ->
  exists items, data = JList items /\ collect_records items [] = Ok recs.
Proof.
  intros H Hne. destruct data as [| b | z | f | s | l | d]; try discriminate.
  - rewrite records_of_text in H. inversion H. congruence.
  - exists l. split; [reflexivity|exact H].
  - rewrite records_of_dict in H. inversion H. congruence.
Qed.

Lemma records_of_raises (data : json) (e : exn) :
  records_of data = Raise e ->
  (e = TypeError /\ Extra.not_iterable data)
  \/ (e = OverflowError
      /\ exists items item,
           data = JList items
           /\ In item items
           /\ Spec.price_of item = Raise OverflowError).
Proof.
  destruct data as [| b | z | f | s | l | d];
    try (intros H; inversion H; left; split; [reflexivity|exact I]).
  - rewrite records_of_text. discriminate.
  - intros H. destruct (collect_records_raises _ _ _ H) as (-> & item & Hin & Hp).
    right. split; [reflexivity|]. exists l, item. auto.
  - rewrite records_of_dict. discriminate.
Qed.

(** X7. The [for] statement over the value of ["items"] ends with an
    exception in two cases only.  When the value cannot be iterated
    ([None], a boolean, a number) it raises [TypeError], the [for]
    statement being outside the [try].  When the value is a list and the
    price amount of one of its items is an integer too large for a float,
    it raises [OverflowError].  Every other malformed item is skipped. *)
Theorem X7_what_the_loop_raises :
  forall data e,
    records_of data = Raise e
    <-> (e = TypeError /\ Extra.not_iterable data)
        \/ (e = OverflowError
            /\ exists items item,
                 data = JList items
                 /\ In item items
                 /\ Spec.price_of item = Raise OverflowError).
Proof.
  intros data e. split.
  - apply records_of_raises.
  - intros [[-> Hdata]|[-> (items & item & -> & H)]].
    + destruct data; (contradiction || reflexivity).
    + apply (collect_records_overflow items []). exists item. exact H.
Qed.

(** The labels of a column the table of pandas cannot hash. *)
Lemma value_counts_raises sort_counts (labels : list json) (e : exn) :
  Pandas.value_counts sort_counts labels = Raise e ->
  e = TypeError /\ exists l, In l labels /\ Pandas.hashable l = false.
Proof.
  unfold Pandas.value_counts.
  destruct (forallb Pandas.hashable labels) eqn:E; [discriminate|].
  intros H; inversion H. split; [reflexivity|].
  assert (Hex : existsb (fun l => negb (Pandas.hashable l)) labels = true).
  { clear H H1. induction labels as [|l labels IH]; [discriminate|].
    simpl in *. destruct (Pandas.hashable l); simpl; [apply IH, E|reflexivity]. }
  apply existsb_exists in Hex. destruct Hex as (l & Hin & Hl).
  exists l. split; [exact Hin|]. apply negb_true_iff. exact Hl.
Qed.

Lemma nunique_raises (labels : list json) (e : exn) :
  Pandas.nunique labels = Raise e ->
  e = TypeError /\ exists l, In l labels /\ Pandas.hashable l = false.
Proof.
  unfold Pandas.nunique. intros H. apply (value_counts_raises (fun t => t)).
  unfold Pandas.value_counts.
  destruct (forallb Pandas.hashable labels);
    [discriminate|inversion H; reflexivity].
Qed.

(** X8. An analysis that does not return raises [ConnectionError] when the
    request failed; [TypeError] when the value of ["items"] is true and
    cannot be iterated (a number other than zero, or [true]);
    [OverflowError] when the price amount of a fetched item is an integer
    too large for a float; or [TypeError] when a brand, a condition or a
    seller login of a retained record is a list or a dict.  It never
    raises [KeyError] or [ValueError]. *)
Theorem X8_exceptions_of_an_analysis :
  forall np_sqrt sort_counts vinted s tok w e,
    analyze_market_by_product_name np_sqrt sort_counts vinted s tok w = Raise e ->
    (e = ConnectionError /\ vinted (normalized_search_text s) tok = Failed)
    \/ (e = TypeError
        /\ exists data,
             vinted (normalized_search_text s) tok = Items data
             /\ Py.truth data = true
             /\ Extra.not_iterable data)
    \/ (e = OverflowError
        /\ exists data item,
             vinted (normalized_search_text s) tok = Items (JList data)
             /\ In item data
             /\ Spec.price_of item = Raise OverflowError)
    \/ (e = TypeError
        /\ exists data recs rec,
             vinted (normalized_search_text s) tok = Items (JList data)
             /\ collect_records data [] = Ok recs
             /\ In rec recs
             /\ (Pandas.hashable (brand rec) = false
                 \/ Pandas.hashable (condition rec) = false
                 \/ Pandas.hashable (seller_login rec) = false)).
Proof.
  intros np_sqrt sort_counts vinted s tok w e.
  unfold analyze_market_by_product_name.
  destruct (vinted (normalized_search_text s) tok) as [data|] eqn:Hfetch;
    cbn [Py.bind].
  2:{ intros H; inversion H. left. split; reflexivity. }
  destruct (Py.truth data) eqn:Htruth; cbn [negb]; [|discriminate].
  destruct (records_of data) as [recs|e'] eqn:Hrecs; cbn [Py.bind].
  2:{ intros H; inversion H; subst e'.
      destruct (records_of_raises _ _ Hrecs)
        as [[-> Hdata]|[-> (items & item & -> & Hin & Hp)]].
      - right. left. split; [reflexivity|]. exists data. auto.
      - right. right. left. split; [reflexivity|]. exists items, item. auto. }
  destruct recs as [|rec recs]; [discriminate|].
  destruct (records_of_retained _ _ Hrecs ltac:(discriminate))
    as (items & -> & Hitems).
  cbn [is_empty].
  assert (Hlabel :
            forall (label : record -> json) l,
              In l (map label (rec :: recs)) ->
              Pandas.hashable l = false ->
              exists rec', In rec' (rec :: recs)
                           /\ Pandas.hashable (label rec') = false).
  { intros label l Hl Hh. apply in_map_iff in Hl.
    destruct Hl as (rec' & <- & Hin). exists rec'. auto. }
  destruct (Pandas.nunique (seller_logins (rec :: recs))) as [n|e'] eqn:Hn;
    cbn [Py.bind].
  2:{ intros H; inversion H; subst e'.
      destruct (nunique_raises _ _ Hn) as (-> & l & Hl & Hh).
      destruct (Hlabel seller_login l Hl Hh) as (rec' & Hin & Hh').
      right. right. right. split; [reflexivity|].
      exists items, (rec :: recs), rec'. auto 10. }
  unfold calculate_kpis. cbn [is_empty]. rewrite Hn. cbn [Py.bind].
  cbn [Persistence.datetime_now].
  destruct (Pandas.value_counts sort_counts (brands (rec :: recs)))
    as [bc|e'] eqn:Hb; cbn [Py.bind].
  2:{ intros H; inversion H; subst e'.
      destruct (value_counts_raises _ _ _ Hb) as (-> & l & Hl & Hh).
      destruct (Hlabel brand l Hl Hh) as (rec' & Hin & Hh').
      right. right. right. split; [reflexivity|].
      exists items, (rec :: recs), rec'. auto 10. }
  destruct (Pandas.value_counts sort_counts (conditions (rec :: recs)))
    as [cc|e'] eqn:Hc; cbn [Py.bind].
  2:{ intros H; inversion H; subst e'.
      destruct (value_counts_raises _ _ _ Hc) as (-> & l & Hl & Hh).
      destruct (Hlabel condition l Hl Hh) as (rec' & Hin & Hh').
      right. right. right. split; [reflexivity|].
      exists items, (rec :: recs), rec'. auto 10. }
  discriminate.
Qed.

(** A brand that is a list: the loop retains the record, and the count of
    the brands raises.  And an answer whose ["items"] is the number 5: the
    [for] statement raises. *)
Lemma X8_witness :
  (analyze_market_by_product_name Samples.some_sqrt Samples.stable_sort
     (Samples.serving Extra.batch_with_list_brand)
     "nike" "token" Samples.empty_world = Raise TypeError
   /\ exists data recs rec,
        Samples.serving Extra.batch_with_list_brand
          (normalized_search_text "nike") "token" = Items (JList data)
        /\ collect_records data [] = Ok recs
        /\ In rec recs
        /\ (Pandas.hashable (brand rec) = false
            \/ Pandas.hashable (condition rec) = false
            \/ Pandas.hashable (seller_login rec) = false))
  /\ (analyze_market_by_product_name Samples.some_sqrt Samples.stable_sort
        (fun _ _ => Items (JInt 5)) "nike" "token" Samples.empty_world
      = Raise TypeError
      /\ exists data,
           Items (JInt 5) = Items data
           /\ Py.truth data = true
           /\ Extra.not_iterable data).
Proof.
  split.
  - split; [reflexivity|].
    destruct (X8_exceptions_of_an_analysis
                Samples.some_sqrt Samples.stable_sort
                (Samples.serving Extra.batch_with_list_brand)
                "nike" "token" Samples.empty_world TypeError eq_refl)
      as [[H _]|[[_ (data & Hd & _ & Hni)]|[[H _]|[_ H]]]].
    + discriminate.
    + cbv beta delta [Samples.serving] in Hd. inversion Hd; subst data.
      destruct Hni.
    + discriminate.
    + exact H.
  - split; [reflexivity|].
    destruct (X8_exceptions_of_an_analysis
                Samples.some_sqrt Samples.stable_sort
                (fun _ _ => Items (JInt 5))
                "nike" "token" Samples.empty_world TypeError eq_refl)
      as [[H _]|[[_ H]|[[H _]|[_ (data & recs & rec & H & _)]]]].
    + discriminate.
    + exact H.
    + discriminate.
    + cbv beta in H. discriminate.
Defined.

(** ** Batches in several parts *)

Lemma collect_records_result (data : list json) (acc : list record) :
  (forall item, In item data -> Spec.price_of item <> Raise OverflowError) ->
  collect_records data acc = Ok (acc ++ flat_map Spec.retained data)%list.
Proof.
  intros H.
  destruct (collect_records data acc) as [recs|e] eqn:E.
  - apply collect_records_acc in E. congruence.
  - destruct (collect_records_raises _ _ _ E) as (_ & item & Hin & Hp).
    destruct (H item Hin Hp).
Qed.

(** X9. The loop over two batches put end to end returns the records of
    the first followed by the records of the second, and it ends as soon as
    the two loops over the parts end: the pages of a listing can be
    normalized one by one. *)
Theorem X9_loop_over_concatenated_batches :
  forall d1 d2 recs,
    collect_records (d1 ++ d2) [] = Ok recs
    <-> exists r1 r2,
          collect_records d1 [] = Ok r1
          /\ collect_records d2 [] = Ok r2
          /\ recs = (r1 ++ r2)%list.
Proof.
  intros d1 d2 recs. split.
  - intros H.
    assert (Hno : forall item, In item (d1 ++ d2) ->
                               Spec.price_of item <> Raise OverflowError).
    { intros item Hin Hp.
      rewrite (collect_records_overflow (d1 ++ d2) []) in H; [discriminate|].
      exists item. auto. }
    apply collect_records_acc in H. simpl in H.
    exists (flat_map Spec.retained d1), (flat_map Spec.retained d2).
    split; [|split].
    + apply (collect_records_result d1 []). intros item Hin.
      apply Hno, in_or_app. left. exact Hin.
    + apply (collect_records_result d2 []). intros item Hin.
      apply Hno, in_or_app. right. exact Hin.
    + rewrite H. apply flat_map_app.
  - intros (r1 & r2 & H1 & H2 & ->).
    pose proof (collect_records_acc _ _ _ H1) as E1.
    pose proof (collect_records_acc _ _ _ H2) as E2.
    simpl in E1, E2. subst r1 r2. rewrite <- flat_map_app.
    apply (collect_records_result (d1 ++ d2) []).
    intros item Hin Hp. apply in_app_or in Hin. destruct Hin as [Hin|Hin].
    + rewrite (collect_records_overflow d1 []) in H1; [discriminate|].
      exists item. auto.
    + rewrite (collect_records_overflow d2 []) in H2; [discriminate|].
      exists item. auto.
Qed.

(** ** Missing labels *)

Lemma record_of_item_default_brand (item : json) (r : record) :
  Extra.lacks "brand_title" item ->
  record_of_item item = Ok r ->
  brand r = Extra.not_specified.
Proof.
  intros Hlacks. unfold record_of_item.
  bind_ok po Hpo. bind_ok a Ha. bind_ok p Hp.
  destruct item as [| | | | | |d]; try discriminate.
  cbn [Py.get]. rewrite (Hlacks d eq_refl). cbn [Py.bind].
  bind_ok c Hc. bind_ok u Hu. bind_ok l Hl.
  intros H. inversion H. reflexivity.
Qed.

Lemma count_repeated (k : json) (n c : nat) :
  Pandas.label_eqb k k = true ->
  fold_left (fun counts l => Pandas.bump l counts) (repeat k n) [(k, c)]
  = [(k, (c + n)%nat)].
Proof.
  intros Hk. revert c. induction n as [|n IH]; intros c; simpl.
  - rewrite Nat.add_0_r. reflexivity.
  - rewrite Hk, IH. f_equal. f_equal. lia.
Qed.

(** The counts of a column that repeats one label. *)
Lemma value_counts_constant sort_counts (k : json) (labels : list json) :
  Spec.sorts_by_count sort_counts ->
  Spec.countable k ->
  labels <> [] ->
  Forall (fun l => l = k) labels ->
  Pandas.value_counts sort_counts labels = Ok [(k, List.length labels)].
Proof.
  intros Hsort Hk Hne Hall.
  assert (Hrep : labels = repeat k (List.length labels)).
  { clear Hne. induction Hall as [|l labels -> _ IH]; simpl; congruence. }
  destruct (List.length labels) as [|n] eqn:Hn.
  { destruct labels; [contradiction|discriminate]. }
  rewrite Hrep. clear Hrep Hn Hall Hne labels.
  unfold Pandas.value_counts.
  assert (Hh : forallb Pandas.hashable (repeat k (S n)) = true).
  { apply forallb_forall. intros l Hl. apply repeat_spec in Hl. subst l.
    apply Hk. }
  rewrite Hh. f_equal. rewrite present_all.
  - unfold Pandas.count_first_seen. cbn [repeat fold_left Pandas.bump].
    rewrite count_repeated by (apply label_eqb_refl, Hk).
    apply Permutation_length_1_inv. symmetry. apply Hsort.
  - apply Forall_forall. intros l Hl. apply repeat_spec in Hl. subst l.
    apply Hk.
Qed.

(** X10. When no fetched item carries a [brand_title], every record gets
    the default brand, and the brand distribution of a non-empty batch has
    the single entry of that default, counted as many times as items were
    found. *)
Theorem X10_missing_brand_titles_count_as_default :
  forall np_sqrt sort_counts vinted s tok w r w' data,
    Spec.sorts_by_count sort_counts ->
    vinted (normalized_search_text s) tok = Items (JList data) ->
    Forall (Extra.lacks "brand_title") data ->
    analyze_market_by_product_name np_sqrt sort_counts vinted s tok w = Ok (r, w') ->
    itemsFound (summary r) <> 0%nat ->
    brandDistribution r = [(Extra.not_specified, itemsFound (summary r))].
Proof.
  intros np_sqrt sort_counts vinted s tok w r w' data Hsort Hfetch Hlacks Hrun Hne.
  destruct (analyze_inv _ _ _ _ _ _ _ _ Hrun)
    as (data' & items & recs & Hfetch' & Hraw & Hrecs & _ & _ & Hcase).
  rewrite Hfetch in Hfetch'. inversion Hfetch'; subst data'.
  rewrite raw_items_list in Hraw. inversion Hraw; subst items.
  destruct Hcase as [[_ ->]|(Hrne & _ & Hitems & _ & _ & Hb & _)];
    [contradiction Hne; reflexivity|].
  assert (Hall : Forall (fun l => l = Extra.not_specified) (brands recs)).
  { apply collect_records_acc in Hrecs. simpl in Hrecs. subst recs.
    unfold brands. rewrite Forall_forall in *. intros l Hl.
    apply in_map_iff in Hl. destruct Hl as (rec & <- & Hrec).
    apply in_flat_map in Hrec. destruct Hrec as (item & Hitem & Hrec).
    unfold Spec.retained in Hrec.
    destruct (record_of_item item) as [rec'|] eqn:E; [|contradiction].
    destruct Hrec as [<-|[]].
    eapply record_of_item_default_brand; eauto. }
  rewrite (value_counts_constant _ Extra.not_specified) in Hb.
  - inversion Hb. unfold brands. rewrite length_map, Hitems. reflexivity.
  - exact Hsort.
  - split; reflexivity.
  - unfold brands. destruct recs; [contradiction|discriminate].
  - exact Hall.
Qed.

Lemma X10_witness :
  exists r w',
    analyze_market_by_product_name Samples.some_sqrt Samples.stable_sort
      (Samples.serving Extra.batch_without_brand_titles)
      "nike" "token" Samples.empty_world = Ok (r, w')
    /\ brandDistribution r = [(JStr "Non spécifié", 2%nat)].
Proof.
  eexists. eexists. split; [vm_compute; reflexivity|].
  refine (X10_missing_brand_titles_count_as_default
            Samples.some_sqrt Samples.stable_sort (Samples.serving Extra.batch_without_brand_titles)
            "nike" "token" Samples.empty_world _ _
            Extra.batch_without_brand_titles stable_sort_sorts_by_count
            eq_refl _ eq_refl _).
  - repeat constructor; intros d H; inversion H; reflexivity.
  - discriminate.
Defined.

(** ** The shape of the indicators *)

(** X11. The [kpis] of a result are empty exactly when no item was found.
    Otherwise they are the six indicators, in a fixed order, and the
    relative market share and the price elasticity are the text ["N/A"]. *)
Theorem X11_indicators_of_a_result :
  forall np_sqrt sort_counts vinted s tok w r w',
    analyze_market_by_product_name np_sqrt sort_counts vinted s tok w = Ok (r, w') ->
    (kpis r = [] <-> itemsFound (summary r) = 0%nat)
    /\ (itemsFound (summary r) <> 0%nat ->
        map fst (kpis r) = Extra.kpi_keys
        /\ Py.dict_lookup "partDeMarcheRelative" (kpis r) = Some (Str "N/A")
        /\ Py.dict_lookup "elasticitePrix" (kpis r) = Some (Str "N/A")).
Proof.
  intros np_sqrt sort_counts vinted s tok w r w' Hrun.
  destruct (analyze_inv _ _ _ _ _ _ _ _ Hrun)
    as (data & items & recs & _ & _ & _ & _ & _ & Hcase).
  destruct Hcase as [[_ ->]|(Hne & _ & Hitems & _ & Hk & _)].
  - simpl. split; [tauto|]. intros H. contradiction H. reflexivity.
  - destruct (calculate_kpis_inv _ _ _ _ _ Hk) as [score Hkp].
    rewrite Hkp, Hitems.
    assert (Hlen : List.length recs <> 0%nat)
      by (destruct recs; [contradiction|discriminate]).
    split.
    + split; [discriminate|]. intros H. contradiction.
    + intros _. repeat split.
Qed.

Lemma X11_witness :
  exists r w',
    analyze_market_by_product_name Samples.some_sqrt Samples.stable_sort
      (Samples.serving [Samples.item (JStr "20") "Nike" "Bon" "anna"])
      "nike" "token" Samples.empty_world = Ok (r, w')
    /\ map fst (kpis r) = Extra.kpi_keys.
Proof.
  eexists. eexists. split; [vm_compute; reflexivity|].
  refine (proj1 (proj2 (X11_indicators_of_a_result
                          Samples.some_sqrt Samples.stable_sort
                          (Samples.serving [Samples.item (JStr "20") "Nike" "Bon" "anna"])
                          "nike" "token" Samples.empty_world _ _ eq_refl) _)).
  discriminate.
Defined.

(** ** A batch of one record *)

(** X12. When a single record is retained, with a price that is not [nan]
    and a seller login that is present, the minimum, the maximum and the
    median are that price, one item and one seller are found, and the
    competitiveness score is exactly [1.0]: the standard deviation is not
    taken of fewer than two prices. *)
Theorem X12_single_record_batch :
  forall np_sqrt sort_counts vinted s tok w r w' data rec,
    vinted (normalized_search_text s) tok = Items (JList data) ->
    collect_records data [] = Ok [rec] ->
    PyFloat.is_nan (price rec) = false ->
    Spec.countable (seller_login rec) ->
    analyze_market_by_product_name np_sqrt sort_counts vinted s tok w = Ok (r, w') ->
    price_min (priceAnalysis r) = Float (price rec)
    /\ price_max (priceAnalysis r) = Float (price rec)
    /\ median (priceAnalysis r) = Float (price rec)
    /\ summary r = {| itemsFound := 1; sellersCount := 1 |}
    /\ Py.dict_lookup "scoreCompetitivite" (kpis r)
       = Some (Num (Float (PyFloat.Fin 1))).
Proof.
  intros np_sqrt sort_counts vinted s tok w r w' data rec Hfetch Hrecs Hnan [Hh Hna] Hrun.
  destruct (analyze_of_batch _ _ _ _ _ _ _ _ _ _ Hfetch Hrecs Hrun)
    as [[Hnil _]|(_ & Hpa & Hitems & Hsellers & Hk & _)]; [discriminate|].
  assert (Hn : Pandas.nunique (seller_logins [rec]) = Ok 1%nat).
  { unfold Pandas.nunique, seller_logins, Pandas.present.
    cbn [map forallb filter]. rewrite Hh, Hna. reflexivity. }
  rewrite Hn in Hsellers. inversion Hsellers as [Hsc].
  rewrite Hpa. cbn [price_min price_max median].
  unfold Pandas.Series_min, Pandas.Series_max, Pandas.Series_median,
    Pandas.dropna, prices.
  cbn [map filter]. rewrite Hnan. cbn [negb fold_left].
  repeat split.
  - destruct (summary r) as [n sc]. simpl in *. congruence.
  - unfold calculate_kpis in Hk. cbn [is_empty] in Hk. rewrite Hn in Hk.
    cbn [Py.bind] in Hk. inversion Hk. reflexivity.
Qed.

Lemma X12_witness :
  exists r w',
    analyze_market_by_product_name Samples.some_sqrt Samples.stable_sort
      (Samples.serving [Samples.item (JStr "12.50") "Nike" "Bon" "anna";
                        Samples.item_without_login (JStr "30")])
      "nike" "token" Samples.empty_world = Ok (r, w')
    /\ median (priceAnalysis r) = Float (PyFloat.Fin (25 # 2))
    /\ Py.dict_lookup "scoreCompetitivite" (kpis r)
       = Some (Num (Float (PyFloat.Fin 1))).
Proof.
  eexists. eexists. split; [vm_compute; reflexivity|].
  destruct (X12_single_record_batch
              Samples.some_sqrt Samples.stable_sort
              (Samples.serving [Samples.item (JStr "12.50") "Nike" "Bon" "anna";
                                Samples.item_without_login (JStr "30")])
              "nike" "token" Samples.empty_world _ _
              [Samples.item (JStr "12.50") "Nike" "Bon" "anna";
               Samples.item_without_login (JStr "30")]
              {| price := PyFloat.Fin (25 # 2); brand := JStr "Nike";
                 condition := JStr "Bon"; seller_login := JStr "anna" |}
              eq_refl eq_refl eq_refl (conj eq_refl eq_refl) eq_refl)
    as (_ & _ & Hmed & _ & Hscore).
  split; assumption.
Defined.

(** ** The sign of the trend *)

Lemma of_exact_nonneg (q : Q) :
  (0 <= q)%Q -> Extra.nonneg (PyFloat.of_exact q).
Proof.
  intros Hq. unfold PyFloat.of_exact, Extra.nonneg.
  destruct (Qle_bool _ _).
  - unfold PyFloat.Qlt_bool.
    assert (Qle_bool 0 q = true) as -> by (apply Qle_bool_iff; exact Hq).
    reflexivity.
  - simpl. apply Qle_bool_iff. rewrite Qred_correct. exact Hq.
Qed.

Lemma of_exact_nonpos (q : Q) :
  (q <= 0)%Q -> Extra.nonpos (PyFloat.of_exact q).
Proof.
  intros Hq. unfold PyFloat.of_exact, Extra.nonpos.
  destruct (Qle_bool _ _) eqn:E.
  - unfold PyFloat.Qlt_bool.
    destruct (Qle_bool 0 q) eqn:E0; [|reflexivity].
    apply Qle_bool_iff in E0, E.
    assert (Hz : (q == 0)%Q) by (apply Qle_antisym; assumption).
    rewrite Hz in E. vm_compute in E. contradiction E. reflexivity.
  - simpl. apply Qle_bool_iff. rewrite Qred_correct. exact Hq.
Qed.

Lemma round_half_even_nonneg (y : Q) :
  (0 <= y)%Q -> 0 <= PyFloat.round_half_even y.
Proof.
  destruct y as [n d]. unfold Qle, PyFloat.round_half_even.
  cbn [Qnum Qden]. intros Hn. rewrite Z.mul_1_r in Hn.
  assert (Hfl : 0 <= n / Z.pos d) by (apply Z.div_pos; lia).
  repeat match goal with |- context [if ?b then _ else _] => destruct b end;
    lia.
Qed.

Lemma round_half_even_nonpos (y : Q) :
  (y <= 0)%Q -> PyFloat.round_half_even y <= 0.
Proof.
  destruct y as [n d]. unfold Qle, PyFloat.round_half_even.
  cbn [Qnum Qden]. intros Hn. rewrite Z.mul_1_r in Hn.
  pose proof (Z.div_mod n (Z.pos d) ltac:(lia)) as Hdm.
  pose proof (Z.mod_pos_bound n (Z.pos d) ltac:(lia)) as Hmod.
  destruct (2 * (n mod Z.pos d) <? Z.pos d)%Z eqn:E1.
  - assert (Hfl : n / Z.pos d <= 0) by nia. exact Hfl.
  - apply Z.ltb_ge in E1.
    assert (Hfl : n / Z.pos d + 1 <= 0) by nia.
    destruct (Z.pos d <? 2 * (n mod Z.pos d))%Z; [lia|].
    destruct (Z.even (n / Z.pos d)); lia.
Qed.

Lemma round2_nonneg (x : pyfloat) :
  Extra.nonneg x -> Extra.nonneg (PyFloat.round2 x).
Proof.
  destruct x as [q| | |]; simpl; try (intros H; exact H).
  intros H. apply Qle_bool_iff in H. apply of_exact_nonneg.
  apply Qle_shift_div_l; [reflexivity|]. rewrite Qmult_0_l.
  rewrite <- (Zle_Qle 0). apply round_half_even_nonneg.
  apply Qmult_le_0_compat; [exact H|discriminate].
Qed.

Lemma round2_nonpos (x : pyfloat) :
  Extra.nonpos x -> Extra.nonpos (PyFloat.round2 x).
Proof.
  destruct x as [q| | |]; simpl; try (intros H; exact H).
  intros H. apply Qle_bool_iff in H. apply of_exact_nonpos.
  apply Qle_shift_div_r; [reflexivity|]. rewrite Qmult_0_l.
  rewrite <- (Zle_Qle _ 0). apply round_half_even_nonpos.
  setoid_replace 0%Q with (0 * 100)%Q by reflexivity.
  apply Qmult_le_compat_r; [exact H|discriminate].
Qed.

Lemma float_sub_sign (c o : Q) :
  ((o <= c)%Q -> Extra.nonneg (PyFloat.sub (PyFloat.Fin c) (PyFloat.Fin o)))
  /\ ((c <= o)%Q -> Extra.nonpos (PyFloat.sub (PyFloat.Fin c) (PyFloat.Fin o))).
Proof.
  unfold PyFloat.sub, PyFloat.neg, PyFloat.fin. cbn [PyFloat.add].
  split; intros H.
  - apply of_exact_nonneg. rewrite Qred_correct. lra.
  - apply of_exact_nonpos. rewrite Qred_correct. lra.
Qed.

Lemma positive_sign (o : Q) : (0 < o)%Q -> PyFloat.Qsgn o = 1.
Proof.
  destruct o as [n d]. unfold Qlt, PyFloat.Qsgn. cbn [Qnum Qden].
  intros H. apply Z.sgn_pos. lia.
Qed.

Lemma positive_not_zero (o : Q) : (0 < o)%Q -> Qeq_bool o 0 = false.
Proof.
  intros H. destruct (Qeq_bool o 0) eqn:E; [|reflexivity].
  apply Qeq_bool_iff in E. rewrite E in H. discriminate.
Qed.

Lemma float_div_sign (x : pyfloat) (o : Q) :
  (0 < o)%Q ->
  (Extra.nonneg x -> Extra.nonneg (PyFloat.div x (PyFloat.Fin o)))
  /\ (Extra.nonpos x -> Extra.nonpos (PyFloat.div x (PyFloat.Fin o))).
Proof.
  intros Ho. pose proof (positive_not_zero o Ho) as Hz.
  pose proof (positive_sign o Ho) as Hs.
  destruct x as [q| | |]; unfold Extra.nonneg, Extra.nonpos; cbn [PyFloat.div];
    try rewrite Hz; try rewrite Hs; cbn [PyFloat.sgn];
    split; intros H; try discriminate; try reflexivity.
  - apply Qle_bool_iff in H. change (inject_Z 0) with 0%Q in H.
    apply of_exact_nonneg.
    apply Qle_shift_div_l; [exact Ho|]. lra.
  - apply Qle_bool_iff in H. change (inject_Z 0) with 0%Q in H.
    apply of_exact_nonpos.
    apply Qle_shift_div_r; [exact Ho|]. lra.
Qed.

Lemma float_times_100_sign (x : pyfloat) :
  (Extra.nonneg x -> Extra.nonneg (PyFloat.mul x float_100))
  /\ (Extra.nonpos x -> Extra.nonpos (PyFloat.mul x float_100)).
Proof.
  destruct x as [q| | |]; unfold Extra.nonneg, Extra.nonpos, float_100;
    cbn [PyFloat.mul PyFloat.of_Z];
    split; intros H; try discriminate; try reflexivity.
  - apply Qle_bool_iff in H. change (inject_Z 0) with 0%Q in H.
    apply of_exact_nonneg.
    change (inject_Z 100) with 100%Q. lra.
  - apply Qle_bool_iff in H. change (inject_Z 0) with 0%Q in H.
    apply of_exact_nonpos.
    change (inject_Z 100) with 100%Q. lra.
Qed.

(** X13. With two or more averages in the history and a positive oldest
    average, the trend has the sign of the price movement: it is not
    negative when the mean of the batch is at least the oldest average, and
    not positive when the mean is at most the oldest average. *)
Theorem X13_trend_follows_the_price :
  forall np_sqrt df s w kp c o,
    calculate_kpis np_sqrt df s w = Ok kp ->
    let hp := historical_prices (Persistence.get_historical_analyses s 30 w) in
    (2 <= List.length hp)%nat ->
    to_float (last hp (Int 0)) = PyFloat.Fin o ->
    (0 < o)%Q ->
    to_float (average_price df) = PyFloat.Fin c ->
    exists trend,
      Py.dict_lookup "tendancePrix30Jours" kp = Some (Num (Float trend))
      /\ ((o <= c)%Q -> Extra.nonneg trend)
      /\ ((c <= o)%Q -> Extra.nonpos trend).
Proof.
  intros np_sqrt df s w kp c o H hp Hlen Hold Ho Hcur.
  destruct (calculate_kpis_inv _ _ _ _ _ H) as [score ->].
  cbn [Py.dict_lookup String.eqb Ascii.eqb Bool.eqb].
  unfold price_trend. fold hp.
  assert (Hlen' : List.length (Persistence.get_historical_analyses s 30 w)
                  = List.length hp) by (symmetry; apply length_map).
  rewrite Hlen'.
  assert ((1 <? List.length hp)%nat = true) as -> by (apply Nat.ltb_lt; lia).
  unfold gt. rewrite Hold, Hcur.
  change (to_float (Int 0)) with (PyFloat.Fin 0).
  assert (PyFloat.gtb (PyFloat.Fin o) (PyFloat.Fin 0) = true) as ->
    by (apply ltb_finite; exact Ho).
  eexists. split; [reflexivity|].
  destruct (float_sub_sign c o) as [Hs1 Hs2].
  split; intros Hco.
  - apply round2_nonneg, float_times_100_sign, (float_div_sign _ o Ho), Hs1, Hco.
  - apply round2_nonpos, float_times_100_sign, (float_div_sign _ o Ho), Hs2, Hco.
Qed.

(** After the averages [10] (oldest) and [20], a batch of mean [5]. *)
Lemma X13_witness :
  exists kp trend,
    calculate_kpis Samples.some_sqrt (Samples.one_record (PyFloat.of_Z 5)) "nike"
      (Samples.world_with [Samples.past "nike" 1 10; Samples.past "nike" 2 20])
    = Ok kp
    /\ Py.dict_lookup "tendancePrix30Jours" kp = Some (Num (Float trend))
    /\ Extra.nonpos trend.
Proof.
  destruct (X13_trend_follows_the_price
              Samples.some_sqrt (Samples.one_record (PyFloat.of_Z 5)) "nike"
              (Samples.world_with [Samples.past "nike" 1 10; Samples.past "nike" 2 20])
              _ 5%Q 10%Q eq_refl)
    as (trend & Hlookup & _ & Hdown);
    [simpl; lia|reflexivity|reflexivity|reflexivity|].
  match type of Hlookup with Py.dict_lookup _ ?kp = _ => exists kp, trend end.
  split; [reflexivity|]. split; [exact Hlookup|].
  apply Hdown. discriminate.
Defined.

(** ** The sign of the recommended price *)





(** ** The minimum and the maximum *)

Lemma float_leb_refl (x : pyfloat) :
  PyFloat.is_nan x = false -> PyFloat.leb x x = true.
Proof.
  destruct x; simpl; try discriminate; try reflexivity.
  intros _. apply Qle_bool_iff. apply Qle_refl.
Qed.

Lemma float_leb_trans (x y z : pyfloat) :
  PyFloat.leb x y = true -> PyFloat.leb y z = true -> PyFloat.leb x z = true.
Proof.
  destruct x, y, z; simpl; try discriminate; try reflexivity.
  intros H1 H2. apply Qle_bool_iff in H1, H2. apply Qle_bool_iff.
  eapply Qle_trans; eassumption.
Qed.

Lemma float_ltb_leb (x y : pyfloat) :
  PyFloat.ltb x y = true -> PyFloat.leb x y = true.
Proof.
  destruct x, y; simpl; try discriminate; try reflexivity.
  unfold PyFloat.Qlt_bool. intros H. apply negb_true_iff in H.
  apply Qle_bool_iff. apply Qlt_le_weak. apply Qnot_le_lt.
  intros Hle. apply Qle_bool_iff in Hle. congruence.
Qed.

Lemma float_not_ltb_leb (x y : pyfloat) :
  PyFloat.is_nan x = false -> PyFloat.is_nan y = false ->
  PyFloat.ltb y x = false -> PyFloat.leb x y = true.
Proof.
  destruct x, y; simpl; try discriminate; try reflexivity.
  unfold PyFloat.Qlt_bool. intros _ _ H. apply negb_false_iff in H. exact H.
Qed.

(** The least of a column without [nan] is one of its values, below all. *)
Lemma fold_fmin_least (l : list pyfloat) (a : pyfloat) :
  PyFloat.is_nan a = false ->
  Forall (fun x => PyFloat.is_nan x = false) l ->
  let m := fold_left Pandas.fmin l a in
  In m (a :: l)
  /\ forall x, In x (a :: l) -> PyFloat.leb m x = true.
Proof.
  intros Ha Hl. revert a Ha.
  induction Hl as [|y l Hy _ IH]; intros a Ha; cbn [fold_left].
  - split; [left; reflexivity|].
    intros x [<-|[]]. apply float_leb_refl, Ha.
  - assert (Hmin : PyFloat.is_nan (Pandas.fmin a y) = false)
      by (unfold Pandas.fmin; destruct (PyFloat.ltb y a); assumption).
    destruct (IH _ Hmin) as [Hin Hle]. split.
    + destruct Hin as [Hin|Hin]; [|right; right; exact Hin].
      rewrite <- Hin. unfold Pandas.fmin.
      destruct (PyFloat.ltb y a); [right; left|left]; reflexivity.
    + assert (Hhead : PyFloat.leb (fold_left Pandas.fmin l (Pandas.fmin a y))
                                  (Pandas.fmin a y) = true)
        by (apply Hle; left; reflexivity).
      intros x [<-|[<-|Hx]].
      * eapply float_leb_trans; [exact Hhead|]. unfold Pandas.fmin.
        destruct (PyFloat.ltb y a) eqn:E;
          [apply float_ltb_leb, E|apply float_leb_refl, Ha].
      * eapply float_leb_trans; [exact Hhead|]. unfold Pandas.fmin.
        destruct (PyFloat.ltb y a) eqn:E;
          [apply float_leb_refl, Hy|apply float_not_ltb_leb; assumption].
      * apply Hle. right. exact Hx.
Qed.

Lemma fold_fmax_greatest (l : list pyfloat) (a : pyfloat) :
  PyFloat.is_nan a = false ->
  Forall (fun x => PyFloat.is_nan x = false) l ->
  let m := fold_left Pandas.fmax l a in
  In m (a :: l)
  /\ forall x, In x (a :: l) -> PyFloat.leb x m = true.
Proof.
  intros Ha Hl. revert a Ha.
  induction Hl as [|y l Hy _ IH]; intros a Ha; cbn [fold_left].
  - split; [left; reflexivity|].
    intros x [<-|[]]. apply float_leb_refl, Ha.
  - assert (Hmax : PyFloat.is_nan (Pandas.fmax a y) = false)
      by (unfold Pandas.fmax; destruct (PyFloat.ltb a y); assumption).
    destruct (IH _ Hmax) as [Hin Hle]. split.
    + destruct Hin as [Hin|Hin]; [|right; right; exact Hin].
      rewrite <- Hin. unfold Pandas.fmax.
      destruct (PyFloat.ltb a y); [right; left|left]; reflexivity.
    + assert (Hhead : PyFloat.leb (Pandas.fmax a y)
                                  (fold_left Pandas.fmax l (Pandas.fmax a y)) = true)
        by (apply Hle; left; reflexivity).
      intros x [<-|[<-|Hx]].
      * eapply float_leb_trans; [|exact Hhead]. unfold Pandas.fmax.
        destruct (PyFloat.ltb a y) eqn:E;
          [apply float_ltb_leb, E|apply float_leb_refl, Ha].
      * eapply float_leb_trans; [|exact Hhead]. unfold Pandas.fmax.
        destruct (PyFloat.ltb a y) eqn:E;
          [apply float_leb_refl, Hy|apply float_not_ltb_leb; assumption].
      * apply Hle. right. exact Hx.
Qed.

Lemma dropna_spec (xs : list pyfloat) (x : pyfloat) :
  In x (Pandas.dropna xs) <-> In x xs /\ PyFloat.is_nan x = false.
Proof.
  unfold Pandas.dropna. rewrite filter_In, negb_true_iff. reflexivity.
Qed.

(** X15. When some retained price is not [nan], the minimum and the
    maximum of the price block are prices of retained records, the
    minimum below and the maximum above every retained price that is not
    [nan] (infinite prices included). *)
Theorem X15_min_and_max_are_prices_of_the_batch :
  forall np_sqrt sort_counts vinted s tok w r w' data recs p0,
    vinted (normalized_search_text s) tok = Items (JList data) ->
    collect_records data [] = Ok recs ->
    In p0 (prices recs) ->
    PyFloat.is_nan p0 = false ->
    analyze_market_by_product_name np_sqrt sort_counts vinted s tok w = Ok (r, w') ->
    exists lo hi,
      price_min (priceAnalysis r) = Float lo
      /\ price_max (priceAnalysis r) = Float hi
      /\ In lo (prices recs) /\ In hi (prices recs)
      /\ forall p, In p (prices recs) -> PyFloat.is_nan p = false ->
                   PyFloat.leb lo p = true /\ PyFloat.leb p hi = true.
Proof.
  intros np_sqrt sort_counts vinted s tok w r w' data recs p0 Hfetch Hrecs Hp0 Hnan Hrun.
  destruct (analyze_of_batch _ _ _ _ _ _ _ _ _ _ Hfetch Hrecs Hrun)
    as [[-> _]|(_ & Hpa & _)]; [contradiction|].
  rewrite Hpa. cbn [price_min price_max].
  unfold Pandas.Series_min, Pandas.Series_max.
  assert (Hall : Forall (fun x => PyFloat.is_nan x = false)
                        (Pandas.dropna (prices recs))).
  { apply Forall_forall. intros x Hx. apply dropna_spec in Hx. apply Hx. }
  destruct (Pandas.dropna (prices recs)) as [|a l] eqn:E.
  { assert (Hin : In p0 (Pandas.dropna (prices recs)))
      by (apply dropna_spec; auto).
    rewrite E in Hin. contradiction. }
  inversion Hall as [|a' l' Ha Hl]; subst.
  destruct (fold_fmin_least l a Ha Hl) as [Hlo_in Hlo].
  destruct (fold_fmax_greatest l a Ha Hl) as [Hhi_in Hhi].
  exists (fold_left Pandas.fmin l a), (fold_left Pandas.fmax l a).
  split; [reflexivity|]. split; [reflexivity|].
  rewrite <- E in Hlo_in, Hhi_in, Hlo, Hhi.
  split; [apply dropna_spec in Hlo_in; apply Hlo_in|].
  split; [apply dropna_spec in Hhi_in; apply Hhi_in|].
  intros p Hp Hpn.
  assert (Hin : In p (Pandas.dropna (prices recs))) by (apply dropna_spec; auto).
  split; [apply Hlo, Hin|apply Hhi, Hin].
Qed.

(** The prices [inf], [nan] and [3]. *)
Lemma X15_witness :
  exists r w',
    analyze_market_by_product_name Samples.some_sqrt Samples.stable_sort
      (Samples.serving [Samples.item (JStr "inf") "Nike" "Bon" "anna";
                        Samples.item (JStr "nan") "Zara" "Bon" "bob";
                        Samples.item (JInt 3) "Puma" "Bon" "carl"])
      "nike" "token" Samples.empty_world = Ok (r, w')
    /\ price_min (priceAnalysis r) = Float (PyFloat.Fin 3)
    /\ price_max (priceAnalysis r) = Float PyFloat.PInf
    /\ exists lo hi,
         price_min (priceAnalysis r) = Float lo
         /\ price_max (priceAnalysis r) = Float hi
         /\ PyFloat.leb lo (PyFloat.Fin 3) = true
         /\ PyFloat.leb (PyFloat.Fin 3) hi = true.
Proof.
  eexists. eexists. split; [vm_compute; reflexivity|].
  split; [reflexivity|]. split; [reflexivity|].
  destruct (X15_min_and_max_are_prices_of_the_batch
              Samples.some_sqrt Samples.stable_sort
              (Samples.serving [Samples.item (JStr "inf") "Nike" "Bon" "anna";
                                Samples.item (JStr "nan") "Zara" "Bon" "bob";
                                Samples.item (JInt 3) "Puma" "Bon" "carl"])
              "nike" "token" Samples.empty_world _ _
              [Samples.item (JStr "inf") "Nike" "Bon" "anna";
               Samples.item (JStr "nan") "Zara" "Bon" "bob";
               Samples.item (JInt 3) "Puma" "Bon" "carl"]
              [ {| price := PyFloat.PInf; brand := JStr "Nike";
                   condition := JStr "Bon"; seller_login := JStr "anna" |};
                {| price := PyFloat.NaN; brand := JStr "Zara";
                   condition := JStr "Bon"; seller_login := JStr "bob" |};
                {| price := PyFloat.Fin 3; brand := JStr "Puma";
                   condition := JStr "Bon"; seller_login := JStr "carl" |} ]
              (PyFloat.Fin 3) eq_refl eq_refl
              (or_intror (or_intror (or_introl eq_refl))) eq_refl eq_refl)
    as (lo & hi & Hlo & Hhi & _ & _ & Hall).
  exists lo, hi. split; [exact Hlo|]. split; [exact Hhi|].
  apply (Hall (PyFloat.Fin 3)); [right; right; left; reflexivity|reflexivity].
Defined.
